(** * wattwise: the synthetic solar-efficiency simulator and its training pipeline

    A shallow embedding of
      - [src/train_model.py]   ([generate_synthetic_dataset], [train_model]),
      - [src/data_ingestion.py] ([WeatherDatabase.insert_weather_data]),
    of the "weather impact project".

    Conventions of the embedding.
      - A Python [float] is a real number ([R]); [math.sin] and [math.pi] are
        [sin] and [PI].  Rounding errors of IEEE doubles are not modelled.
      - A Python [int] is a [Z].
      - The process-wide generator of the [random] module is threaded
        explicitly as a value of type [rng].
      - The wall clock read by [datetime.now()] is an explicit argument: the
        proleptic Gregorian ordinal of today's date.
      - An exception is a value [Raise e] of the type [result]. *)

From Stdlib Require Import Reals Lra Lia ZArith Ascii DecimalString.
From stdpp Require Import base strings list gmap.

Local Open Scope R_scope.

(** ** Exceptions and fallible computations *)

Inductive exn : Type :=
  | OverflowError
  | ValueError
  | KeyError (key : string)
  | DatabaseError (msg : string).

Inductive result (A : Type) : Type :=
  | Ok (a : A)
  | Raise (e : exn).
Arguments Ok {A} a.
Arguments Raise {A} e.

Definition rbind {A B} (c : result A) (k : A -> result B) : result B :=
  match c with
  | Ok a => k a
  | Raise e => Raise e
  end.

Notation "'do' x <- c ; k" := (rbind c (fun x => k))
  (at level 10, x name, c at level 100, k at level 200).

(** ** Python's built-in [round(x, 2)] *)

Module Builtins.

(** Nearest integer, ties to the even neighbour ([round] of Python 3). *)
Definition round_half_even (x : R) : Z :=
  let f := Zfloor x in
  let d := x - IZR f in
  if Rlt_dec d (1 / 2) then f
  else if Rlt_dec (1 / 2) d then (f + 1)%Z
  else if Z.even f then f else (f + 1)%Z.

(** [round(x, 2)] *)
Definition round2 (x : R) : R := IZR (round_half_even (x * 100)) / 100.

End Builtins.
Import Builtins.

(** ** [datetime]: dates as proleptic Gregorian ordinals *)

Module Datetime.
Local Open Scope Z_scope.

Definition MAXORDINAL : Z := 3652059.     (* date(9999, 12, 31).toordinal() *)
Definition DI400Y : Z := 146097.
Definition DI100Y : Z := 36524.
Definition DI4Y : Z := 1461.
Definition MAX_DELTA_DAYS : Z := 999999999.

(** A date the library can represent: 0001-01-01 .. 9999-12-31. *)
Definition valid_date (d : Z) : Prop := 1 <= d <= MAXORDINAL.

(** [timedelta(days=n)]: the day count must fit the library's range. *)
Definition timedelta (n : Z) : result Z :=
  if Z.abs n <=? MAX_DELTA_DAYS then Ok n else Raise OverflowError.

(** [d + delta] on dates; a result outside the calendar raises. *)
Definition date_add (d delta : Z) : result Z :=
  let r := d + delta in
  if (0 <? r) && (r <=? MAXORDINAL) then Ok r else Raise OverflowError.

(** [d - delta] is [d + (-delta)]. *)
Definition date_sub (d delta : Z) : result Z := date_add d (- delta).

(** [date.fromordinal(n).timetuple().tm_yday]: the day of the year, 1-based,
    following the library's [_ord2ymd]. *)
Definition tm_yday (n : Z) : Z :=
  let n := n - 1 in
  let n400 := n / DI400Y in
  let n := n mod DI400Y in
  let n100 := n / DI100Y in
  let n := n mod DI100Y in
  let n4 := n / DI4Y in
  let n := n mod DI4Y in
  let n1 := n / 365 in
  let n := n mod 365 in
  if (n1 =? 4) || (n100 =? 4) then 366 else n + 1.

End Datetime.
Import Datetime.

(** ** The [random] module *)

Module Random.

(** The generator: the sequence of 53-bit words it is going to emit and how
    many of them were consumed. *)
Record rng : Type := mkRng { words : nat -> Z; consumed : nat }.

Definition advance (k : nat) (g : rng) : rng :=
  {| words := words g; consumed := (consumed g + k)%nat |}.

(** The [i]-th float the generator will return from now on, in [[0, 1)]. *)
Definition peek (g : rng) (i : nat) : R :=
  IZR (words g (consumed g + i)%nat mod 2 ^ 53) / IZR (2 ^ 53).

(** [random.random()] *)
Definition random (g : rng) : R * rng := (peek g 0, advance 1 g).

(** [random.uniform(a, b)]: [a + (b - a) * random()] *)
Definition uniform (a b : R) (g : rng) : R * rng :=
  let (u, g') := random g in (a + (b - a) * u, g').

(** [random.seed(s)]: the generator restarts on the word sequence of the
    seed.  [twister] stands for the interpreter's Mersenne Twister, which maps
    a seed to its sequence. *)
Definition seed (twister : Z -> nat -> Z) (s : Z) : rng :=
  {| words := twister s; consumed := 0 |}.

End Random.
Import Random.

(** ** [train_model.py] *)

Module TrainModel.

(** One row of the data frame (the dict appended to [data]). *)
Record record : Type := mkRecord {
  temperature : R;
  cloud_cover : R;
  humidity : R;
  hour_of_day : Z;
  day_of_year : Z;
  solar_output_efficiency : R
}.

(** The body of [for hour in range(24)], lines 49-113: one row, and the
    generator after the four draws. *)
Definition hour_body (day_of_year hour : Z) (g : rng) : record * rng :=
  (* Temperature with daily and seasonal cycles *)
  let base_temp := 25 in
  let seasonal_variation := 5 * sin ((IZR day_of_year - 80) * 2 * PI / 365) in
  let daily_variation := 8 * sin ((IZR hour - 6) * PI / 12) in
  let (noise, g) := uniform (-2) 2 g in
  let temperature := base_temp + seasonal_variation + daily_variation + noise in
  (* Cloud cover (0-100%) *)
  let (cloud_base, g) := uniform 10 70 g in
  let cloud_cover := Rmax 0 (Rmin 100 (cloud_base - (temperature - 25) * 0.3)) in
  (* Humidity correlated with cloud cover *)
  let humidity_base := 40 + (cloud_cover * 0.4) in
  let (noise, g) := uniform (-10) 10 g in
  let humidity := Rmax 30 (Rmin 95 (humidity_base + noise)) in
  (* Solar output efficiency *)
  let solar_efficiency := 100 in
  let solar_efficiency :=
    if (hour <? 6)%Z || (hour >? 18)%Z then 0
    else
      let hour_factor := sin ((IZR hour - 6) * PI / 12) in
      solar_efficiency * hour_factor in
  let cloud_penalty := (cloud_cover / 100) * 0.8 in
  let solar_efficiency := solar_efficiency * (1 - cloud_penalty) in
  let temp_factor := 1.0 in
  let temp_factor :=
    if Rlt_dec temperature 15 then 0.7 + (temperature - 15) * 0.02
    else if Rgt_dec temperature 35 then 1.0 - (temperature - 35) * 0.02
    else 0.9 + (25 - Rabs (temperature - 25)) * 0.004 in
  let solar_efficiency := solar_efficiency * temp_factor in
  let humidity_penalty := (humidity - 30) / 100 * 0.15 in
  let solar_efficiency := solar_efficiency * (1 - humidity_penalty) in
  let seasonal_factor := 0.95 + 0.1 * sin ((IZR day_of_year - 80) * 2 * PI / 365) in
  let solar_efficiency := solar_efficiency * seasonal_factor in
  let (noise, g) := uniform (-2) 2 g in
  let solar_efficiency := solar_efficiency + noise in
  let solar_efficiency := Rmax 0 (Rmin 100 solar_efficiency) in
  ({| temperature := round2 temperature;
      cloud_cover := round2 cloud_cover;
      humidity := round2 humidity;
      hour_of_day := hour;
      day_of_year := day_of_year;
      solar_output_efficiency := round2 solar_efficiency |}, g).

(** [for hour in range(24): ... data.append(...)] *)
Fixpoint hours_loop (day_of_year : Z) (hours : list Z)
    (data : list record) (g : rng) : list record * rng :=
  match hours with
  | [] => (data, g)
  | hour :: rest =>
      let (row, g) := hour_body day_of_year hour g in
      hours_loop day_of_year rest (data ++ [row]) g
  end.

(** [for day in range(days): ...] *)
Fixpoint days_loop (start_date : Z) (range_days : list Z)
    (data : list record) (g : rng) : result (list record * rng) :=
  match range_days with
  | [] => Ok (data, g)
  | day :: rest =>
      do delta <- timedelta day;
      do current_date <- date_add start_date delta;
      let day_of_year := tm_yday current_date in
      let (data, g) := hours_loop day_of_year (seqZ 0 24) data g in
      days_loop start_date rest data g
  end.

(** [generate_synthetic_dataset(days)], run on the date [now] with the
    generator [g]: the rows of the data frame and the generator left. *)
Definition generate_synthetic_dataset (now days : Z) (g : rng)
    : result (list record * rng) :=
  let data := [] in
  do delta <- timedelta days;
  do start_date <- date_sub now delta;
  days_loop start_date (seqZ 0 days) data g.

(** *** The locals of the loop body, one by one

    The same lines of [generate_synthetic_dataset], cut where the body draws
    from the generator, so that each local is a function of the draws and of
    the locals before it ([hour_body_unfold] below relates the two). *)

(** Line 53, [noise] being the draw [uniform(-2, 2)]. *)
Definition temperature_at (day_of_year hour : Z) (noise : R) : R :=
  let base_temp := 25 in
  let seasonal_variation := 5 * sin ((IZR day_of_year - 80) * 2 * PI / 365) in
  let daily_variation := 8 * sin ((IZR hour - 6) * PI / 12) in
  base_temp + seasonal_variation + daily_variation + noise.

(** Line 57, [cloud_base] being the draw [uniform(10, 70)]. *)
Definition cloud_cover_at (temperature cloud_base : R) : R :=
  Rmax 0 (Rmin 100 (cloud_base - (temperature - 25) * 0.3)).

(** Lines 60-61, [noise] being the draw [uniform(-10, 10)]. *)
Definition humidity_at (cloud_cover noise : R) : R :=
  let humidity_base := 40 + (cloud_cover * 0.4) in
  Rmax 30 (Rmin 95 (humidity_base + noise)).

(** Lines 83-89. *)
Definition temp_factor (temperature : R) : R :=
  if Rlt_dec temperature 15 then 0.7 + (temperature - 15) * 0.02
  else if Rgt_dec temperature 35 then 1.0 - (temperature - 35) * 0.02
  else 0.9 + (25 - Rabs (temperature - 25)) * 0.004.

(** Lines 65-98: [solar_efficiency] just before the noise is added. *)
Definition efficiency_before_noise (hour day_of_year : Z)
    (temperature cloud_cover humidity : R) : R :=
  let solar_efficiency := 100 in
  let solar_efficiency :=
    if (hour <? 6)%Z || (hour >? 18)%Z then 0
    else
      let hour_factor := sin ((IZR hour - 6) * PI / 12) in
      solar_efficiency * hour_factor in
  let cloud_penalty := (cloud_cover / 100) * 0.8 in
  let solar_efficiency := solar_efficiency * (1 - cloud_penalty) in
  let solar_efficiency := solar_efficiency * temp_factor temperature in
  let humidity_penalty := (humidity - 30) / 100 * 0.15 in
  let solar_efficiency := solar_efficiency * (1 - humidity_penalty) in
  let seasonal_factor := 0.95 + 0.1 * sin ((IZR day_of_year - 80) * 2 * PI / 365) in
  solar_efficiency * seasonal_factor.

(** Lines 101-104, [noise] being the draw [uniform(-2, 2)]. *)
Definition solar_efficiency_at (hour day_of_year : Z)
    (temperature cloud_cover humidity noise : R) : R :=
  let solar_efficiency :=
    efficiency_before_noise hour day_of_year temperature cloud_cover humidity in
  let solar_efficiency := solar_efficiency + noise in
  Rmax 0 (Rmin 100 solar_efficiency).

(** Lines 106-113: the row built from the locals. *)
Definition row_of (day_of_year hour : Z)
    (temperature cloud_cover humidity solar_efficiency : R) : record :=
  {| temperature := round2 temperature;
     cloud_cover := round2 cloud_cover;
     humidity := round2 humidity;
     hour_of_day := hour;
     day_of_year := day_of_year;
     solar_output_efficiency := round2 solar_efficiency |}.

(** The four draws of one iteration, in the order the body makes them. *)
Record draws : Type := mkDraws {
  temperature_noise : R;      (* uniform(-2, 2),   line 53  *)
  cloud_base : R;             (* uniform(10, 70),  line 56  *)
  humidity_noise : R;         (* uniform(-10, 10), line 61  *)
  efficiency_noise : R        (* uniform(-2, 2),   line 101 *)
}.

Definition draws_of (g : rng) : draws :=
  {| temperature_noise := -2 + (2 - -2) * peek g 0;
     cloud_base := 10 + (70 - 10) * peek g 1;
     humidity_noise := -10 + (10 - -10) * peek g 2;
     efficiency_noise := -2 + (2 - -2) * peek g 3 |}.

(** What [random.uniform] can return for the four calls. *)
Definition draws_in_range (d : draws) : Prop :=
  -2 <= temperature_noise d < 2 /\
  10 <= cloud_base d < 70 /\
  -10 <= humidity_noise d < 10 /\
  -2 <= efficiency_noise d < 2.

(** The row of one iteration as a function of its draws. *)
Definition row_at (day_of_year hour : Z) (d : draws) : record :=
  let temperature := temperature_at day_of_year hour (temperature_noise d) in
  let cloud_cover := cloud_cover_at temperature (cloud_base d) in
  let humidity := humidity_at cloud_cover (humidity_noise d) in
  let solar_efficiency :=
    solar_efficiency_at hour day_of_year temperature cloud_cover humidity
      (efficiency_noise d) in
  row_of day_of_year hour temperature cloud_cover humidity solar_efficiency.

(** A row that some iteration of the loops can append. *)
Definition generated_row (r : record) : Prop :=
  exists (day_of_year hour : Z) (d : draws),
    (0 <= hour <= 23)%Z /\ draws_in_range d /\ r = row_at day_of_year hour d.

(** A row in the ranges the data model promises. *)
Definition percentages_in_range (r : record) : Prop :=
  0 <= cloud_cover r <= 100 /\
  0 <= humidity r <= 100 /\
  0 <= solar_output_efficiency r <= 100.

(** The rows one run of the inner loop appends, as a function of the
    generator it starts from. *)
Fixpoint hours_rows (day_of_year : Z) (hours : list Z) (g : rng) : list record :=
  match hours with
  | [] => []
  | hour :: rest =>
      row_at day_of_year hour (draws_of g) :: hours_rows day_of_year rest (advance 4 g)
  end.

(** The rows the outer loop appends when no date computation raises. *)
Fixpoint days_rows (start_date : Z) (range_days : list Z) (g : rng) : list record :=
  match range_days with
  | [] => []
  | day :: rest =>
      hours_rows (tm_yday (start_date + day)) (seqZ 0 24) g
        ++ days_rows start_date rest (advance 96 g)
  end.

(** *** The target as the specification words it (section 4.1, step 5) *)

Definition spec_temperature_factor (temperature : R) : R :=
  if Rlt_dec temperature 15 then 0.7 + 0.02 * (temperature - 15)
  else if Rlt_dec 35 temperature then 1.0 - 0.02 * (temperature - 35)
  else 0.9 + 0.004 * (25 - Rabs (temperature - 25)).

Definition spec_efficiency_before_noise (hour day_of_year : Z)
    (temperature cloud_cover humidity : R) : R :=
  100 * sin (PI * (IZR hour - 6) / 12)
      * (1 - 0.8 * cloud_cover / 100)
      * spec_temperature_factor temperature
      * (1 - 0.15 * (humidity - 30) / 100)
      * (0.95 + 0.1 * sin (2 * PI * (IZR day_of_year - 80) / 365)).

(** *** [train_model] *)

(** A row restricted to [feature_columns], in that order. *)
Record features : Type := mkFeatures {
  f_temperature : R;
  f_cloud_cover : R;
  f_humidity : R;
  f_hour_of_day : Z;
  f_day_of_year : Z
}.

Definition features_of (r : record) : features :=
  {| f_temperature := temperature r;
     f_cloud_cover := cloud_cover r;
     f_humidity := humidity r;
     f_hour_of_day := hour_of_day r;
     f_day_of_year := day_of_year r |}.

(** The keyword arguments of [xgb.XGBRegressor]. *)
Record hyperparameters : Type := mkHyperparameters {
  n_estimators : Z;
  max_depth : Z;
  learning_rate : R;
  subsample : R;
  colsample_bytree : R;
  random_state : Z;
  objective : string
}.

(** The dict that [train_model] returns next to the model. *)
Record metrics : Type := mkMetrics { rmse : R; mae : R; r2 : R }.

(** The third-party code that [train_model] calls and that is not part of the
    repository: numpy's seeded permutation, the regressor of xgboost and the
    three metrics of scikit-learn. *)
Record libraries : Type := mkLibraries {
  regressor : Type;
  (* [numpy.random.RandomState(seed).permutation(n)] *)
  permutation : Z -> nat -> list nat;
  (* [XGBRegressor(...).fit(X, y, eval_set=...)] *)
  fit : hyperparameters -> list features -> list R
        -> list (list features * list R) -> result regressor;
  (* [model.predict(X)] *)
  predict : regressor -> list features -> list R;
  mean_squared_error : list R -> list R -> R;
  mean_absolute_error : list R -> list R -> R;
  r2_score : list R -> list R -> R
}.

(** What numpy promises of a permutation of [range(n)]. *)
Definition permutation_law (L : libraries) : Prop :=
  forall (seed : Z) (n : nat), Permutation (permutation L seed n) (seq 0 n).

(** [array[indices]] *)
Definition safe_indexing {A : Type} (array : list A) (indices : list nat) : list A :=
  omap (fun i => array !! i) indices.

(** scikit-learn's [_validate_shuffle_split] for a float [test_size] and
    [train_size=None]: the sizes of the two parts, [(n_train, n_test)]. *)
Definition validate_shuffle_split (n_samples : nat) (test_size : R)
    : result (nat * nat) :=
  if Rle_dec test_size 0 then Raise ValueError
  else if Rle_dec 1 test_size then Raise ValueError
  else
    let n_test := Z.to_nat (Zceil (test_size * INR n_samples)) in
    let n_train := (n_samples - n_test)%nat in
    if (n_train =? 0)%nat then Raise ValueError
    else Ok (n_train, n_test).

(** scikit-learn's [train_test_split(X, y, test_size=..., random_state=...,
    shuffle=True)]: the first [n_test] indices of the seeded permutation are
    the test part, the next [n_train] the train part. *)
Definition train_test_split (L : libraries) (X : list features) (y : list R)
    (test_size : R) (seed : Z)
    : result (list features * list features * list R * list R) :=
  let n_samples := length X in
  do sizes <- validate_shuffle_split n_samples test_size;
  let (n_train, n_test) := sizes in
  let indices := permutation L seed n_samples in
  let ind_test := take n_test indices in
  let ind_train := take n_train (drop n_test indices) in
  Ok (safe_indexing X ind_train, safe_indexing X ind_test,
      safe_indexing y ind_train, safe_indexing y ind_test).

(** [train_model(df)], lines 136-202 (the prints left out).  A data frame
    without rows has no columns, and selecting the feature columns raises. *)
Definition train_model (L : libraries) (df : list record)
    : result (regressor L * metrics) :=
  do _ <- (if decide (df = []) then Raise (KeyError "temperature") else Ok tt);
  let X := map features_of df in
  let y := map solar_output_efficiency df in
  (* Train/test split (80/20) *)
  do split <- train_test_split L X y 0.2 42 ;
  let '(X_train, X_test, y_train, y_test) := split in
  let params :=
    {| n_estimators := 200; max_depth := 6; learning_rate := 0.1;
       subsample := 0.8; colsample_bytree := 0.8; random_state := 42;
       objective := "reg:squarederror" |} in
  do model <- fit L params X_train y_train [(X_test, y_test)];
  let y_pred := predict L model X_test in
  let rmse := sqrt (mean_squared_error L y_test y_pred) in
  let mae := mean_absolute_error L y_test y_pred in
  let r2 := r2_score L y_test y_pred in
  Ok (model, {| rmse := rmse; mae := mae; r2 := r2 |}).

(** The parameters that [train_model] passes to the regressor. *)
Definition train_model_params : hyperparameters :=
  {| n_estimators := 200; max_depth := 6; learning_rate := 0.1;
     subsample := 0.8; colsample_bytree := 0.8; random_state := 42;
     objective := "reg:squarederror" |}.

Definition mean (l : list R) : R := fold_right Rplus 0 l / INR (length l).

Definition abs_errors (y_true y_pred : list R) : list R :=
  map (fun p => Rabs (fst p - snd p)) (combine y_true y_pred).

(** Libraries for a run that can be followed by hand: the permutation leaves
    [range(n)] as it is, the model is the mean of the targets it was fitted
    on, and every metric is the mean absolute error. *)
Definition toy_libraries : libraries :=
  {| regressor := R;
     permutation := fun _ n => seq 0 n;
     fit := fun _ _ y _ => Ok (mean y);
     predict := fun m X => map (fun _ => m) X;
     mean_squared_error := fun y_true y_pred => mean (abs_errors y_true y_pred);
     mean_absolute_error := fun y_true y_pred => mean (abs_errors y_true y_pred);
     r2_score := fun y_true y_pred => mean (abs_errors y_true y_pred) |}.

(** The split and the fit that [train_model] performs on a data frame of at
    least two rows, spelled out: [n_test] rows of the permutation of seed 42
    are held out, the others are fitted. *)
Definition held_out_size (df : list record) : nat := ((length df + 4) / 5)%nat.

Definition test_partition (L : libraries) (df : list record) : list record :=
  safe_indexing df (take (held_out_size df) (permutation L 42 (length df))).

Definition train_partition (L : libraries) (df : list record) : list record :=
  safe_indexing df (drop (held_out_size df) (permutation L 42 (length df))).

Definition metrics_on (L : libraries) (model : regressor L) (part : list record)
    : metrics :=
  let y_test := map solar_output_efficiency part in
  let y_pred := predict L model (map features_of part) in
  {| rmse := sqrt (mean_squared_error L y_test y_pred);
     mae := mean_absolute_error L y_test y_pred;
     r2 := r2_score L y_test y_pred |}.

(** *** Concrete runs used to exercise the statements *)

(** 2026-11-04, as an ordinal: [date(2026, 11, 4).toordinal()]. *)
Definition a_wednesday : Z := 739924.

(** A generator whose every word is [w]. *)
Definition constant_rng (w : Z) : rng := {| words := fun _ => w; consumed := 0 |}.

(** [random()] of this generator is always 0.75, so [uniform(-2, 2)] is 1. *)
Definition three_quarters_rng : rng := constant_rng (3 * 2 ^ 51).

(** [random.seed(s); generate_synthetic_dataset(days)] on the date [now]: the
    data frame, or the exception. *)
Definition seeded_dataset (twister : Z -> nat -> Z) (s now days : Z)
    : result (list record) :=
  do run <- generate_synthetic_dataset now days (seed twister s);
  Ok (fst run).

(** A twister that gives every seed the words of [three_quarters_rng]. *)
Definition constant_twister : Z -> nat -> Z := fun _ _ => (3 * 2 ^ 51)%Z.

(** The row that the run of one day on [a_wednesday] with
    [three_quarters_rng] appends at the given hour. *)
Definition sample_row (hour : nat) : record :=
  row_at (tm_yday (a_wednesday - 1)) (Z.of_nat hour)
    (draws_of (advance (4 * hour) three_quarters_rng)).

(** A data frame of two rows, and what [train_model] makes of it with
    [toy_libraries]. *)
Definition toy_frame : list record := [sample_row 0; sample_row 12].

Definition toy_model : R := mean [solar_output_efficiency (sample_row 12)].

Definition toy_metrics : metrics := metrics_on toy_libraries toy_model [sample_row 0].

End TrainModel.

(** ** [data_ingestion.py] *)

Module DataIngestion.

(** The values a weather dict can hold. *)
Inductive pyval : Type :=
  | PyFloat (x : R)
  | PyInt (n : Z)
  | PyStr (s : string)
  | PyNone.

(** The [sqlite3] module and the console, as far as [insert_weather_data]
    uses them.  [world] is everything outside the process (the database file,
    the terminal); an operation returns its result or the exception it raises,
    and the world it leaves.  The exceptions are the subclasses of [Exception]
    of the type [exn]; an asynchronous [KeyboardInterrupt] is not modelled. *)
Record sqlite3 : Type := mkSqlite3 {
  world : Type;
  connection : Type;
  cursor : Type;
  connect : string -> world -> result connection * world;
  get_cursor : connection -> world -> result cursor * world;
  execute : cursor -> string -> list pyval -> world -> result unit * world;
  commit : connection -> world -> result unit * world;
  close : connection -> world -> result unit * world;
  (* [print(f"Database insertion error: {e}")] *)
  print_error : exn -> world -> world
}.

(** A computation that may raise and that acts on the world. *)
Definition io (W A : Type) : Type := W -> result A * W.

Definition io_ret {W A} (a : A) : io W A := fun w => (Ok a, w).

Definition io_bind {W A B} (c : io W A) (k : A -> io W B) : io W B :=
  fun w =>
    match c w with
    | (Ok a, w') => k a w'
    | (Raise e, w') => (Raise e, w')
    end.

(** [try: body except Exception as e: handler(e)] *)
Definition try_except {W A} (body : io W A) (handler : exn -> io W A) : io W A :=
  fun w =>
    match body w with
    | (Ok a, w') => (Ok a, w')
    | (Raise e, w') => handler e w'
    end.

Notation "'run' x <- c ; k" := (io_bind c (fun x => k))
  (at level 10, x name, c at level 100, k at level 200).

(** [weather_data[key]] *)
Definition getitem {W} (weather_data : gmap string pyval) (key : string)
    : io W pyval :=
  fun w =>
    match weather_data !! key with
    | Some v => (Ok v, w)
    | None => (Raise (KeyError key), w)
    end.

Definition INSERT_SQL : string :=
  "INSERT INTO weather_data (timestamp, temperature, cloud_cover, humidity, city) VALUES (?, ?, ?, ?, ?)".

(** The [try] block of [insert_weather_data], lines 124-140. *)
Definition insert_try_block (S : sqlite3) (db_path : string)
    (weather_data : gmap string pyval) : io (world S) bool :=
  run conn <- connect S db_path;
  run cursor <- get_cursor S conn;
  run timestamp <- getitem weather_data "timestamp";
  run temperature <- getitem weather_data "temperature";
  run cloud_cover <- getitem weather_data "cloud_cover";
  run humidity <- getitem weather_data "humidity";
  run city <- getitem weather_data "city";
  run _ <- execute S cursor INSERT_SQL
             [timestamp; temperature; cloud_cover; humidity; city];
  run _ <- commit S conn;
  run _ <- close S conn;
  io_ret true.

(** [WeatherDatabase.insert_weather_data(self, weather_data)], with
    [self.db_path] as [db_path]. *)
Definition insert_weather_data (S : sqlite3) (db_path : string)
    (weather_data : gmap string pyval) : io (world S) bool :=
  try_except (insert_try_block S db_path weather_data)
    (fun e w => (Ok false, print_error S e w)).

(** The write succeeds, from the world [w] to the world [w']: the connection
    opens, the dict has the five fields, and the INSERT, the commit and the
    close go through. *)
Definition write_succeeds (S : sqlite3) (db_path : string)
    (weather_data : gmap string pyval) (w w' : world S) : Prop :=
  exists (conn : connection S) (cur : cursor S)
         (timestamp temperature cloud_cover humidity city : pyval)
         (w1 w2 w3 w4 : world S),
    connect S db_path w = (Ok conn, w1)
    /\ get_cursor S conn w1 = (Ok cur, w2)
    /\ weather_data !! "timestamp"%string = Some timestamp
    /\ weather_data !! "temperature"%string = Some temperature
    /\ weather_data !! "cloud_cover"%string = Some cloud_cover
    /\ weather_data !! "humidity"%string = Some humidity
    /\ weather_data !! "city"%string = Some city
    /\ execute S cur INSERT_SQL
         [timestamp; temperature; cloud_cover; humidity; city] w2 = (Ok tt, w3)
    /\ commit S conn w3 = (Ok tt, w4)
    /\ close S conn w4 = (Ok tt, w').

End DataIngestion.

(** ** [data_ingestion.py]: the generator, the schema, the reads, the ETL *)

Module WeatherStore.
Import DataIngestion.

(** [SyntheticWeatherGenerator(city).generate_weather_data()], lines 33-71.
    The two readings of the clock are arguments: [current_hour] is
    [datetime.now().hour] and [timestamp] is [datetime.now().isoformat()]. *)
Definition generate_weather_data (city : string) (current_hour : Z)
    (timestamp : string) (g : rng) : gmap string pyval * rng :=
  let base_temp := 25 in
  let temp_variation := 8 in
  let daily_cycle := sin ((IZR current_hour - 6) * PI / 12) in
  let (noise, g) := uniform (-2) 2 g in
  let temperature := base_temp + (temp_variation * daily_cycle) + noise in
  let (cloud_base, g) := uniform 10 70 g in
  let cloud_cover := Rmax 0 (Rmin 100 (cloud_base - (temperature - 25) * 0.5)) in
  let humidity_base := 40 + (cloud_cover * 0.4) in
  let (noise, g) := uniform (-10) 10 g in
  let humidity := Rmax 30 (Rmin 95 (humidity_base + noise)) in
  (<["temperature"%string := PyFloat (round2 temperature)]>
     (<["cloud_cover"%string := PyFloat (round2 cloud_cover)]>
        (<["humidity"%string := PyFloat (round2 humidity)]>
           (<["city"%string := PyStr city]>
              (<["timestamp"%string := PyStr timestamp]> ∅)))),
   g).

(** The statements of the module, with their white space normalised. *)
Definition CREATE_SQL : string :=
  "CREATE TABLE IF NOT EXISTS weather_data (id INTEGER PRIMARY KEY AUTOINCREMENT, timestamp TEXT NOT NULL, temperature REAL NOT NULL, cloud_cover REAL NOT NULL, humidity REAL NOT NULL, city TEXT NOT NULL)".

Definition SELECT_SQL : string :=
  "SELECT id, timestamp, temperature, cloud_cover, humidity, city FROM weather_data ORDER BY id DESC LIMIT ?".

(** What the module needs beyond [sqlite3]'s writes: the rows of a cursor, and
    [Path(db_path).parent.mkdir(parents=True, exist_ok=True)]. *)
Record sqlite3_reader : Type := mkReader {
  engine :> sqlite3;
  fetchall : cursor engine -> world engine
             -> result (list (list pyval)) * world engine;
  parent_mkdir : string -> world engine -> result unit * world engine
}.

(** [WeatherDatabase._initialize_database(self)], lines 94-111. *)
Definition initialize_database (S : sqlite3) (db_path : string)
    : io (world S) unit :=
  run conn <- connect S db_path;
  run cursor <- get_cursor S conn;
  run _ <- execute S cursor CREATE_SQL [];
  run _ <- commit S conn;
  run _ <- close S conn;
  io_ret tt.

(** [WeatherDatabase(db_path)], lines 79-92; the object is its [db_path]. *)
Definition WeatherDatabase (S : sqlite3_reader) (db_path : string)
    : io (world S) string :=
  run _ <- parent_mkdir S db_path;
  run _ <- initialize_database S db_path;
  io_ret db_path.

(** [dict(zip(columns, row))]: a later pair overrides an earlier one. *)
Definition dict_zip (columns : list string) (row : list pyval) : gmap string pyval :=
  foldl (fun d kv => <[fst kv := snd kv]> d) ∅ (zip columns row).

Definition COLUMNS : list string :=
  ["id"; "timestamp"; "temperature"; "cloud_cover"; "humidity"; "city"]%string.

(** [WeatherDatabase.get_latest_records(self, limit)], lines 146-170. *)
Definition get_latest_records (S : sqlite3_reader) (db_path : string) (limit : Z)
    : io (world S) (list (gmap string pyval)) :=
  run conn <- connect S db_path;
  run cursor <- get_cursor S conn;
  run _ <- execute S cursor SELECT_SQL [PyInt limit];
  let columns := COLUMNS in
  run fetched <- fetchall S cursor;
  let results := map (fun row => dict_zip columns row) fetched in
  run _ <- close S conn;
  io_ret results.

(** [field in weather_data] *)
Definition has_field (weather_data : gmap string pyval) (field : string) : bool :=
  match weather_data !! field with Some _ => true | None => false end.

(** [generate_and_store_weather(city, db_path)], lines 173-206, without its
    prints: the dict that was stored, or [None]; and the generator left. *)
Definition generate_and_store_weather (S : sqlite3_reader) (city db_path : string)
    (current_hour : Z) (timestamp : string) (g : rng)
    : io (world S) (option (gmap string pyval) * rng) :=
  let (weather_data, g) := generate_weather_data city current_hour timestamp g in
  let required_fields :=
    ["temperature"; "cloud_cover"; "humidity"; "city"; "timestamp"]%string in
  if negb (forallb (has_field weather_data) required_fields) then
    io_ret (None, g)
  else
    run db <- WeatherDatabase S db_path;
    run success <- insert_weather_data S db weather_data;
    if success then io_ret (Some weather_data, g)
    else io_ret (None, g).

(** A dict as [generate_weather_data] builds them: text for the time stamp
    and the city, floats for the three measures. *)
Definition well_typed (weather_data : gmap string pyval) : Prop :=
  exists (timestamp city : string) (temperature cloud_cover humidity : R),
    weather_data !! "timestamp"%string = Some (PyStr timestamp)
    /\ weather_data !! "temperature"%string = Some (PyFloat temperature)
    /\ weather_data !! "cloud_cover"%string = Some (PyFloat cloud_cover)
    /\ weather_data !! "humidity"%string = Some (PyFloat humidity)
    /\ weather_data !! "city"%string = Some (PyStr city).

End WeatherStore.

(** ** A reference engine for the three statements

    SQLite as the three statements of [data_ingestion.py] see it, kept in
    memory.  A table is the list of its rows, oldest first; the row at
    position [i] has [id = i + 1] (AUTOINCREMENT on a table that is only ever
    appended to).  [CREATE TABLE] takes effect at once; an [INSERT] is pending
    until [commit] and dropped by [close]; every column is [NOT NULL].  A
    path without the table stands for a missing file as well as for an empty
    one.  The conversions of the column affinities are parameters. *)

Module ReferenceEngine.
Import DataIngestion WeatherStore.

Record memory : Type := mkMemory {
  tables : gmap string (list (list pyval));
  pending : gmap string (list (list pyval));
  fetched : gmap string (list (list pyval));
  printed : list exn
}.

Definition is_null (v : pyval) : bool :=
  match v with PyNone => true | _ => false end.

(** The rows a connection to [path] sees, each with its id in front. *)
Definition numbered (rows : list (list pyval)) : list (list pyval) :=
  imap (fun i row => PyInt (Z.of_nat i + 1) :: row) rows.

(** [ORDER BY id DESC LIMIT n]; a negative [n] is no limit. *)
Definition latest (n : Z) (rows : list (list pyval)) : list (list pyval) :=
  let newest_first := reverse (numbered rows) in
  if (n <? 0)%Z then newest_first else take (Z.to_nat n) newest_first.

Section Engine.
Variables real_affinity text_affinity : pyval -> pyval.

Definition mem_execute (path : string) (sql : string) (params : list pyval)
    (w : memory) : result unit * memory :=
  if decide (sql = CREATE_SQL) then
    match tables w !! path with
    | Some _ => (Ok tt, w)
    | None =>
        (Ok tt, {| tables := <[path := []]> (tables w); pending := pending w;
                   fetched := fetched w; printed := printed w |})
    end
  else if decide (sql = INSERT_SQL) then
    match tables w !! path, params with
    | None, _ => (Raise (DatabaseError "no such table: weather_data"), w)
    | Some _, [timestamp; temperature; cloud_cover; humidity; city] =>
        if existsb is_null params then
          (Raise (DatabaseError "NOT NULL constraint failed"), w)
        else
          let row := [text_affinity timestamp; real_affinity temperature;
                      real_affinity cloud_cover; real_affinity humidity;
                      text_affinity city] in
          (Ok tt, {| tables := tables w;
                     pending := <[path := default [] (pending w !! path) ++ [row]]>
                                  (pending w);
                     fetched := fetched w; printed := printed w |})
    | Some _, _ => (Raise (DatabaseError "Incorrect number of bindings supplied"), w)
    end
  else if decide (sql = SELECT_SQL) then
    match tables w !! path, params with
    | None, _ => (Raise (DatabaseError "no such table: weather_data"), w)
    | Some rows, [PyInt n] =>
        let visible := rows ++ default [] (pending w !! path) in
        (Ok tt, {| tables := tables w; pending := pending w;
                   fetched := <[path := latest n visible]> (fetched w);
                   printed := printed w |})
    | Some _, _ => (Raise (DatabaseError "datatype mismatch"), w)
    end
  else (Raise (DatabaseError "statement outside the model"), w).

Definition mem_commit (path : string) (w : memory) : result unit * memory :=
  match tables w !! path with
  | Some rows =>
      (Ok tt, {| tables := <[path := rows ++ default [] (pending w !! path)]> (tables w);
                 pending := delete path (pending w);
                 fetched := fetched w; printed := printed w |})
  | None => (Ok tt, w)
  end.

Definition mem_close (path : string) (w : memory) : result unit * memory :=
  (Ok tt, {| tables := tables w; pending := delete path (pending w);
             fetched := delete path (fetched w); printed := printed w |}).

Definition mem_fetchall (path : string) (w : memory)
    : result (list (list pyval)) * memory :=
  (Ok (default [] (fetched w !! path)),
   {| tables := tables w; pending := pending w;
      fetched := delete path (fetched w); printed := printed w |}).

(** The engine: a connection and a cursor are the path they were opened on. *)
Definition memory_sqlite : sqlite3_reader :=
  {| engine :=
       {| world := memory;
          connection := string;
          cursor := string;
          connect := fun path w => (Ok path, w);
          get_cursor := fun conn w => (Ok conn, w);
          execute := mem_execute;
          commit := mem_commit;
          close := mem_close;
          print_error := fun e w =>
            {| tables := tables w; pending := pending w;
               fetched := fetched w; printed := printed w ++ [e] |} |};
     fetchall := mem_fetchall;
     parent_mkdir := fun _ w => (Ok tt, w) |}.

End Engine.

(** The affinities leave a float in a REAL column and a text in a TEXT column
    as they are. *)
Definition affinity_law (real_affinity text_affinity : pyval -> pyval) : Prop :=
  (forall x, real_affinity (PyFloat x) = PyFloat x)
  /\ (forall s, text_affinity (PyStr s) = PyStr s).

(** No statement is in flight on [path], and its table holds [rows]. *)
Definition at_rest (w : memory) (path : string) (rows : list (list pyval)) : Prop :=
  tables w !! path = Some rows
  /\ pending w !! path = None
  /\ fetched w !! path = None.

Definition empty_memory : memory :=
  {| tables := ∅; pending := ∅; fetched := ∅; printed := [] |}.

(** The engine whose affinities convert nothing. *)
Definition plain_engine : sqlite3_reader := memory_sqlite (fun v => v) (fun v => v).

(** A memory in which the only table is the one of [path], holding [rows]. *)
Definition one_table (path : string) (rows : list (list pyval)) : memory :=
  {| tables := {[ path := rows ]}; pending := ∅; fetched := ∅; printed := [] |}.

(** The dict of the repository's insertion test. *)
Definition test_data : gmap string pyval :=
  <["timestamp"%string := PyStr "2024-01-01T12:00:00"]>
    (<["temperature"%string := PyFloat 25.5]>
       (<["cloud_cover"%string := PyFloat 60.0]>
          (<["humidity"%string := PyFloat 70.0]>
             (<["city"%string := PyStr "TestCity"]> ∅)))).

(** The row that a well-typed dict is stored as. *)
Definition values_of (weather_data : gmap string pyval) : list pyval :=
  map (fun key => default PyNone (weather_data !! key))
    ["timestamp"; "temperature"; "cloud_cover"; "humidity"; "city"]%string.

End ReferenceEngine.

(** ** Exceptions and values of [utils.py] and [app.py] *)

Module Python.
Import DataIngestion.

(** The exceptions that the dashboard and the helpers can meet, all
    subclasses of [Exception]: those of the first part, and four more. *)
Inductive pyexn : Type :=
  | Exn (e : exn)
  | IndexError
  | TypeError
  | NameError (name : string)
  | UnboundLocalError (name : string).

Inductive outcome (A : Type) : Type :=
  | Return (a : A)
  | Throw (e : pyexn).
Arguments Return {A} a.
Arguments Throw {A} e.

Definition obind {A B} (c : outcome A) (k : A -> outcome B) : outcome B :=
  match c with
  | Return a => k a
  | Throw e => Throw e
  end.

Notation "'try' x <- c ; k" := (obind c (fun x => k))
  (at level 10, x name, c at level 100, k at level 200).

Definition QUOTE : string := String "034"%char EmptyString.
Definition NL : string := String "010"%char EmptyString.

(** [v > bound] for a value that may not be a number. *)
Definition greater (v : pyval) (bound : R) : outcome bool :=
  match v with
  | PyFloat x => Return (if Rgt_dec x bound then true else false)
  | PyInt n => Return (if Rgt_dec (IZR n) bound then true else false)
  | PyStr _ | PyNone => Throw TypeError
  end.

(** [format(v, spec)] for a float format [spec] ([.1f], [.0f]); [render] is
    the formatting of a float, which the embedding does not compute. *)
Definition format_float (render : R -> string) (v : pyval) : outcome string :=
  match v with
  | PyFloat x => Return (render x)
  | PyInt n => Return (render (IZR n))
  | PyStr _ => Throw (Exn ValueError)
  | PyNone => Throw TypeError
  end.

(** [s.startswith(QUOTE)], [s.endswith(QUOTE)] and [s[1:-1]]. *)
Definition starts_with_quote (s : string) : bool :=
  match s with
  | String c _ => Ascii.eqb c "034"%char
  | EmptyString => false
  end.

Fixpoint ends_with_quote (s : string) : bool :=
  match s with
  | EmptyString => false
  | String c EmptyString => Ascii.eqb c "034"%char
  | String _ rest => ends_with_quote rest
  end.

Fixpoint without_last (s : string) : string :=
  match s with
  | EmptyString => EmptyString
  | String _ EmptyString => EmptyString
  | String c rest => String c (without_last rest)
  end.

Definition slice_1_minus_1 (s : string) : string :=
  match s with
  | EmptyString => EmptyString
  | String _ rest => without_last rest
  end.

End Python.

(** ** [utils.py] *)

Module Utils.
Import DataIngestion Python.
Local Open Scope string_scope.

(** The [google.generativeai] client as [generate_weather_advice] uses it,
    the formatting of floats and of values in an f-string, and [str.strip].
    [net] is the world outside the process. *)
Record genai : Type := mkGenai {
  net : Type;
  client : Type;
  response : Type;
  configure : string -> net -> outcome unit * net;
  GenerativeModel : string -> net -> outcome client * net;
  (* [model.generate_content(prompt, generation_config=...)] with
     temperature 0.9, top_p 0.95 and max_output_tokens 100 *)
  generate_content : client -> string -> R -> R -> Z -> net
                     -> outcome response * net;
  (* [response.text] *)
  text : response -> net -> outcome string * net;
  strip : string -> string;
  render_1f : R -> string;
  str : pyval -> string
}.

(** [prediction_data.get(key, default)] *)
Definition dict_get (d : gmap string pyval) (key : string) (default : pyval) : pyval :=
  match d !! key with Some v => v | None => default end.

Definition STELLAR : string :=
  "ğŸŒ Stellar solar conditions! Perfect time to run energy-hungry appliances and show your utility company who's boss.".
Definition DECENT : string :=
  "â˜€ï¸ Decent solar output today. Maybe save the heavy stuff for noon, but you're good to go!".
Definition COFFEE_BREAK : string :=
  "â˜ï¸ Solar panels taking a coffee break today. Consider running major appliances during peak sun hours (or just blame it on the clouds).".

(** The handler of line 81: [solar_efficiency] is the local of that name, if
    line 37 has bound it. *)
Definition fallback_advice (solar_efficiency : option pyval) : outcome string :=
  match solar_efficiency with
  | None => Throw (UnboundLocalError "solar_efficiency")
  | Some v =>
      try above_70 <- greater v 70;
      if above_70 then Return STELLAR
      else
        try above_40 <- greater v 40;
        if above_40 then Return DECENT else Return COFFEE_BREAK
  end.

Definition SYSTEM_PROMPT : string :=
  "You are an energy consultant. Based on this solar output prediction, " ++ NL
  ++ "give a 1-sentence actionable recommendation for a homeowner (e.g., " ++ QUOTE ++ "Run your washing machine at 2 PM" ++ QUOTE ++ "). " ++ NL
  ++ "Keep it witty and fun, but genuinely helpful.".

(** Lines 37-79, once the client is there: the prompt, the call, the answer
    without its quotes. *)
Definition ask (G : genai) (model : client G) (prediction_data : gmap string pyval)
    : net G -> outcome string * net G :=
  fun w =>
    let solar_efficiency := dict_get prediction_data "solar_efficiency" (PyInt 0) in
    let temperature := dict_get prediction_data "temperature" (PyInt 0) in
    let cloud_cover := dict_get prediction_data "cloud_cover" (PyInt 0) in
    let humidity := dict_get prediction_data "humidity" (PyInt 0) in
    let hour_of_day := dict_get prediction_data "hour_of_day" (PyInt 12) in
    let confidence_lower := dict_get prediction_data "confidence_lower" (PyInt 0) in
    let confidence_upper := dict_get prediction_data "confidence_upper" (PyInt 0) in
    let system_prompt := SYSTEM_PROMPT in
    let user_prompt :=
      try efficiency <- format_float (render_1f G) solar_efficiency;
      try lower <- format_float (render_1f G) confidence_lower;
      try upper <- format_float (render_1f G) confidence_upper;
      Return (NL ++ "Solar Output Prediction:" ++ NL
              ++ "- Predicted Efficiency: " ++ efficiency ++ "%" ++ NL
              ++ "- Confidence Interval: " ++ lower ++ "% - " ++ upper ++ "%" ++ NL
              ++ "- Temperature: " ++ str G temperature ++ "Â°C" ++ NL
              ++ "- Cloud Cover: " ++ str G cloud_cover ++ "%" ++ NL
              ++ "- Humidity: " ++ str G humidity ++ "%" ++ NL
              ++ "- Time of Day: " ++ str G hour_of_day ++ ":00" ++ NL
              ++ NL
              ++ "Based on this data, provide one witty, actionable recommendation for a homeowner."
              ++ NL) in
    match user_prompt with
    | Throw e => (Throw e, w)
    | Return user_prompt =>
        match generate_content G model (system_prompt ++ NL ++ NL ++ user_prompt)
                0.9 0.95 100 w with
        | (Throw e, w1) => (Throw e, w1)
        | (Return response, w1) =>
            match text G response w1 with
            | (Throw e, w2) => (Throw e, w2)
            | (Return answer, w2) =>
                let advice := strip G answer in
                let advice :=
                  if starts_with_quote advice && ends_with_quote advice
                  then slice_1_minus_1 advice else advice in
                (Return advice, w2)
            end
        end
    end.

(** [generate_weather_advice(prediction_data, api_key)], lines 12-88.  The
    handler of [except Exception] reads the local [solar_efficiency], which
    exists only once line 37 has run. *)
Definition generate_weather_advice (G : genai) (prediction_data : gmap string pyval)
    (api_key : string) : net G -> outcome string * net G :=
  fun w =>
    match configure G api_key w with
    | (Throw _, w1) => (fallback_advice None, w1)
    | (Return _, w1) =>
        match GenerativeModel G "gemini-1.5-flash" w1 with
        | (Throw _, w2) => (fallback_advice None, w2)
        | (Return model, w2) =>
            let solar_efficiency :=
              dict_get prediction_data "solar_efficiency" (PyInt 0) in
            match ask G model prediction_data w2 with
            | (Return advice, w3) => (Return advice, w3)
            | (Throw _, w3) => (fallback_advice (Some solar_efficiency), w3)
            end
        end
    end.

(** [categorize_efficiency(efficiency)], lines 113-132. *)
Definition categorize_efficiency (efficiency : R) : string :=
  if Rge_dec efficiency 80 then "Excellent â­â­â­"
  else if Rge_dec efficiency 60 then "Good â­â­"
  else if Rge_dec efficiency 40 then "Moderate â­"
  else if Rge_dec efficiency 20 then "Low â˜ï¸"
  else "Very Low ğŸŒ§ï¸".

(** The five labels, from the lowest to the highest. *)
Definition category_rank (label : string) : option nat :=
  if decide (label = "Very Low ğŸŒ§ï¸") then Some 0%nat
  else if decide (label = "Low â˜ï¸") then Some 1%nat
  else if decide (label = "Moderate â­") then Some 2%nat
  else if decide (label = "Good â­â­") then Some 3%nat
  else if decide (label = "Excellent â­â­â­") then Some 4%nat
  else None.

(** [get_time_emoji(hour)], lines 91-110. *)
Definition get_time_emoji (hour : Z) : string :=
  if (5 <=? hour)%Z && (hour <? 8)%Z then "ğŸŒ…"
  else if (8 <=? hour)%Z && (hour <? 12)%Z then "ğŸŒ¤ï¸"
  else if (12 <=? hour)%Z && (hour <? 17)%Z then "â˜€ï¸"
  else if (17 <=? hour)%Z && (hour <? 20)%Z then "ğŸŒ†"
  else "ğŸŒ™".

(** A client that is never reached: every call is refused. *)
Definition offline (strip : string -> string) (render : R -> string)
    (str : pyval -> string) : genai :=
  {| net := unit; client := unit; response := unit;
     configure := fun _ w => (Return tt, w);
     GenerativeModel := fun _ w => (Return tt, w);
     generate_content := fun _ _ _ _ _ w => (Throw (Exn (DatabaseError "offline")), w);
     text := fun _ w => (Return "", w);
     strip := strip; render_1f := render; str := str |}.

(** A library whose [configure] refuses the key. *)
Definition no_client (strip : string -> string) (render : R -> string)
    (str : pyval -> string) : genai :=
  {| net := unit; client := unit; response := unit;
     configure := fun _ w => (Throw (Exn ValueError), w);
     GenerativeModel := fun _ w => (Return tt, w);
     generate_content := fun _ _ _ _ _ w => (Return tt, w);
     text := fun _ w => (Return "", w);
     strip := strip; render_1f := render; str := str |}.

(** The number that a value stands for in a comparison. *)
Definition number_of (v : pyval) : option R :=
  match v with
  | PyFloat x => Some x
  | PyInt n => Some (IZR n)
  | PyStr _ | PyNone => None
  end.

End Utils.

(** ** [app.py] *)

Module Dashboard.
Import TrainModel DataIngestion Python.
Local Open Scope string_scope.

(** [predict_for_hour(model, temperature, cloud_cover, humidity, hour,
    day_of_year, panel_capacity)], lines 408-419. *)
Definition predict_for_hour (L : libraries) (model : regressor L)
    (temperature cloud_cover humidity : R) (hour day_of_year : Z)
    (panel_capacity : R) : outcome R :=
  let features :=
    [{| f_temperature := temperature; f_cloud_cover := cloud_cover;
        f_humidity := humidity; f_hour_of_day := hour;
        f_day_of_year := day_of_year |}] in
  match predict L model features with
  | [] => Throw IndexError
  | efficiency :: _ => Return (Rmax 0 ((efficiency / 100) * panel_capacity))
  end.

(** [f"{h:02d}:00"] *)
Definition hour_label (h : Z) : string :=
  let digits := DecimalString.NilZero.string_of_int (Z.to_int h) in
  (if (String.length digits <? 2)%nat then "0" ++ digits else digits) ++ ":00".

(** The data frame of the solar curve, column by column. *)
Record curve : Type := mkCurve {
  Hour : list Z;
  Hour_Label : list string;
  Energy_Output : list R
}.

(** [for hour in hours: ... outputs.append(output)] *)
Fixpoint curve_loop (L : libraries) (model : regressor L)
    (temperature cloud_cover humidity : R) (day_of_year : Z) (panel_capacity : R)
    (hours : list Z) (outputs : list R) : outcome (list R) :=
  match hours with
  | [] => Return outputs
  | hour :: rest =>
      try output <- predict_for_hour L model temperature cloud_cover humidity
                      hour day_of_year panel_capacity;
      curve_loop L model temperature cloud_cover humidity day_of_year panel_capacity
        rest (outputs ++ [output])
  end.

(** [generate_solar_curve_data(model, temperature, cloud_cover, humidity,
    day_of_year, panel_capacity)], lines 422-435. *)
Definition generate_solar_curve_data (L : libraries) (model : regressor L)
    (temperature cloud_cover humidity : R) (day_of_year : Z) (panel_capacity : R)
    : outcome curve :=
  let hours := seqZ 0 24 in
  try outputs <- curve_loop L model temperature cloud_cover humidity day_of_year
                   panel_capacity hours [];
  Return {| Hour := hours;
            Hour_Label := map hour_label hours;
            Energy_Output := outputs |}.

(** [get_appliance_status(efficiency)], lines 499-514. *)
Definition get_appliance_status (efficiency : R) : string * string * string :=
  if Rgt_dec efficiency 70 then ("✅ RUN NOW", "#00ff88", "Solar Powered")
  else if Rge_dec efficiency 30 then ("⚠️ WAIT", "#ffcc00", "ECO Mode")
  else ("⛔ AVOID", "#ff4444", "Grid Power").

(** Lines 708-711 of [main]: the totals of the day. *)
Record totals : Type := mkTotals {
  total_daily_output : R;
  max_possible_output : R;
  efficiency_percent : R;
  estimated_savings : R
}.

Definition daily_totals (solar_curve_data : curve)
    (panel_capacity electricity_rate : R) : totals :=
  let total_daily_output := fold_right Rplus 0 (Energy_Output solar_curve_data) in
  let max_possible_output := panel_capacity * 8 in
  let efficiency_percent :=
    if Rgt_dec max_possible_output 0
    then (total_daily_output / max_possible_output) * 100 else 0 in
  let estimated_savings := total_daily_output * electricity_rate in
  {| total_daily_output := total_daily_output;
     max_possible_output := max_possible_output;
     efficiency_percent := efficiency_percent;
     estimated_savings := estimated_savings |}.

(** Lines 714-725 of [main]: [(status_class, status_text, status_emoji)]. *)
Definition status_of (efficiency_percent : R) : string * string * string :=
  if Rge_dec efficiency_percent 70 then ("status-high", "HIGH", "🟢")
  else if Rge_dec efficiency_percent 40 then ("status-medium", "MODERATE", "🟡")
  else ("status-low", "LOW", "🔴").

(** A name that is not a local of the function: looked up in the globals of
    the module (and the builtins), [NameError] when it is not there. *)
Definition load_global (namespace : gmap string pyval) (name : string)
    : outcome pyval :=
  match namespace !! name with
  | Some v => Return v
  | None => Throw (NameError name)
  end.

Definition GENERIC_ADVICE : string :=
  "💡 Based on current conditions: Optimize appliance usage during peak sun hours (10 AM - 3 PM) for maximum savings.".

(** Lines 780-807 of [main]: the text of the advice box.  [temperature],
    [cloud_cover] and [humidity] are not assigned anywhere in [main], so they
    are read from [namespace], the globals; [efficiency_percent] is a local.
    [has_key] is [hasattr(st, 'secrets') and 'GEMINI_API_KEY' in st.secrets],
    [api_key] is [st.secrets['GEMINI_API_KEY']], [advise] is
    [generate_weather_advice] and [render_0f] formats a float with [.0f]. *)
Definition advice_block (namespace : gmap string pyval)
    (has_key : outcome bool) (api_key : outcome string)
    (advise : gmap string pyval -> string -> outcome string)
    (render_0f : R -> string) (efficiency_percent : R) : string :=
  let attempt : outcome string :=
    try has <- has_key;
    if has then
      try temperature <- load_global namespace "temperature";
      try cloud_cover <- load_global namespace "cloud_cover";
      try humidity <- load_global namespace "humidity";
      let prediction_data : gmap string pyval :=
        <["solar_efficiency" := PyFloat efficiency_percent]>
          (<["temperature" := temperature]>
             (<["cloud_cover" := cloud_cover]>
                (<["humidity" := humidity]>
                   (<["hour_of_day" := PyInt 12]>
                      (<["confidence_lower" := PyFloat (efficiency_percent - 5)]>
                         (<["confidence_upper" := PyFloat (efficiency_percent + 5)]>
                            ∅)))))) in
      try key <- api_key;
      advise prediction_data key
    else
      try cloud_cover <- load_global namespace "cloud_cover";
      try cloudy <- greater cloud_cover 70;
      if cloudy then
        try shown <- format_float render_0f cloud_cover;
        Return ("☁️ With " ++ shown ++ "% cloud cover, delay high-energy tasks like laundry until conditions improve. Consider scheduling for tomorrow if the forecast shows clearer skies.")
      else
        try partial <- greater cloud_cover 40;
        if partial then
          try shown <- format_float render_0f cloud_cover;
          Return ("⛅ Partial clouds at " ++ shown ++ "% - you'll still generate decent power. Run your dishwasher between 11 AM - 2 PM to catch the peak output window.")
        else
          try temperature <- load_global namespace "temperature";
          try hot <- greater temperature 40;
          if hot then
            try shown <- format_float render_0f temperature;
            Return ("🌡️ High temperature (" ++ shown ++ "°C) may reduce panel efficiency slightly. Morning hours (8-11 AM) will likely be your sweet spot today.")
          else
            try humidity <- load_global namespace "humidity";
            try humid <- greater humidity 80;
            if humid then
              try shown <- format_float render_0f humidity;
              Return ("💧 High humidity (" ++ shown ++ "%) might cause slight haze. Output is good, but peak performance expected between 10 AM - 1 PM.")
            else
              try shown <- format_float render_0f temperature;
              Return ("🌞 Excellent conditions! Clear skies and " ++ shown ++ "°C is near optimal. Run all your heavy appliances between 10 AM - 3 PM to maximize free solar power.") in
  match attempt with
  | Return advice => advice
  | Throw _ => GENERIC_ADVICE
  end.

(** The names that [app.py] binds at module level: its imports and its
    functions. *)
Definition APP_GLOBALS : list string :=
  ["st"; "pd"; "np"; "joblib"; "sqlite3"; "sys"; "os"; "datetime"; "timedelta";
   "go"; "Path"; "pdk"; "random"; "time"; "st_autorefresh";
   "generate_weather_advice"; "categorize_efficiency"; "get_time_emoji";
   "load_model"; "load_latest_weather_data"; "predict_for_hour";
   "generate_solar_curve_data"; "create_solar_curve_chart";
   "get_appliance_status"; "main"].

(** A namespace that binds those names and no other. *)
Definition app_namespace : gmap string pyval :=
  list_to_map (map (fun name => (name, PyNone)) APP_GLOBALS).

(** One entry of [locations], lines 528-597 of [main]. *)
Record location : Type := mkLocation {
  lat : R;
  lon : R;
  base_temp : R;
  base_humidity : R
}.

Definition MUMBAI : location :=
  {| lat := 19.0760; lon := 72.8777; base_temp := 28.0; base_humidity := 70 |}.

(** [int(x)] of a float: the digits after the point are dropped. *)
Definition int_of_float (x : R) : Z :=
  if Rle_dec 0 x then Zfloor x else Zceil x.

(** Lines 610-621 of [main]: the values of the live ticker.  [timestamp] is
    [current_time.timestamp()]; the generator that the [random] module is left
    with is returned next to the readings. *)
Record ticker : Type := mkTicker {
  live_temp : R;
  live_humidity : R;
  live_uv : R;
  live_wind : R;
  live_solar_index : R
}.

Definition live_weather (twister : Z -> nat -> Z) (loc_data : location)
    (timestamp : R) : ticker * rng :=
  let seed := (int_of_float timestamp mod 100)%Z in
  let g := Random.seed twister seed in
  let (noise_temp, g) := uniform (-2) 2 g in
  let live_temp := base_temp loc_data + noise_temp in
  let (noise_humidity, g) := uniform (-5) 5 g in
  let live_humidity := base_humidity loc_data + noise_humidity in
  let (noise_uv, g) := uniform (-1) 1 g in
  let live_uv := 6.0 + noise_uv in
  let (noise_wind, g) := uniform (-3) 3 g in
  let live_wind := 12.0 + noise_wind in
  let (noise_solar, g) := uniform (-10) 10 g in
  let live_solar_index := 75.0 + noise_solar in
  ({| live_temp := live_temp; live_humidity := live_humidity; live_uv := live_uv;
      live_wind := live_wind; live_solar_index := live_solar_index |}, g).

(** Lines 670-690 of [main]: the weather that the prediction uses, from the
    sliders in experiment mode and from the ticker otherwise. *)
Record weather : Type := mkWeather {
  active_temp : R;
  active_cloud : R;
  active_humidity : R
}.

Definition active_weather (experiment_mode : bool)
    (sim_temperature sim_cloud_cover sim_humidity : R) (live : ticker) : weather :=
  if experiment_mode then
    {| active_temp := sim_temperature; active_cloud := sim_cloud_cover;
       active_humidity := sim_humidity |}
  else
    {| active_temp := live_temp live;
       active_cloud := 100 - live_solar_index live;
       active_humidity := live_humidity live |}.

End Dashboard.

(** ** [train_model.py]: saving the model and the script's [main] *)

Module TrainingScript.
Import TrainModel DataIngestion.

(** The file system as [save_model] uses it: [Path(dir).mkdir(parents=True,
    exist_ok=True)] and [joblib.dump(model, path)], each returning or raising
    and leaving a world. *)
Record storage (M : Type) : Type := mkStorage {
  disk : Type;
  mkdir : string -> disk -> result unit * disk;
  dump : M -> string -> disk -> result unit * disk
}.
Arguments disk {M} _.
Arguments mkdir {M} _ _ _.
Arguments dump {M} _ _ _ _.

(** [save_model(model, model_dir)], lines 205-227.  The [timestamp] of line
    220 is computed and not used: the file name is fixed. *)
Definition save_model {M : Type} (F : storage M) (model : M) (model_dir : string)
    : io (disk F) string :=
  run _ <- mkdir F model_dir;
  let model_path := (model_dir ++ "/solar_prediction_model.pkl")%string in
  run _ <- dump F model model_path;
  io_ret model_path.

(** [main()], lines 230-266, without its prints: generate 365 days, train,
    save under the default directory.  The result is the metrics and the path
    of the saved model. *)
Definition main (L : libraries) (F : storage (regressor L)) (now : Z) (g : rng)
    : io (disk F) (metrics * string) :=
  fun w =>
    match generate_synthetic_dataset now 365 g with
    | Raise e => (Raise e, w)
    | Ok (df, _) =>
        match train_model L df with
        | Raise e => (Raise e, w)
        | Ok (model, metrics) =>
            match save_model F model "src/models" w with
            | (Ok model_path, w') => (Ok (metrics, model_path), w')
            | (Raise e, w') => (Raise e, w')
            end
        end
    end.

(** A storage that keeps the last dump of each path in a list and never
    fails. *)
Definition list_storage (M : Type) : storage M :=
  {| disk := list (string * M);
     mkdir := fun _ w => (Ok tt, w);
     dump := fun m path w => (Ok tt, (path, m) :: w) |}.

End TrainingScript.

(** * Properties *)

(** ** Rounding and clamping *)

Section BuiltinsFacts.

Lemma round_half_even_IZR (k : Z) : round_half_even (IZR k) = k.
Proof.
  unfold round_half_even. rewrite ZfloorZ.
  destruct (Rlt_dec (IZR k - IZR k) (1 / 2)) as [_|H]; [reflexivity|].
  exfalso. apply H. lra.
Qed.

Lemma round_half_even_floor (x : R) :
  (Zfloor x <= round_half_even x <= Zfloor x + 1)%Z.
Proof.
  unfold round_half_even.
  repeat match goal with |- context [if ?c then _ else _] => destruct c end; lia.
Qed.

Lemma round_half_even_mono (x y : R) :
  x <= y -> (round_half_even x <= round_half_even y)%Z.
Proof.
  intros Hxy. pose proof (Zfloor_le x y Hxy) as Hf.
  destruct (Z.eq_dec (Zfloor x) (Zfloor y)) as [Heq|Hne].
  - unfold round_half_even. rewrite Heq.
    repeat match goal with |- context [if ?c then _ else _] => destruct c end;
      try lia; exfalso; lra.
  - pose proof (round_half_even_floor x). pose proof (round_half_even_floor y). lia.
Qed.

Lemma round2_IZR (k : Z) : round2 (IZR k) = IZR k.
Proof.
  unfold round2. rewrite <- mult_IZR, round_half_even_IZR, mult_IZR. lra.
Qed.

Lemma round2_mono (x y : R) : x <= y -> round2 x <= round2 y.
Proof.
  intros H. unfold round2.
  assert (IZR (round_half_even (x * 100)) <= IZR (round_half_even (y * 100))).
  { apply IZR_le, round_half_even_mono. lra. }
  lra.
Qed.

(** Rounding to two decimals keeps a value between two integer bounds. *)
Lemma round2_between (lo hi : Z) (x : R) :
  IZR lo <= x <= IZR hi -> IZR lo <= round2 x <= IZR hi.
Proof.
  intros [Hlo Hhi].
  rewrite <- (round2_IZR lo), <- (round2_IZR hi) at 1.
  split; apply round2_mono; assumption.
Qed.

Lemma clamp_between (lo hi x : R) : lo <= hi -> lo <= Rmax lo (Rmin hi x) <= hi.
Proof.
  intros H. split; [apply Rmax_l|].
  apply Rmax_lub; [assumption|apply Rmin_l].
Qed.

(** Ties go to the even neighbour. *)
Example round_half_even_ties :
  round_half_even (5 / 2) = 2%Z /\ round_half_even (7 / 2) = 4%Z
  /\ round_half_even (-5 / 2) = (-2)%Z /\ round_half_even (12 / 5) = 2%Z.
Proof.
  unfold round_half_even.
  rewrite (Zfloor_eq 2 (5 / 2)), (Zfloor_eq 3 (7 / 2)),
          (Zfloor_eq (-3) (-5 / 2)), (Zfloor_eq 2 (12 / 5)) by lra.
  repeat match goal with
         | |- context [Rlt_dec ?a ?b] => destruct (Rlt_dec a b); try lra
         end.
  repeat split; reflexivity.
Qed.

End BuiltinsFacts.

(** ** Dates *)

Section DatetimeFacts.

Example tm_yday_samples :
  tm_yday 739924 = 308%Z          (* 2026-11-04 *)
  /\ tm_yday 739251 = 366%Z       (* 2024-12-31, a leap year *)
  /\ tm_yday 730485 = 366%Z       (* 2000-12-31 *)
  /\ tm_yday 1 = 1%Z /\ tm_yday 365 = 365%Z /\ tm_yday 366 = 1%Z.
Proof. repeat split; reflexivity. Qed.

Example date_arithmetic_samples :
  date_sub 739924 1 = Ok 739923%Z
  /\ date_sub 739924 1000000 = Raise OverflowError
  /\ date_sub 739924 (-3000000) = Raise OverflowError
  /\ timedelta 1000000000 = Raise OverflowError.
Proof. repeat split; reflexivity. Qed.

End DatetimeFacts.


(** ** The generator and the loops *)

Section GeneratorFacts.
Import TrainModel.

Lemma peek_range (g : rng) (i : nat) : 0 <= peek g i < 1.
Proof.
  unfold peek.
  pose proof (Z.mod_pos_bound (words g (consumed g + i)%nat) (2 ^ 53) eq_refl) as [Hlo Hhi].
  apply IZR_le in Hlo. apply IZR_lt in Hhi.
  assert (0 < IZR (2 ^ 53)) as Hpos by (apply IZR_lt; reflexivity).
  split.
  - apply Rmult_le_pos; [exact Hlo | left; apply Rinv_0_lt_compat; exact Hpos].
  - apply Rmult_lt_reg_r with (IZR (2 ^ 53)); [exact Hpos|].
    unfold Rdiv. rewrite Rmult_assoc, Rinv_l by lra. lra.
Qed.

Lemma draws_of_in_range (g : rng) : draws_in_range (draws_of g).
Proof.
  pose proof (peek_range g 0). pose proof (peek_range g 1).
  pose proof (peek_range g 2). pose proof (peek_range g 3).
  unfold draws_in_range, draws_of; simpl. lra.
Qed.

Lemma peek_advance (k i : nat) (g : rng) : peek (advance k g) i = peek g (k + i).
Proof. unfold peek, advance; simpl. now rewrite Nat.add_assoc. Qed.

Lemma advance_advance (j k : nat) (g : rng) :
  advance k (advance j g) = advance (j + k) g.
Proof. unfold advance; simpl. f_equal. lia. Qed.

(** The loop body is the row of its four draws, and consumes them. *)
Lemma hour_body_unfold (doy hour : Z) (g : rng) :
  hour_body doy hour g = (row_at doy hour (draws_of g), advance 4 g).
Proof.
  unfold hour_body, uniform, random.
  rewrite !advance_advance, !peek_advance. simpl Nat.add.
  reflexivity.
Qed.

Lemma hours_loop_rows (doy : Z) (hours : list Z) :
  forall (data : list record) (g : rng),
    hours_loop doy hours data g
    = (data ++ hours_rows doy hours g, advance (4 * length hours) g).
Proof.
  induction hours as [|hour rest IH]; intros data g.
  - simpl. rewrite app_nil_r. f_equal. unfold advance; destruct g; simpl.
    f_equal. lia.
  - cbn [hours_loop hours_rows]. rewrite hour_body_unfold, IH, advance_advance.
    rewrite <- app_assoc. simpl. do 2 f_equal. lia.
Qed.

Lemma hours_rows_length (doy : Z) (hours : list Z) :
  forall g, length (hours_rows doy hours g) = length hours.
Proof. induction hours; intros g; simpl; [|rewrite IHhours]; reflexivity. Qed.

Lemma hours_rows_hours (doy : Z) (hours : list Z) :
  forall g, map hour_of_day (hours_rows doy hours g) = hours.
Proof. induction hours; intros g; simpl; [|rewrite IHhours]; reflexivity. Qed.

Lemma hours_rows_generated (doy : Z) (hours : list Z) :
  Forall (fun h => (0 <= h <= 23)%Z) hours ->
  forall g, Forall generated_row (hours_rows doy hours g).
Proof.
  induction 1 as [|h rest Hh _ IH]; intros g; simpl; constructor; auto.
  exists doy, h, (draws_of g). auto using draws_of_in_range.
Qed.

Lemma range24_hours : Forall (fun h => (0 <= h <= 23)%Z) (seqZ 0 24).
Proof. apply Forall_forall. intros h Hin. apply elem_of_seqZ in Hin. lia. Qed.

(** What the outer loop returns, when it returns. *)
Lemma days_loop_rows (start : Z) (range_days : list Z) :
  forall data g out g',
    days_loop start range_days data g = Ok (out, g') ->
    out = data ++ days_rows start range_days g
    /\ g' = advance (96 * length range_days) g.
Proof.
  induction range_days as [|day rest IH]; intros data g out g' Hrun.
  - simpl in Hrun. injection Hrun as <- <-. rewrite app_nil_r. split; [reflexivity|].
    unfold advance; destruct g; simpl. f_equal. lia.
  - cbn [days_loop] in Hrun. unfold timedelta, date_add in Hrun.
    destruct (Z.abs day <=? MAX_DELTA_DAYS)%Z; [|discriminate].
    cbn [rbind] in Hrun.
    destruct ((0 <? start + day)%Z && (start + day <=? MAXORDINAL)%Z); [|discriminate].
    cbn [rbind] in Hrun. rewrite hours_loop_rows in Hrun.
    apply IH in Hrun as [-> ->]. cbn [days_rows]. rewrite app_assoc.
    split; [reflexivity|]. rewrite advance_advance. f_equal. simpl length. lia.
Qed.

(** The outer loop returns when every date it computes is in the calendar. *)
Lemma days_loop_returns (start : Z) (range_days : list Z) :
  Forall (fun day => (Z.abs day <= MAX_DELTA_DAYS)%Z /\ valid_date (start + day)) range_days ->
  forall data g, exists out g', days_loop start range_days data g = Ok (out, g').
Proof.
  induction 1 as [|day rest [Hd [Hlo Hhi]] _ IH]; intros data g.
  - simpl. eauto.
  - cbn [days_loop]. unfold timedelta, date_add.
    destruct (Z.leb_spec (Z.abs day) MAX_DELTA_DAYS); [|lia]. cbn [rbind].
    destruct (Z.ltb_spec 0 (start + day)); [|lia].
    destruct (Z.leb_spec (start + day) MAXORDINAL); [|lia].
    cbn [rbind andb]. rewrite hours_loop_rows. apply IH.
Qed.

Lemma days_rows_length (start : Z) (range_days : list Z) :
  forall g, length (days_rows start range_days g) = (24 * length range_days)%nat.
Proof.
  induction range_days as [|day rest IH]; intros g; [reflexivity|].
  cbn [days_rows]. rewrite length_app, hours_rows_length, IH. simpl length. lia.
Qed.

Lemma days_rows_generated (start : Z) (range_days : list Z) :
  forall g, Forall generated_row (days_rows start range_days g).
Proof.
  induction range_days as [|day rest IH]; intros g; cbn [days_rows]; [constructor|].
  apply Forall_app. split; [apply hours_rows_generated, range24_hours | apply IH].
Qed.

(** The whole function, when the start date is in the calendar. *)
Lemma generate_run (now days : Z) (g : rng) :
  valid_date now -> valid_date (now - days) ->
  generate_synthetic_dataset now days g
  = Ok (days_rows (now - days) (seqZ 0 days) g,
        advance (96 * length (seqZ 0 days)) g).
Proof.
  intros [Hn1 Hn2] [Hs1 Hs2]. unfold MAXORDINAL in *.
  assert (Forall (fun day => (Z.abs day <= MAX_DELTA_DAYS)%Z
                             /\ valid_date (now - days + day)) (seqZ 0 days)) as Hall.
  { apply Forall_forall. intros day Hin. apply elem_of_seqZ in Hin.
    unfold MAX_DELTA_DAYS, valid_date, MAXORDINAL. lia. }
  destruct (days_loop_returns _ _ Hall [] g) as (out & g' & Hrun).
  pose proof (days_loop_rows _ _ _ _ _ _ Hrun) as [-> ->].
  unfold generate_synthetic_dataset, timedelta, date_sub, date_add.
  destruct (Z.leb_spec (Z.abs days) MAX_DELTA_DAYS); [|unfold MAX_DELTA_DAYS in *; lia].
  cbn [rbind].
  destruct (Z.ltb_spec 0 (now + - days)); [|lia].
  destruct (Z.leb_spec (now + - days) MAXORDINAL); [|unfold MAXORDINAL in *; lia].
  cbn [rbind andb]. replace (now + - days)%Z with (now - days)%Z by lia.
  exact Hrun.
Qed.

(** What the function returns, when it returns. *)
Lemma generate_rows (now days : Z) (g : rng) (rows : list record) (g' : rng) :
  generate_synthetic_dataset now days g = Ok (rows, g') ->
  rows = days_rows (now - days) (seqZ 0 days) g.
Proof.
  unfold generate_synthetic_dataset, timedelta, date_sub, date_add.
  destruct (Z.abs days <=? MAX_DELTA_DAYS)%Z; [|discriminate]. cbn [rbind].
  destruct ((0 <? now + - days)%Z && (now + - days <=? MAXORDINAL)%Z); [|discriminate].
  cbn [rbind]. intros Hrun. apply days_loop_rows in Hrun as [-> _].
  replace (now + - days)%Z with (now - days)%Z by lia. reflexivity.
Qed.

Lemma a_wednesday_valid : valid_date a_wednesday.
Proof. unfold valid_date, a_wednesday, MAXORDINAL. lia. Qed.

End GeneratorFacts.

(** ** The size of the data set and the sign of [days] *)

Section DatasetSize.
Import TrainModel.

(** C5 (as the code has it).  On a day [now], for every window
    [0 <= days < now] -- so that the start date [now - days] is still a date of
    the calendar -- [generate_synthetic_dataset(days)] returns, with exactly
    [days * 24] rows; [days = 0] gives the empty data set, and [days = 1]
    gives 24 rows whose [hour_of_day] run through 0, 1, ..., 23, each once. *)
Theorem generate_row_count (now days : Z) (g : rng) :
  valid_date now -> (0 <= days < now)%Z ->
  exists rows g',
    generate_synthetic_dataset now days g = Ok (rows, g')
    /\ Z.of_nat (length rows) = (days * 24)%Z
    /\ (days = 0%Z -> rows = [])
    /\ (days = 1%Z -> length rows = 24%nat
                      /\ map hour_of_day rows = seqZ 0 24
                      /\ NoDup (map hour_of_day rows)).
Proof.
  intros Hnow Hdays.
  assert (valid_date (now - days)) as Hstart by (unfold valid_date in *; lia).
  eexists _, _. split; [apply generate_run; assumption|].
  split; [|split].
  - rewrite days_rows_length, length_seqZ. lia.
  - intros ->. reflexivity.
  - intros ->. change (seqZ 0 1) with [0%Z]. cbn [days_rows].
    rewrite app_nil_r, hours_rows_hours, hours_rows_length.
    split; [reflexivity|]. split; [reflexivity|]. apply NoDup_seqZ.
Qed.

Lemma generate_row_count_one_day :
  exists rows g',
    generate_synthetic_dataset a_wednesday 1 three_quarters_rng = Ok (rows, g')
    /\ Z.of_nat (length rows) = (1 * 24)%Z
    /\ (1%Z = 0%Z -> rows = [])
    /\ (1%Z = 1%Z -> length rows = 24%nat
                      /\ map hour_of_day rows = seqZ 0 24
                      /\ NoDup (map hour_of_day rows)).
Proof.
  apply (generate_row_count a_wednesday 1 three_quarters_rng).
  - unfold valid_date, a_wednesday, MAXORDINAL. lia.
  - unfold a_wednesday. lia.
Defined.

(** C5 fails as stated: a window that reaches back before 0001-01-01 makes
    the subtraction [datetime.now() - timedelta(days=days)] raise
    [OverflowError]; no data set is returned. *)
Lemma generate_too_long_window_raises :
  valid_date a_wednesday /\ (0 <= 1000000)%Z
  /\ generate_synthetic_dataset a_wednesday 1000000 three_quarters_rng
     = Raise OverflowError.
Proof.
  split; [unfold valid_date, a_wednesday, MAXORDINAL; lia|].
  split; [lia|]. reflexivity.
Qed.

(** C7 (as the code has it).  A negative [days] is not rejected: [range(days)]
    is empty, and as long as the start date [now - days] is still in the
    calendar the call returns the empty data set and draws nothing from the
    generator. *)
Theorem generate_negative_days_empty (now days : Z) (g : rng) :
  valid_date now -> (days < 0)%Z -> (now - days <= MAXORDINAL)%Z ->
  generate_synthetic_dataset now days g = Ok ([], g).
Proof.
  intros Hnow Hneg Hmax.
  rewrite generate_run by (unfold valid_date in *; lia).
  assert (seqZ 0 days = []) as -> by (unfold seqZ; replace (Z.to_nat days) with 0%nat by lia; reflexivity).
  cbn [days_rows length]. do 2 f_equal. destruct g; unfold advance; simpl. f_equal. lia.
Qed.

Lemma generate_negative_days_empty_minus_one :
  generate_synthetic_dataset a_wednesday (-1) three_quarters_rng
  = Ok ([], three_quarters_rng).
Proof.
  apply (generate_negative_days_empty a_wednesday (-1) three_quarters_rng).
  - unfold valid_date, a_wednesday, MAXORDINAL. lia.
  - lia.
  - unfold a_wednesday, MAXORDINAL. lia.
Defined.

(** C7 fails as stated: [days = -1] is answered with an empty data set, not
    with an error. *)
Lemma generate_minus_one_not_rejected :
  (-1 < 0)%Z
  /\ generate_synthetic_dataset a_wednesday (-1) three_quarters_rng
     = Ok ([], three_quarters_rng)
  /\ ~ exists e, generate_synthetic_dataset a_wednesday (-1) three_quarters_rng
                 = Raise e.
Proof.
  split; [lia|]. split; [reflexivity|]. intros [e He]. discriminate He.
Qed.

End DatasetSize.

(** ** One row: ranges of the locals *)

Section RowFacts.
Import TrainModel.

Lemma temperature_at_range (doy hour : Z) (noise : R) :
  -2 <= noise <= 2 -> 10 <= temperature_at doy hour noise <= 40.
Proof.
  intros Hn. unfold temperature_at.
  pose proof (SIN_bound ((IZR doy - 80) * 2 * PI / 365)).
  pose proof (SIN_bound ((IZR hour - 6) * PI / 12)).
  lra.
Qed.

Lemma cloud_cover_at_range (temperature cloud_base : R) :
  0 <= cloud_cover_at temperature cloud_base <= 100.
Proof. apply clamp_between. lra. Qed.

Lemma humidity_at_range (cloud_cover noise : R) :
  30 <= humidity_at cloud_cover noise <= 95.
Proof. apply clamp_between. lra. Qed.

Lemma solar_efficiency_at_range (hour doy : Z) (t c h noise : R) :
  0 <= solar_efficiency_at hour doy t c h noise <= 100.
Proof. apply clamp_between. lra. Qed.

Lemma row_at_percentages (doy hour : Z) (d : draws) :
  percentages_in_range (row_at doy hour d).
Proof.
  unfold percentages_in_range, row_at, row_of; simpl.
  split; [|split].
  - apply (round2_between 0 100), cloud_cover_at_range.
  - apply (round2_between 0 100).
    pose proof (humidity_at_range
      (cloud_cover_at (temperature_at doy hour (temperature_noise d)) (cloud_base d))
      (humidity_noise d)).
    lra.
  - apply (round2_between 0 100), solar_efficiency_at_range.
Qed.

(** The daylight-angle factor is not negative between 6 and 18 o'clock. *)
Lemma hour_factor_nonneg (hour : Z) :
  (6 <= hour <= 18)%Z -> 0 <= sin ((IZR hour - 6) * PI / 12).
Proof.
  intros [Hlo Hhi]. apply IZR_le in Hlo, Hhi. pose proof PI_RGT_0.
  apply sin_ge_0; nra.
Qed.

Lemma seasonal_factor_pos (doy : Z) :
  0 < 0.95 + 0.1 * sin ((IZR doy - 80) * 2 * PI / 365).
Proof. pose proof (SIN_bound ((IZR doy - 80) * 2 * PI / 365)). lra. Qed.

Lemma temp_factor_nonneg (t : R) : -20 <= t <= 85 -> 0 <= temp_factor t.
Proof.
  intros Ht. unfold temp_factor.
  destruct (Rlt_dec t 15); [lra|].
  destruct (Rgt_dec t 35); [lra|].
  unfold Rabs. destruct (Rcase_abs (t - 25)); lra.
Qed.

(** The code's temperature factor is the specification's. *)
Lemma temp_factor_spec (t : R) : temp_factor t = spec_temperature_factor t.
Proof.
  unfold temp_factor, spec_temperature_factor.
  destruct (Rlt_dec t 15); [lra|].
  destruct (Rgt_dec t 35), (Rlt_dec 35 t); lra.
Qed.

(** At night the product of lines 65-98 is zero. *)
Lemma efficiency_before_noise_night (hour doy : Z) (t c h : R) :
  (hour < 6 \/ hour > 18)%Z -> efficiency_before_noise hour doy t c h = 0.
Proof.
  intros Hnight. unfold efficiency_before_noise.
  assert ((hour <? 6)%Z || (hour >? 18)%Z = true) as ->.
  { apply orb_true_iff. rewrite Z.ltb_lt, Z.gtb_gt. lia. }
  lra.
Qed.

(** By day it is the product of the five factors. *)
Lemma efficiency_before_noise_day (hour doy : Z) (t c h : R) :
  (6 <= hour <= 18)%Z ->
  efficiency_before_noise hour doy t c h
  = 100 * sin ((IZR hour - 6) * PI / 12) * (1 - c / 100 * 0.8) * temp_factor t
    * (1 - (h - 30) / 100 * 0.15)
    * (0.95 + 0.1 * sin ((IZR doy - 80) * 2 * PI / 365)).
Proof.
  intros Hday. unfold efficiency_before_noise.
  assert ((hour <? 6)%Z || (hour >? 18)%Z = false) as ->.
  { apply orb_false_iff. rewrite Z.ltb_ge, Z.gtb_ltb, Z.ltb_ge. lia. }
  reflexivity.
Qed.

(** At 6 and at 18 o'clock the daylight-angle factor vanishes. *)
Lemma efficiency_before_noise_boundary (hour doy : Z) (t c h : R) :
  (hour = 6 \/ hour = 18)%Z -> efficiency_before_noise hour doy t c h = 0.
Proof.
  intros Hb. rewrite efficiency_before_noise_day by lia.
  assert (sin ((IZR hour - 6) * PI / 12) = 0) as ->.
  { destruct Hb as [-> | ->].
    - replace ((6 - 6) * PI / 12) with 0 by lra. apply sin_0.
    - replace ((18 - 6) * PI / 12) with PI by lra. apply sin_PI. }
  lra.
Qed.

End RowFacts.

(** ** The rows of a run *)

Section RowsOfARun.
Import TrainModel.

Lemma generated_rows (now days : Z) (g : rng) (rows : list record) (g' : rng) :
  generate_synthetic_dataset now days g = Ok (rows, g') ->
  Forall generated_row rows.
Proof. intros Hrun. rewrite (generate_rows _ _ _ _ _ Hrun). apply days_rows_generated. Qed.

(** A row of a run is the row of its own day, hour and four draws. *)
Lemma generated_row_self (r : record) :
  generated_row r ->
  exists d : draws,
    draws_in_range d /\ (0 <= hour_of_day r <= 23)%Z
    /\ r = row_at (day_of_year r) (hour_of_day r) d.
Proof. intros (doy & hour & d & Hh & Hd & ->). exists d. simpl. auto. Qed.

Lemma one_day_run :
  generate_synthetic_dataset a_wednesday 1 three_quarters_rng
  = Ok (days_rows (a_wednesday - 1) (seqZ 0 1) three_quarters_rng,
        advance 96 three_quarters_rng).
Proof.
  apply (generate_run a_wednesday 1 three_quarters_rng).
  - apply a_wednesday_valid.
  - unfold valid_date, a_wednesday, MAXORDINAL. lia.
Qed.

Lemma advance_0 (g : rng) : advance 0 g = g.
Proof. destruct g; unfold advance; simpl. f_equal. lia. Qed.

(** The row appended at the [k]-th iteration of the inner loop. *)
Lemma hours_rows_lookup (doy : Z) (hours : list Z) :
  forall (g : rng) (k : nat) (hour : Z),
    hours !! k = Some hour ->
    In (row_at doy hour (draws_of (advance (4 * k) g))) (hours_rows doy hours g).
Proof.
  induction hours as [|h0 rest IH]; intros g k hour Hk; [discriminate|].
  destruct k as [|k]; cbn [hours_rows In].
  - injection Hk as ->. left. now rewrite advance_0.
  - right. replace (4 * S k)%nat with (4 + 4 * k)%nat by lia.
    rewrite <- advance_advance. apply IH. exact Hk.
Qed.

Lemma sample_row_in_one_day_run (hour : nat) :
  (hour < 24)%nat ->
  In (sample_row hour) (days_rows (a_wednesday - 1) (seqZ 0 1) three_quarters_rng).
Proof.
  intros Hh.
  change (seqZ 0 1) with [0%Z]. cbn [days_rows]. rewrite app_nil_r.
  replace (a_wednesday - 1 + 0)%Z with (a_wednesday - 1)%Z by lia.
  apply hours_rows_lookup.
  rewrite lookup_seqZ. split; lia.
Qed.

Lemma three_quarters_peek (g : rng) (i : nat) :
  words g = words three_quarters_rng -> peek g i = 3 / 4.
Proof.
  intros Hw. unfold peek. rewrite Hw.
  unfold three_quarters_rng, constant_rng. cbn [words].
  change ((3 * 2 ^ 51) `mod` 2 ^ 53)%Z with 6755399441055744%Z.
  change (2 ^ 53)%Z with 9007199254740992%Z.
  lra.
Qed.

End RowsOfARun.

(** ** The generated values *)

Section GeneratedValues.
Import TrainModel.

(** C2.  Whatever the window, the date and the random draws, every row of the
    data set that [generate_synthetic_dataset] returns has its (rounded)
    [cloud_cover], [humidity] and [solar_output_efficiency] between 0 and
    100. *)
Theorem generated_percentages_in_range
    (now days : Z) (g : rng) (rows : list record) (g' : rng) :
  generate_synthetic_dataset now days g = Ok (rows, g') ->
  Forall percentages_in_range rows.
Proof.
  intros Hrun. apply generated_rows in Hrun.
  eapply Forall_impl; [exact Hrun|].
  intros r (doy & hour & d & _ & _ & ->). apply row_at_percentages.
Qed.

Lemma generated_percentages_in_range_one_day :
  Forall percentages_in_range
    (days_rows (a_wednesday - 1) (seqZ 0 1) three_quarters_rng).
Proof.
  apply (generated_percentages_in_range a_wednesday 1 three_quarters_rng
           _ (advance 96 three_quarters_rng)).
  apply (generate_run a_wednesday 1 three_quarters_rng).
  - unfold valid_date, a_wednesday, MAXORDINAL. lia.
  - unfold valid_date, a_wednesday, MAXORDINAL. lia.
Defined.

(** C3.  For every row of a run with [6 <= hour_of_day <= 18] there are the
    four draws of its iteration; with [t], [c], [h] the locals [temperature],
    [cloud_cover] and [humidity] computed from them, the value of
    [solar_efficiency] before the noise is the product that the specification
    gives, and the stored target is that product plus the last draw, clamped
    to [[0, 100]] and then rounded. *)
Theorem daylight_efficiency_formula
    (now days : Z) (g : rng) (rows : list record) (g' : rng) (r : record) :
  generate_synthetic_dataset now days g = Ok (rows, g') ->
  In r rows ->
  (6 <= hour_of_day r <= 18)%Z ->
  exists d : draws,
    draws_in_range d
    /\ r = row_at (day_of_year r) (hour_of_day r) d
    /\ let t := temperature_at (day_of_year r) (hour_of_day r) (temperature_noise d) in
       let c := cloud_cover_at t (cloud_base d) in
       let h := humidity_at c (humidity_noise d) in
       let product :=
         spec_efficiency_before_noise (hour_of_day r) (day_of_year r) t c h in
       efficiency_before_noise (hour_of_day r) (day_of_year r) t c h = product
       /\ solar_output_efficiency r
          = round2 (Rmax 0 (Rmin 100 (product + efficiency_noise d))).
Proof.
  intros Hrun Hin Hday. apply generated_rows in Hrun.
  rewrite Forall_forall in Hrun. apply list_elem_of_In, Hrun in Hin.
  destruct (generated_row_self r Hin) as (d & Hd & _ & Hr).
  exists d. split; [exact Hd|]. split; [exact Hr|].
  set (hour := hour_of_day r) in *. set (doy := day_of_year r) in *.
  cbv zeta.
  set (t := temperature_at doy hour (temperature_noise d)).
  set (c := cloud_cover_at t (cloud_base d)).
  set (h := humidity_at c (humidity_noise d)).
  assert (efficiency_before_noise hour doy t c h
          = spec_efficiency_before_noise hour doy t c h) as Heq.
  { rewrite efficiency_before_noise_day by exact Hday.
    unfold spec_efficiency_before_noise. rewrite temp_factor_spec.
    replace (PI * (IZR hour - 6) / 12) with ((IZR hour - 6) * PI / 12) by lra.
    replace (2 * PI * (IZR doy - 80) / 365) with ((IZR doy - 80) * 2 * PI / 365) by lra.
    lra. }
  split; [exact Heq|].
  rewrite <- Heq. rewrite Hr at 1. reflexivity.
Qed.

Lemma daylight_efficiency_formula_at_noon :
  exists d : draws,
    draws_in_range d
    /\ sample_row 12 = row_at (day_of_year (sample_row 12)) (hour_of_day (sample_row 12)) d
    /\ let t := temperature_at (day_of_year (sample_row 12)) (hour_of_day (sample_row 12))
                  (temperature_noise d) in
       let c := cloud_cover_at t (cloud_base d) in
       let h := humidity_at c (humidity_noise d) in
       let product :=
         spec_efficiency_before_noise (hour_of_day (sample_row 12))
           (day_of_year (sample_row 12)) t c h in
       efficiency_before_noise (hour_of_day (sample_row 12))
         (day_of_year (sample_row 12)) t c h = product
       /\ solar_output_efficiency (sample_row 12)
          = round2 (Rmax 0 (Rmin 100 (product + efficiency_noise d))).
Proof.
  apply (daylight_efficiency_formula a_wednesday 1 three_quarters_rng
           (days_rows (a_wednesday - 1) (seqZ 0 1) three_quarters_rng)
           (advance 96 three_quarters_rng) (sample_row 12)).
  - apply (generate_run a_wednesday 1 three_quarters_rng).
    + unfold valid_date, a_wednesday, MAXORDINAL. lia.
    + unfold valid_date, a_wednesday, MAXORDINAL. lia.
  - apply sample_row_in_one_day_run. lia.
  - simpl. lia.
Defined.

End GeneratedValues.

(** ** Night, the daylight boundary, and cloud cover *)

Section NightAndClouds.
Import TrainModel.

(** Outside 7..17 o'clock the stored target is the rounded positive part of
    the last draw. *)
Lemma row_at_dark_hours (doy hour : Z) (d : draws) :
  (hour <= 6 \/ hour >= 18)%Z -> draws_in_range d ->
  let t := temperature_at doy hour (temperature_noise d) in
  let c := cloud_cover_at t (cloud_base d) in
  let h := humidity_at c (humidity_noise d) in
  efficiency_before_noise hour doy t c h = 0
  /\ solar_output_efficiency (row_at doy hour d) = round2 (Rmax 0 (efficiency_noise d)).
Proof.
  intros Hdark (_ & _ & _ & Hn) t c h.
  assert (efficiency_before_noise hour doy t c h = 0) as Hzero.
  { destruct (Z.eq_dec hour 6%Z) as [->|]; [apply efficiency_before_noise_boundary; lia|].
    destruct (Z.eq_dec hour 18%Z) as [->|]; [apply efficiency_before_noise_boundary; lia|].
    apply efficiency_before_noise_night. lia. }
  split; [exact Hzero|].
  unfold row_at, row_of. cbn [solar_output_efficiency].
  unfold solar_efficiency_at. fold t. fold c. fold h. rewrite Hzero.
  rewrite Rplus_0_l, Rmin_right by lra. reflexivity.
Qed.

(** C10.  For every row of a run whose hour is outside 7..17 (night, and the
    boundary hours 6 and 18), the product computed before the noise is 0, the
    stored target is the last draw [uniform(-2, 2)] clamped below at 0 (and
    rounded), and it lies in [[0, 2]]. *)
Theorem dark_hours_efficiency_is_noise
    (now days : Z) (g : rng) (rows : list record) (g' : rng) (r : record) :
  generate_synthetic_dataset now days g = Ok (rows, g') ->
  In r rows ->
  (hour_of_day r <= 6 \/ hour_of_day r >= 18)%Z ->
  exists d : draws,
    draws_in_range d
    /\ r = row_at (day_of_year r) (hour_of_day r) d
    /\ (let t := temperature_at (day_of_year r) (hour_of_day r) (temperature_noise d) in
        let c := cloud_cover_at t (cloud_base d) in
        let h := humidity_at c (humidity_noise d) in
        efficiency_before_noise (hour_of_day r) (day_of_year r) t c h = 0)
    /\ solar_output_efficiency r = round2 (Rmax 0 (efficiency_noise d))
    /\ 0 <= solar_output_efficiency r <= 2.
Proof.
  intros Hrun Hin Hdark. apply generated_rows in Hrun.
  rewrite Forall_forall in Hrun. apply list_elem_of_In, Hrun in Hin.
  destruct (generated_row_self r Hin) as (d & Hd & _ & Hr).
  exists d. split; [exact Hd|]. split; [exact Hr|].
  destruct (row_at_dark_hours (day_of_year r) (hour_of_day r) d Hdark Hd) as [Hzero Heff].
  rewrite <- Hr in Heff.
  split; [exact Hzero|]. split; [exact Heff|].
  rewrite Heff. destruct Hd as (_ & _ & _ & Hn).
  apply (round2_between 0 2). split; [apply Rmax_l|].
  apply Rmax_lub; lra.
Qed.

Lemma dark_hours_efficiency_is_noise_at_18 :
  exists d : draws,
    draws_in_range d
    /\ sample_row 18 = row_at (day_of_year (sample_row 18)) (hour_of_day (sample_row 18)) d
    /\ (let t := temperature_at (day_of_year (sample_row 18)) (hour_of_day (sample_row 18))
                   (temperature_noise d) in
        let c := cloud_cover_at t (cloud_base d) in
        let h := humidity_at c (humidity_noise d) in
        efficiency_before_noise (hour_of_day (sample_row 18))
          (day_of_year (sample_row 18)) t c h = 0)
    /\ solar_output_efficiency (sample_row 18) = round2 (Rmax 0 (efficiency_noise d))
    /\ 0 <= solar_output_efficiency (sample_row 18) <= 2.
Proof.
  apply (dark_hours_efficiency_is_noise a_wednesday 1 three_quarters_rng
           (days_rows (a_wednesday - 1) (seqZ 0 1) three_quarters_rng)
           (advance 96 three_quarters_rng) (sample_row 18)).
  - apply (generate_run a_wednesday 1 three_quarters_rng).
    + unfold valid_date, a_wednesday, MAXORDINAL. lia.
    + unfold valid_date, a_wednesday, MAXORDINAL. lia.
  - apply sample_row_in_one_day_run. lia.
  - simpl. lia.
Defined.

(** C1, on the code.  The run of one day on 2026-11-04 with a generator whose
    [random()] is 0.75 appends, at midnight ([hour_of_day = 0 < 6]), a row whose
    [solar_output_efficiency] is 1, not 0: the noise of line 101 is added after
    the night branch of line 70 has set the target to 0. *)
Theorem night_row_efficiency_not_zero :
  exists (rows : list record) (g' : rng) (r : record),
    generate_synthetic_dataset a_wednesday 1 three_quarters_rng = Ok (rows, g')
    /\ rows !! 0%nat = Some r
    /\ (hour_of_day r < 6)%Z
    /\ solar_output_efficiency r = 1
    /\ solar_output_efficiency r <> 0.
Proof.
  exists (days_rows (a_wednesday - 1) (seqZ 0 1) three_quarters_rng),
         (advance 96 three_quarters_rng),
         (row_at (tm_yday (a_wednesday - 1 + 0)) 0 (draws_of three_quarters_rng)).
  split; [apply one_day_run|]. split; [reflexivity|].
  split; [simpl; lia|].
  assert (solar_output_efficiency
            (row_at (tm_yday (a_wednesday - 1 + 0)) 0 (draws_of three_quarters_rng)) = 1)
    as Hone.
  { pose proof (row_at_dark_hours (tm_yday (a_wednesday - 1 + 0)) 0
                  (draws_of three_quarters_rng)) as H.
    destruct H as [_ ->]; [lia | apply draws_of_in_range |].
    unfold draws_of. cbn [efficiency_noise].
    rewrite (three_quarters_peek three_quarters_rng 3 eq_refl).
    rewrite Rmax_right by lra.
    replace (-2 + (2 - -2) * (3 / 4)) with (IZR 1) by lra.
    apply round2_IZR. }
  split; [exact Hone|]. rewrite Hone. lra.
Qed.

(** C4.  With the hour, the day, the temperature, the humidity and the noise
    fixed, more cloud never gives a larger target, before and after rounding.
    The temperature and the humidity range over the values for which the
    factors of lines 83-94 are not negative, which contains every value the
    generator computes ([temperature_at_range], [humidity_at_range]). *)
Theorem efficiency_antitone_in_cloud_cover
    (hour doy : Z) (t hum noise c1 c2 : R) :
  -20 <= t <= 85 -> 0 <= hum <= 100 ->
  0 <= c1 -> c1 <= c2 -> c2 <= 100 ->
  solar_efficiency_at hour doy t c2 hum noise
    <= solar_efficiency_at hour doy t c1 hum noise
  /\ solar_output_efficiency
       (row_of doy hour t c2 hum (solar_efficiency_at hour doy t c2 hum noise))
     <= solar_output_efficiency
          (row_of doy hour t c1 hum (solar_efficiency_at hour doy t c1 hum noise)).
Proof.
  intros Ht Hh Hc1 Hc12 Hc2.
  assert (efficiency_before_noise hour doy t c2 hum
          <= efficiency_before_noise hour doy t c1 hum) as Hbefore.
  { destruct (Z_le_dec 6 hour) as [H6|H6]; [destruct (Z_le_dec hour 18) as [H18|H18]|].
    - rewrite !efficiency_before_noise_day by lia.
      pose proof (hour_factor_nonneg hour (conj H6 H18)) as Hs.
      pose proof (temp_factor_nonneg t Ht) as Htf.
      pose proof (seasonal_factor_pos doy) as Hsf.
      assert (0 <= 1 - (hum - 30) / 100 * 0.15) as Hhf by lra.
      repeat apply Rmult_le_compat_r; try lra.
      apply Rmult_le_compat_l; lra.
    - rewrite !efficiency_before_noise_night by lia. lra.
    - rewrite !efficiency_before_noise_night by lia. lra. }
  assert (solar_efficiency_at hour doy t c2 hum noise
          <= solar_efficiency_at hour doy t c1 hum noise) as Hfinal.
  { unfold solar_efficiency_at.
    apply Rle_max_compat_l, Rle_min_compat_l. lra. }
  split; [exact Hfinal|]. cbn [row_of solar_output_efficiency].
  apply round2_mono, Hfinal.
Qed.

Lemma efficiency_antitone_in_cloud_cover_at_noon :
  solar_efficiency_at 12%Z 100%Z 25 60 50 0 <= solar_efficiency_at 12%Z 100%Z 25 20 50 0
  /\ solar_output_efficiency
       (row_of 100%Z 12%Z 25 60 50 (solar_efficiency_at 12%Z 100%Z 25 60 50 0))
     <= solar_output_efficiency
          (row_of 100%Z 12%Z 25 20 50 (solar_efficiency_at 12%Z 100%Z 25 20 50 0)).
Proof.
  apply (efficiency_antitone_in_cloud_cover 12%Z 100%Z 25 50 0 20 60); lra.
Defined.

End NightAndClouds.

(** ** Two runs from the same seed *)

Section SeededRuns.
Import TrainModel.

(** The data set of one day: the 24 rows of the day before [now]. *)
Lemma seeded_dataset_one_day (twister : Z -> nat -> Z) (s now : Z) :
  valid_date now -> (1 < now)%Z ->
  seeded_dataset twister s now 1
  = Ok (hours_rows (tm_yday (now - 1)) (seqZ 0 24) (seed twister s)).
Proof.
  intros Hnow Hlt. unfold seeded_dataset.
  rewrite generate_run by (unfold valid_date in *; lia).
  cbn [rbind fst]. change (seqZ 0 1) with [0%Z]. cbn [days_rows].
  rewrite app_nil_r. replace (now - 1 + 0)%Z with (now - 1)%Z by lia.
  reflexivity.
Qed.

Lemma Ok_inj {A : Type} (a b : A) : Ok a = Ok b -> a = b.
Proof. intros H. injection H. auto. Qed.

(** Every row carries the day of the year it was generated for. *)
Lemma hours_rows_day_inj (doy1 doy2 hour : Z) (rest : list Z) (g : rng) :
  hours_rows doy1 (hour :: rest) g = hours_rows doy2 (hour :: rest) g ->
  doy1 = doy2.
Proof.
  cbn [hours_rows]. intros Heq.
  apply (f_equal (fun rows => match rows with r :: _ => day_of_year r | [] => 0%Z end)) in Heq.
  exact Heq.
Qed.

(** C6 (as the code has it).  Seeding the generator with the same value before
    each of two calls of [generate_synthetic_dataset(days=1)] gives the same
    data frame exactly when the two calls read dates whose eve has the same
    day of the year -- in particular when both run on the same date.  The
    seed alone does not fix the output: [day_of_year], and through it the
    temperature and the target, come from [datetime.now()]. *)
Theorem same_seed_same_dataset_iff_same_day
    (twister : Z -> nat -> Z) (s now1 now2 : Z) :
  valid_date now1 -> valid_date now2 -> (1 < now1)%Z -> (1 < now2)%Z ->
  (seeded_dataset twister s now1 1 = seeded_dataset twister s now2 1
   <-> tm_yday (now1 - 1) = tm_yday (now2 - 1))
  /\ (now1 = now2 ->
      seeded_dataset twister s now1 1 = seeded_dataset twister s now2 1).
Proof.
  intros H1 H2 Hlt1 Hlt2.
  rewrite !seeded_dataset_one_day by assumption.
  split; [split|].
  - intros Heq. apply Ok_inj in Heq.
    change (seqZ 0 24) with (0%Z :: seqZ 1 23) in Heq.
    exact (hours_rows_day_inj _ _ _ _ _ Heq).
  - intros ->. reflexivity.
  - intros ->. reflexivity.
Qed.

Lemma same_seed_same_dataset_on_a_wednesday :
  (seeded_dataset constant_twister 42 a_wednesday 1
     = seeded_dataset constant_twister 42 a_wednesday 1
   <-> tm_yday (a_wednesday - 1) = tm_yday (a_wednesday - 1))
  /\ (a_wednesday = a_wednesday ->
      seeded_dataset constant_twister 42 a_wednesday 1
      = seeded_dataset constant_twister 42 a_wednesday 1).
Proof.
  apply (same_seed_same_dataset_iff_same_day constant_twister 42 a_wednesday a_wednesday).
  - unfold valid_date, a_wednesday, MAXORDINAL. lia.
  - unfold valid_date, a_wednesday, MAXORDINAL. lia.
  - unfold a_wednesday. lia.
  - unfold a_wednesday. lia.
Defined.

(** C6 fails as stated: with the same seed, the call made on 2026-11-04 and
    the call made on 2026-11-05 both return a data frame, and the two differ
    (the first has [day_of_year = 307], the second 308). *)
Lemma same_seed_next_day_differs :
  exists rows1 rows2 : list record,
    seeded_dataset constant_twister 42 a_wednesday 1 = Ok rows1
    /\ seeded_dataset constant_twister 42 (a_wednesday + 1) 1 = Ok rows2
    /\ rows1 <> rows2.
Proof.
  eexists _, _.
  split; [apply seeded_dataset_one_day;
          unfold valid_date, a_wednesday, MAXORDINAL; lia|].
  split; [apply seeded_dataset_one_day;
          unfold valid_date, a_wednesday, MAXORDINAL; lia|].
  change (seqZ 0 24) with (0%Z :: seqZ 1 23).
  intros Heq. apply hours_rows_day_inj in Heq. vm_compute in Heq. discriminate Heq.
Qed.

End SeededRuns.

(** ** The split of [train_model] *)

Section SplitFacts.
Import TrainModel.

Lemma safe_indexing_map {A B : Type} (f : A -> B) (l : list A) (indices : list nat) :
  safe_indexing (map f l) indices = map f (safe_indexing l indices).
Proof.
  unfold safe_indexing. induction indices as [|i rest IH]; [reflexivity|].
  cbn [omap list_omap]. change (map f l) with (f <$> l) at 1.
  rewrite list_lookup_fmap. destruct (l !! i); cbn [fmap option_fmap option_map map];
    rewrite IH; reflexivity.
Qed.

Lemma safe_indexing_app {A : Type} (l : list A) (i1 i2 : list nat) :
  safe_indexing l (i1 ++ i2) = safe_indexing l i1 ++ safe_indexing l i2.
Proof. apply omap_app. Qed.

Lemma safe_indexing_range_from {A : Type} (l : list A) :
  forall pre : list A,
    omap (fun i => (pre ++ l) !! i) (seq (length pre) (length l)) = l.
Proof.
  induction l as [|a l IH]; intros pre; [reflexivity|].
  cbn [length seq omap list_omap].
  rewrite list_lookup_middle by reflexivity. f_equal.
  specialize (IH (pre ++ [a])).
  rewrite <- app_assoc, length_app in IH. cbn [app length] in IH.
  rewrite Nat.add_1_r in IH. exact IH.
Qed.

(** Indexing with [range(len(l))] gives the list back. *)
Lemma safe_indexing_range {A : Type} (l : list A) :
  safe_indexing l (seq 0 (length l)) = l.
Proof. exact (safe_indexing_range_from l []). Qed.

(** Indexing with a permutation of the indices permutes the list. *)
Lemma safe_indexing_permutation {A : Type} (l : list A) (indices : list nat) :
  Permutation indices (seq 0 (length l)) ->
  Permutation (safe_indexing l indices) l.
Proof.
  intros Hperm. rewrite <- (safe_indexing_range l) at 2.
  unfold safe_indexing. now apply omap_Permutation.
Qed.

Lemma safe_indexing_length {A : Type} (l : list A) (indices : list nat) :
  Forall (fun i => (i < length l)%nat) indices ->
  length (safe_indexing l indices) = length indices.
Proof.
  unfold safe_indexing. induction 1 as [|i rest Hi _ IH]; [reflexivity|].
  cbn [omap list_omap]. destruct (lookup_lt_is_Some_2 l i Hi) as [a ->].
  cbn [length]. now rewrite IH.
Qed.

Lemma permutation_in_range (L : libraries) (seed : Z) (n : nat) :
  permutation_law L ->
  Forall (fun i => (i < n)%nat) (permutation L seed n)
  /\ length (permutation L seed n) = n.
Proof.
  intros Hlaw. specialize (Hlaw seed n). split.
  - apply Forall_forall. intros i Hi. rewrite Hlaw in Hi.
    apply elem_of_seq in Hi. lia.
  - rewrite Hlaw. apply length_seq.
Qed.

(** [ceil(0.2 * n)], computed on the integers. *)
Lemma ceil_fifth (n : nat) :
  Z.to_nat (Zceil (0.2 * INR n)) = ((n + 4) / 5)%nat.
Proof.
  assert (Zceil (0.2 * INR n) = ((Z.of_nat n + 4) / 5)%Z) as ->.
  { apply Zceil_eq. rewrite INR_IZR_INZ.
    pose proof (Z.div_mod (Z.of_nat n + 4) 5 ltac:(lia)) as Hdm.
    pose proof (Z.mod_pos_bound (Z.of_nat n + 4) 5 ltac:(lia)) as Hr.
    set (q := ((Z.of_nat n + 4) / 5)%Z) in *.
    set (r := ((Z.of_nat n + 4) mod 5)%Z) in *.
    assert (Z.of_nat n = 5 * q + r - 4)%Z as Hn by lia.
    rewrite Hn, minus_IZR, plus_IZR, mult_IZR.
    assert (0 <= r <= 4)%Z as [Hr0 Hr4] by lia.
    apply IZR_le in Hr0, Hr4. lra. }
  rewrite <- (Nat2Z.id ((n + 4) / 5)). f_equal.
  rewrite Nat2Z.inj_div, Nat2Z.inj_add. reflexivity.
Qed.

(** The sizes of an 80/20 split. *)
Lemma validate_shuffle_split_fifth (n : nat) :
  (2 <= n)%nat ->
  validate_shuffle_split n 0.2 = Ok ((n - (n + 4) / 5)%nat, ((n + 4) / 5)%nat).
Proof.
  intros Hn. unfold validate_shuffle_split.
  destruct (Rle_dec 0.2 0); [lra|]. destruct (Rle_dec 1 0.2); [lra|].
  rewrite ceil_fifth.
  assert ((n + 4) / 5 < n)%nat as Hlt.
  { apply Nat.Div0.div_lt_upper_bound. lia. }
  destruct (Nat.eqb_spec (n - (n + 4) / 5) 0); [lia|reflexivity].
Qed.

Lemma validate_shuffle_split_small (n : nat) :
  (n < 2)%nat -> validate_shuffle_split n 0.2 = Raise ValueError.
Proof.
  intros Hn. unfold validate_shuffle_split.
  destruct (Rle_dec 0.2 0); [lra|]. destruct (Rle_dec 1 0.2); [lra|].
  rewrite ceil_fifth.
  assert (n = 0 \/ n = 1)%nat as [-> | ->] by lia; reflexivity.
Qed.

(** The 24 rows of one day: 19 to fit, 5 held out. *)
Example validate_shuffle_split_one_day :
  validate_shuffle_split 24 0.2 = Ok (19%nat, 5%nat).
Proof. rewrite validate_shuffle_split_fifth by lia. reflexivity. Qed.

End SplitFacts.

(** ** [train_model] *)

Section TrainModelFacts.
Import TrainModel.

(** On a data frame of at least two rows, [train_model] is the fit on the train
    partition followed by the metrics on the test partition. *)
Lemma train_model_unfold (L : libraries) (df : list record) :
  permutation_law L -> (2 <= length df)%nat ->
  train_model L df
  = (do model <- fit L train_model_params
                   (map features_of (train_partition L df))
                   (map solar_output_efficiency (train_partition L df))
                   [(map features_of (test_partition L df),
                     map solar_output_efficiency (test_partition L df))];
     Ok (model, metrics_on L model (test_partition L df))).
Proof.
  intros Hlaw Hn. unfold train_model.
  destruct (decide (df = [])) as [->|_]; [simpl in Hn; lia|]. cbn [rbind].
  unfold train_test_split. rewrite length_map.
  rewrite (validate_shuffle_split_fifth _ Hn). cbn [rbind].
  destruct (permutation_in_range L 42 (length df) Hlaw) as [_ Hlen].
  rewrite (take_ge (drop _ _)) by (rewrite length_drop, Hlen; lia).
  rewrite !safe_indexing_map. reflexivity.
Qed.

(** A data frame of fewer than two rows cannot be split: [train_model]
    raises. *)
Lemma train_model_too_small (L : libraries) (df : list record) :
  (length df < 2)%nat -> exists e, train_model L df = Raise e.
Proof.
  intros Hn. unfold train_model.
  destruct (decide (df = [])) as [->|_]; [eexists; reflexivity|]. cbn [rbind].
  unfold train_test_split. rewrite length_map.
  rewrite (validate_shuffle_split_small _ Hn). eexists; reflexivity.
Qed.

Lemma held_out_size_bounds (df : list record) :
  (length df <= 5 * held_out_size df < length df + 5)%nat.
Proof.
  unfold held_out_size.
  pose proof (Nat.div_mod_eq (length df + 4) 5).
  pose proof (Nat.mod_upper_bound (length df + 4) 5). lia.
Qed.

(** C8.  When [train_model] returns a model and metrics for a data frame
    [df], the rows were split by the permutation of the fixed seed 42 into a
    test partition of [ceil(0.2 * len(df))] rows and a train partition of the
    remaining rows (together a rearrangement of [df], the same at every call),
    the model is the regressor fitted on the train partition, and the three
    metrics are computed from the targets of the test partition and the
    model's predictions on the test partition. *)
Theorem train_model_split_and_metrics
    (L : libraries) (df : list record) (model : regressor L) (m : metrics) :
  permutation_law L ->
  train_model L df = Ok (model, m) ->
  let train := train_partition L df in
  let test := test_partition L df in
  Permutation (train ++ test) df
  /\ length test = ((length df + 4) / 5)%nat
  /\ (length df <= 5 * length test < length df + 5)%nat
  /\ length train = (length df - length test)%nat
  /\ fit L train_model_params
       (map features_of train) (map solar_output_efficiency train)
       [(map features_of test, map solar_output_efficiency test)] = Ok model
  /\ rmse m = sqrt (mean_squared_error L (map solar_output_efficiency test)
                      (predict L model (map features_of test)))
  /\ mae m = mean_absolute_error L (map solar_output_efficiency test)
               (predict L model (map features_of test))
  /\ r2 m = r2_score L (map solar_output_efficiency test)
              (predict L model (map features_of test)).
Proof.
  intros Hlaw Hrun train test.
  destruct (le_lt_dec 2 (length df)) as [Hn|Hn];
    [|destruct (train_model_too_small L df Hn) as [e He]; congruence].
  rewrite (train_model_unfold L df Hlaw Hn) in Hrun. fold train test in Hrun.
  destruct (permutation_in_range L 42 (length df) Hlaw) as [Hrange Hlen].
  assert (length test = held_out_size df) as Htest.
  { unfold test, test_partition. rewrite safe_indexing_length.
    - rewrite length_take, Hlen. pose proof (held_out_size_bounds df). lia.
    - apply Forall_take, Hrange. }
  assert (length train = (length df - held_out_size df)%nat) as Htrain.
  { unfold train, train_partition. rewrite safe_indexing_length.
    - rewrite length_drop, Hlen. reflexivity.
    - apply Forall_drop, Hrange. }
  split.
  { rewrite Permutation_app_comm. unfold train, test, train_partition, test_partition.
    rewrite <- safe_indexing_app, take_drop.
    apply safe_indexing_permutation, Hlaw. }
  split; [exact Htest|].
  split; [rewrite Htest; apply held_out_size_bounds|].
  split; [rewrite Htest; exact Htrain|].
  destruct (fit L train_model_params _ _ _) as [model'|e]; [|discriminate Hrun].
  cbn [rbind] in Hrun. apply Ok_inj in Hrun.
  apply (f_equal fst) in Hrun as Hmodel. apply (f_equal snd) in Hrun as Hmetrics.
  cbn [fst snd] in Hmodel, Hmetrics. subst model' m.
  repeat split; reflexivity.
Qed.

Lemma train_model_split_and_metrics_toy :
  let train := train_partition toy_libraries toy_frame in
  let test := test_partition toy_libraries toy_frame in
  Permutation (train ++ test) toy_frame
  /\ length test = ((length toy_frame + 4) / 5)%nat
  /\ (length toy_frame <= 5 * length test < length toy_frame + 5)%nat
  /\ length train = (length toy_frame - length test)%nat
  /\ fit toy_libraries train_model_params
       (map features_of train) (map solar_output_efficiency train)
       [(map features_of test, map solar_output_efficiency test)] = Ok toy_model
  /\ rmse toy_metrics
     = sqrt (mean_squared_error toy_libraries (map solar_output_efficiency test)
               (predict toy_libraries toy_model (map features_of test)))
  /\ mae toy_metrics
     = mean_absolute_error toy_libraries (map solar_output_efficiency test)
         (predict toy_libraries toy_model (map features_of test))
  /\ r2 toy_metrics
     = r2_score toy_libraries (map solar_output_efficiency test)
         (predict toy_libraries toy_model (map features_of test)).
Proof.
  apply (train_model_split_and_metrics toy_libraries toy_frame toy_model toy_metrics).
  - intros seed n. reflexivity.
  - rewrite train_model_unfold.
    + reflexivity.
    + intros seed n. reflexivity.
    + simpl. lia.
Defined.

End TrainModelFacts.

(** ** [insert_weather_data] *)

Section InsertFacts.
Import DataIngestion.

(** A step of the [try] block raised: no write succeeded. *)
Ltac no_write :=
  let w'' := fresh "w" in
  let H := fresh "H" in
  intros w'' H; unfold write_succeeds in H; decompose [ex and] H; congruence.

Ltac raised := right; eexists _, _; split; [reflexivity | no_write].

(** The [try] block returns [True] or raises; it never returns [False]. *)
Lemma insert_try_block_outcome (S : sqlite3) (db_path : string)
    (weather_data : gmap string pyval) (w : world S) :
  (exists w', insert_try_block S db_path weather_data w = (Ok true, w')
              /\ write_succeeds S db_path weather_data w w')
  \/ (exists e w', insert_try_block S db_path weather_data w = (Raise e, w')
                   /\ forall w'', ~ write_succeeds S db_path weather_data w w'').
Proof.
  unfold insert_try_block, io_bind, io_ret, getitem.
  destruct (connect S db_path w) as [[conn|e] w1] eqn:Econn; [|raised].
  destruct (get_cursor S conn w1) as [[cur|e] w2] eqn:Ecur; [|raised].
  destruct (weather_data !! "timestamp"%string) as [ts|] eqn:Ets; [|raised].
  destruct (weather_data !! "temperature"%string) as [te|] eqn:Ete; [|raised].
  destruct (weather_data !! "cloud_cover"%string) as [cc|] eqn:Ecc; [|raised].
  destruct (weather_data !! "humidity"%string) as [hu|] eqn:Ehu; [|raised].
  destruct (weather_data !! "city"%string) as [ci|] eqn:Eci; [|raised].
  destruct (execute S cur INSERT_SQL [ts; te; cc; hu; ci] w2)
    as [[[]|e] w3] eqn:Eex; [|raised].
  destruct (commit S conn w3) as [[[]|e] w4] eqn:Eco; [|raised].
  destruct (close S conn w4) as [[[]|e] w5] eqn:Ecl; [|raised].
  left. exists w5. split; [reflexivity|].
  exists conn, cur, ts, te, cc, hu, ci, w1, w2, w3, w4. auto 12.
Qed.

(** C9.  Whatever the database engine does and whatever the dict holds,
    [insert_weather_data] returns a boolean and raises nothing: [True] exactly
    when the write succeeds, and [False] exactly when a step of the [try]
    block raises, the exception being printed and dropped. *)
Theorem insert_weather_data_returns_bool (S : sqlite3) (db_path : string)
    (weather_data : gmap string pyval) (w : world S) :
  exists (b : bool) (w' : world S),
    insert_weather_data S db_path weather_data w = (Ok b, w')
    /\ (b = true <-> exists w'', write_succeeds S db_path weather_data w w'')
    /\ (b = false <->
        exists e w'', insert_try_block S db_path weather_data w = (Raise e, w'')
                      /\ w' = print_error S e w'').
Proof.
  unfold insert_weather_data, try_except.
  destruct (insert_try_block_outcome S db_path weather_data w)
    as [(w1 & -> & Hok) | (e & w1 & -> & Hfail)].
  - exists true, w1. split; [reflexivity|]. split.
    + split; [eauto | reflexivity].
    + split; [discriminate | intros (e & w'' & He & _); discriminate He].
  - exists false, (print_error S e w1). split; [reflexivity|]. split.
    + split; [discriminate | intros [w'' Hw]; exfalso; exact (Hfail w'' Hw)].
    + split; [eauto | reflexivity].
Qed.

End InsertFacts.

(** * Further properties of the generator *)

Section GeneratorOrder.
Import TrainModel.

Lemma hours_rows_nth (doy : Z) (hours : list Z) :
  forall (g : rng) (i : nat) (hour : Z),
    hours !! i = Some hour ->
    hours_rows doy hours g !! i
    = Some (row_at doy hour (draws_of (advance (4 * i) g))).
Proof.
  induction hours as [|h0 rest IH]; intros g i hour Hi; [discriminate|].
  destruct i as [|i]; cbn [hours_rows].
  - injection Hi as ->. now rewrite advance_0.
  - change ((?x :: ?l) !! S i) with (l !! i).
    replace (4 * S i)%nat with (4 + 4 * i)%nat by lia.
    rewrite <- advance_advance. apply IH. exact Hi.
Qed.

Lemma days_rows_nth (start : Z) (range_days : list Z) :
  forall (g : rng) (j i : nat) (day : Z),
    range_days !! j = Some day -> (i < 24)%nat ->
    days_rows start range_days g !! (24 * j + i)%nat
    = Some (row_at (tm_yday (start + day)) (Z.of_nat i)
              (draws_of (advance (4 * (24 * j + i)) g))).
Proof.
  induction range_days as [|d0 rest IH]; intros g j i day Hj Hi; [discriminate|].
  cbn [days_rows]. destruct j as [|j].
  - injection Hj as ->. rewrite Nat.mul_0_r, Nat.add_0_l.
    rewrite lookup_app_l by (rewrite hours_rows_length, length_seqZ; lia).
    apply hours_rows_nth. rewrite lookup_seqZ. split; lia.
  - rewrite lookup_app_r by (rewrite hours_rows_length, length_seqZ; lia).
    rewrite hours_rows_length, length_seqZ.
    replace (24 * S j + i - Z.to_nat 24)%nat with (24 * j + i)%nat by lia.
    rewrite (IH (advance 96 g) j i day Hj Hi), advance_advance.
    do 4 f_equal. lia.
Qed.

(** X1.  The rows come out in chronological order, and each one is made of
    its own four draws: in the data set of a run that returns, the row at
    index [k] (counting from 0) is the row of day [k / 24] after the start
    date, of hour [k mod 24], computed from the draws number [4k] to [4k + 3]
    of the generator and from nothing else. *)
Theorem generated_row_at_index (now days : Z) (g : rng) (k : nat) :
  valid_date now -> (0 <= days < now)%Z -> (Z.of_nat k < 24 * days)%Z ->
  exists (rows : list record) (g' : rng),
    generate_synthetic_dataset now days g = Ok (rows, g')
    /\ rows !! k
       = Some (row_at (tm_yday (now - days + Z.of_nat (k / 24)))
                 (Z.of_nat (k mod 24)) (draws_of (advance (4 * k) g)))
    /\ (forall r, rows !! k = Some r ->
          hour_of_day r = Z.of_nat (k mod 24)
          /\ day_of_year r = tm_yday (now - days + Z.of_nat (k / 24))).
Proof.
  intros Hnow Hdays Hk.
  eexists _, _. split.
  { apply generate_run; [exact Hnow | unfold valid_date in *; lia]. }
  assert (days_rows (now - days) (seqZ 0 days) g !! k
          = Some (row_at (tm_yday (now - days + Z.of_nat (k / 24)))
                    (Z.of_nat (k mod 24)) (draws_of (advance (4 * k) g)))) as Hrow.
  { pose proof (Nat.div_mod_eq k 24) as Hdm.
    pose proof (Nat.mod_upper_bound k 24 ltac:(lia)) as Hmod.
    assert (seqZ 0 days !! (k / 24)%nat = Some (Z.of_nat (k / 24))) as Hday.
    { rewrite lookup_seqZ. split; [lia|].
      assert (k / 24 < Z.to_nat days)%nat; [|lia].
      apply Nat.Div0.div_lt_upper_bound. lia. }
    pose proof (days_rows_nth (now - days) _ g _ _ _ Hday Hmod) as Hnth.
    rewrite <- Hdm in Hnth. exact Hnth. }
  split; [exact Hrow|].
  intros r Hr. rewrite Hrow in Hr. injection Hr as <-. split; reflexivity.
Qed.

Lemma generated_row_at_index_30 :
  exists (rows : list record) (g' : rng),
    generate_synthetic_dataset a_wednesday 2 three_quarters_rng = Ok (rows, g')
    /\ rows !! 30%nat
       = Some (row_at (tm_yday (a_wednesday - 2 + Z.of_nat (30 / 24)))
                 (Z.of_nat (30 mod 24)) (draws_of (advance (4 * 30) three_quarters_rng)))
    /\ (forall r, rows !! 30%nat = Some r ->
          hour_of_day r = Z.of_nat (30 mod 24)
          /\ day_of_year r = tm_yday (a_wednesday - 2 + Z.of_nat (30 / 24))).
Proof.
  apply (generated_row_at_index a_wednesday 2 three_quarters_rng 30).
  - unfold valid_date, a_wednesday, MAXORDINAL. lia.
  - unfold a_wednesday. lia.
  - lia.
Defined.

End GeneratorOrder.

Section GeneratorRanges.
Import TrainModel.

(** The day of the year is between 1 and 366, whatever the ordinal. *)
Lemma tm_yday_range (n : Z) : (1 <= tm_yday n <= 366)%Z.
Proof.
  unfold tm_yday. cbv zeta.
  match goal with |- context [if ?b then _ else _] => destruct b end; [lia|].
  match goal with |- context [(?a mod 365)%Z] =>
    pose proof (Z.mod_pos_bound a 365 ltac:(lia)) end.
  lia.
Qed.

(** Rounding to two decimals keeps a value between two bounds that have two
    decimals themselves. *)
Lemma round2_between_cents (lo hi : Z) (x : R) :
  IZR lo / 100 <= x <= IZR hi / 100 ->
  IZR lo / 100 <= round2 x <= IZR hi / 100.
Proof.
  intros [Hlo Hhi].
  assert (forall k : Z, round2 (IZR k / 100) = IZR k / 100) as Hfix.
  { intros k. unfold round2. replace (IZR k / 100 * 100) with (IZR k) by lra.
    now rewrite round_half_even_IZR. }
  rewrite <- (Hfix lo), <- (Hfix hi) at 1.
  split; apply round2_mono; assumption.
Qed.

(** With draws in range, the two clamps of lines 57 and 61 leave their
    argument as it is. *)
Lemma clamps_inactive (doy hour : Z) (d : draws) :
  draws_in_range d ->
  let t := temperature_at doy hour (temperature_noise d) in
  let c := cloud_cover_at t (cloud_base d) in
  let h := humidity_at c (humidity_noise d) in
  c = cloud_base d - (t - 25) * 0.3
  /\ h = 40 + c * 0.4 + humidity_noise d
  /\ 5.5 <= c <= 74.5
  /\ 32.2 <= h <= 79.8.
Proof.
  intros (Ht & Hc & Hh & _) t c h.
  assert (10 <= t <= 40) as Htr by (apply temperature_at_range; lra).
  assert (c = cloud_base d - (t - 25) * 0.3) as Hceq.
  { unfold c, cloud_cover_at. rewrite Rmin_right, Rmax_right by lra. reflexivity. }
  assert (5.5 <= c <= 74.5) as Hcr by lra.
  assert (h = 40 + c * 0.4 + humidity_noise d) as Hheq.
  { unfold h, humidity_at. rewrite Rmin_right, Rmax_right by lra. reflexivity. }
  repeat split; lra.
Qed.

Lemma hours_rows_Forall (P : record -> Prop) (doy : Z) (hours : list Z) :
  (forall hour g, (0 <= hour <= 23)%Z -> P (row_at doy hour (draws_of g))) ->
  Forall (fun h => (0 <= h <= 23)%Z) hours ->
  forall g, Forall P (hours_rows doy hours g).
Proof.
  intros HP. induction 1 as [|h rest Hh _ IH]; intros g; cbn [hours_rows];
    constructor; auto.
Qed.

Lemma days_rows_Forall (P : record -> Prop) :
  (forall date hour g, (0 <= hour <= 23)%Z ->
     P (row_at (tm_yday date) hour (draws_of g))) ->
  forall start range_days g, Forall P (days_rows start range_days g).
Proof.
  intros HP start range_days.
  induction range_days as [|day rest IH]; intros g; cbn [days_rows]; [constructor|].
  apply Forall_app. split; [|apply IH].
  apply hours_rows_Forall; [intros; apply HP; assumption | apply range24_hours].
Qed.

(** X2.  Every row of a returned data set keeps the ranges of the data model:
    [hour_of_day] in 0..23, [day_of_year] in 1..366, and a (rounded)
    [temperature] between 10 and 40 degrees. *)
Theorem generated_rows_data_model
    (now days : Z) (g : rng) (rows : list record) (g' : rng) :
  generate_synthetic_dataset now days g = Ok (rows, g') ->
  Forall (fun r => (0 <= hour_of_day r <= 23)%Z
                   /\ (1 <= day_of_year r <= 366)%Z
                   /\ 10 <= temperature r <= 40) rows.
Proof.
  intros Hrun. rewrite (generate_rows _ _ _ _ _ Hrun).
  apply days_rows_Forall. intros date hour g0 Hh.
  cbn [row_at row_of hour_of_day day_of_year temperature].
  split; [exact Hh|]. split; [apply tm_yday_range|].
  apply (round2_between 10 40), temperature_at_range.
  destruct (draws_of_in_range g0) as [Ht _]. lra.
Qed.

Lemma generated_rows_data_model_one_day :
  Forall (fun r => (0 <= hour_of_day r <= 23)%Z
                   /\ (1 <= day_of_year r <= 366)%Z
                   /\ 10 <= temperature r <= 40)
    (days_rows (a_wednesday - 1) (seqZ 0 1) three_quarters_rng).
Proof.
  apply (generated_rows_data_model a_wednesday 1 three_quarters_rng
           _ (advance 96 three_quarters_rng)).
  apply (generate_run a_wednesday 1 three_quarters_rng).
  - unfold valid_date, a_wednesday, MAXORDINAL. lia.
  - unfold valid_date, a_wednesday, MAXORDINAL. lia.
Defined.

(** X3.  The clamps of cloud cover and humidity never act: in every row of a
    returned data set the cloud cover is the drawn base corrected by the
    temperature and lies in [[5.5, 74.5]], and the humidity is
    [40 + 0.4 * cloud_cover] plus its noise and lies in [[32.2, 79.8]], before
    and after rounding.  No generated row has a cloud cover above 74.5. *)
Theorem generated_clouds_and_humidity_unclamped
    (now days : Z) (g : rng) (rows : list record) (g' : rng) (r : record) :
  generate_synthetic_dataset now days g = Ok (rows, g') ->
  In r rows ->
  exists d : draws,
    draws_in_range d
    /\ r = row_at (day_of_year r) (hour_of_day r) d
    /\ (let t := temperature_at (day_of_year r) (hour_of_day r) (temperature_noise d) in
        let c := cloud_cover_at t (cloud_base d) in
        let h := humidity_at c (humidity_noise d) in
        c = cloud_base d - (t - 25) * 0.3
        /\ h = 40 + c * 0.4 + humidity_noise d)
    /\ 5.5 <= cloud_cover r <= 74.5
    /\ 32.2 <= humidity r <= 79.8.
Proof.
  intros Hrun Hin. apply generated_rows in Hrun.
  rewrite Forall_forall in Hrun. apply list_elem_of_In, Hrun in Hin.
  destruct (generated_row_self r Hin) as (d & Hd & _ & Hr).
  exists d. split; [exact Hd|]. split; [exact Hr|].
  destruct (clamps_inactive (day_of_year r) (hour_of_day r) d Hd)
    as (Hc & Hh & Hcr & Hhr).
  split; [split; assumption|].
  rewrite Hr. cbn [row_at row_of cloud_cover humidity].
  split.
  - replace 5.5 with (IZR 550 / 100) by lra. replace 74.5 with (IZR 7450 / 100) by lra.
    apply round2_between_cents. lra.
  - replace 32.2 with (IZR 3220 / 100) by lra. replace 79.8 with (IZR 7980 / 100) by lra.
    apply round2_between_cents. lra.
Qed.

Lemma generated_clouds_and_humidity_unclamped_at_noon :
  exists d : draws,
    draws_in_range d
    /\ sample_row 12 = row_at (day_of_year (sample_row 12)) (hour_of_day (sample_row 12)) d
    /\ (let t := temperature_at (day_of_year (sample_row 12))
                   (hour_of_day (sample_row 12)) (temperature_noise d) in
        let c := cloud_cover_at t (cloud_base d) in
        let h := humidity_at c (humidity_noise d) in
        c = cloud_base d - (t - 25) * 0.3
        /\ h = 40 + c * 0.4 + humidity_noise d)
    /\ 5.5 <= cloud_cover (sample_row 12) <= 74.5
    /\ 32.2 <= humidity (sample_row 12) <= 79.8.
Proof.
  apply (generated_clouds_and_humidity_unclamped a_wednesday 1 three_quarters_rng
           (days_rows (a_wednesday - 1) (seqZ 0 1) three_quarters_rng)
           (advance 96 three_quarters_rng) (sample_row 12)).
  - apply (generate_run a_wednesday 1 three_quarters_rng).
    + unfold valid_date, a_wednesday, MAXORDINAL. lia.
    + unfold valid_date, a_wednesday, MAXORDINAL. lia.
  - apply sample_row_in_one_day_run. lia.
Defined.

(** X4.  A run that returns has drawn exactly four numbers per row from the
    generator, no more: the generator it leaves is the one it was given,
    advanced by [4 * len(rows)] draws. *)
Theorem generate_draws_four_per_row
    (now days : Z) (g : rng) (rows : list record) (g' : rng) :
  generate_synthetic_dataset now days g = Ok (rows, g') ->
  g' = advance (4 * length rows) g
  /\ words g' = words g
  /\ consumed g' = (consumed g + 4 * length rows)%nat.
Proof.
  intros Hrun.
  assert (g' = advance (4 * length rows) g) as ->; [|repeat split; reflexivity].
  rewrite (generate_rows _ _ _ _ _ Hrun), days_rows_length.
  revert Hrun. unfold generate_synthetic_dataset, timedelta, date_sub, date_add.
  destruct (Z.abs days <=? MAX_DELTA_DAYS)%Z; [|discriminate]. cbn [rbind].
  destruct ((0 <? now + - days)%Z && (now + - days <=? MAXORDINAL)%Z); [|discriminate].
  cbn [rbind]. intros Hrun. apply days_loop_rows in Hrun as [_ ->].
  f_equal. lia.
Qed.

Lemma generate_draws_four_per_row_one_day :
  advance 96 three_quarters_rng
  = advance (4 * length (days_rows (a_wednesday - 1) (seqZ 0 1) three_quarters_rng))
      three_quarters_rng
  /\ words (advance 96 three_quarters_rng) = words three_quarters_rng
  /\ consumed (advance 96 three_quarters_rng)
     = (consumed three_quarters_rng
        + 4 * length (days_rows (a_wednesday - 1) (seqZ 0 1) three_quarters_rng))%nat.
Proof.
  apply (generate_draws_four_per_row a_wednesday 1 three_quarters_rng).
  apply (generate_run a_wednesday 1 three_quarters_rng).
  - unfold valid_date, a_wednesday, MAXORDINAL. lia.
  - unfold valid_date, a_wednesday, MAXORDINAL. lia.
Defined.

End GeneratorRanges.

Section GeneratorShape.
Import TrainModel.

Lemma cloud_factor_nonneg (c : R) : c <= 100 -> 0 <= 1 - c / 100 * 0.8.
Proof. intros. lra. Qed.

(** The product of the factors other than the daylight angle. *)
Lemma efficiency_before_noise_factors (hour doy : Z) (t c h : R) :
  (6 <= hour <= 18)%Z ->
  efficiency_before_noise hour doy t c h
  = sin ((IZR hour - 6) * PI / 12)
    * (100 * (1 - c / 100 * 0.8) * temp_factor t * (1 - (h - 30) / 100 * 0.15)
       * (0.95 + 0.1 * sin ((IZR doy - 80) * 2 * PI / 365))).
Proof. intros Hday. rewrite efficiency_before_noise_day by exact Hday. ring. Qed.

Lemma other_factors_nonneg (doy : Z) (t c h : R) :
  -20 <= t <= 85 -> c <= 100 -> h <= 100 ->
  0 <= 100 * (1 - c / 100 * 0.8) * temp_factor t * (1 - (h - 30) / 100 * 0.15)
       * (0.95 + 0.1 * sin ((IZR doy - 80) * 2 * PI / 365)).
Proof.
  intros Ht Hc Hh.
  pose proof (temp_factor_nonneg t Ht). pose proof (seasonal_factor_pos doy).
  pose proof (cloud_factor_nonneg c Hc).
  repeat apply Rmult_le_pos; lra.
Qed.

Lemma efficiency_before_noise_nonneg (hour doy : Z) (t c h : R) :
  -20 <= t <= 85 -> c <= 100 -> h <= 100 ->
  0 <= efficiency_before_noise hour doy t c h.
Proof.
  intros Ht Hc Hh.
  destruct (Z_le_dec 6 hour) as [H6|H6]; [destruct (Z_le_dec hour 18) as [H18|H18]|].
  - rewrite efficiency_before_noise_factors by lia.
    apply Rmult_le_pos; [apply hour_factor_nonneg; lia | now apply other_factors_nonneg].
  - rewrite efficiency_before_noise_night by lia. lra.
  - rewrite efficiency_before_noise_night by lia. lra.
Qed.

(** X5.  Noon is the peak of the solar cycle: with the day, the temperature,
    the cloud cover, the humidity and the noise fixed (in the ranges where the
    factors are not negative, which contain the generated values), no hour
    gives a larger target than hour 12, before the noise and after the
    clamp. *)
Theorem efficiency_peaks_at_noon (hour doy : Z) (t c h noise : R) :
  -20 <= t <= 85 -> c <= 100 -> h <= 100 ->
  efficiency_before_noise hour doy t c h <= efficiency_before_noise 12 doy t c h
  /\ solar_efficiency_at hour doy t c h noise
     <= solar_efficiency_at 12 doy t c h noise.
Proof.
  intros Ht Hc Hh.
  assert (efficiency_before_noise hour doy t c h
          <= efficiency_before_noise 12 doy t c h) as Hle.
  { pose proof (other_factors_nonneg doy t c h Ht Hc Hh) as Hpos.
    rewrite (efficiency_before_noise_factors 12) by lia.
    replace ((12 - 6) * PI / 12) with (PI / 2) by lra. rewrite sin_PI2.
    destruct (Z_le_dec 6 hour) as [H6|H6]; [destruct (Z_le_dec hour 18) as [H18|H18]|].
    - rewrite efficiency_before_noise_factors by lia.
      apply Rmult_le_compat_r; [exact Hpos|]. apply SIN_bound.
    - rewrite efficiency_before_noise_night by lia. lra.
    - rewrite efficiency_before_noise_night by lia. lra. }
  split; [exact Hle|]. unfold solar_efficiency_at.
  apply Rle_max_compat_l, Rle_min_compat_l. lra.
Qed.

Lemma efficiency_peaks_at_noon_vs_nine :
  efficiency_before_noise 9 100 25 20 50 <= efficiency_before_noise 12 100 25 20 50
  /\ solar_efficiency_at 9 100 25 20 50 0 <= solar_efficiency_at 12 100 25 20 50 0.
Proof. apply (efficiency_peaks_at_noon 9 100 25 20 50 0); lra. Defined.

(** X6.  The target is symmetric about noon: [k] hours before and [k] hours
    after 12 o'clock give the same value when everything else is the same. *)
Theorem efficiency_symmetric_about_noon (k doy : Z) (t c h noise : R) :
  efficiency_before_noise (12 - k) doy t c h = efficiency_before_noise (12 + k) doy t c h
  /\ solar_efficiency_at (12 - k) doy t c h noise
     = solar_efficiency_at (12 + k) doy t c h noise.
Proof.
  assert (efficiency_before_noise (12 - k) doy t c h
          = efficiency_before_noise (12 + k) doy t c h) as Heq.
  { destruct (Z_le_dec (-6) k) as [Hlo|Hlo]; [destruct (Z_le_dec k 6) as [Hhi|Hhi]|].
    - rewrite !efficiency_before_noise_day by lia.
      rewrite minus_IZR, plus_IZR.
      replace ((12 - IZR k - 6) * PI / 12) with (PI - (12 + IZR k - 6) * PI / 12) by lra.
      rewrite sin_PI_x. reflexivity.
    - rewrite !efficiency_before_noise_night by lia. reflexivity.
    - rewrite !efficiency_before_noise_night by lia. reflexivity. }
  split; [exact Heq|]. unfold solar_efficiency_at. now rewrite Heq.
Qed.

(** X7.  Lower humidity, higher output: with everything else fixed, a larger
    humidity never gives a larger target, before and after rounding. *)
Theorem efficiency_antitone_in_humidity
    (hour doy : Z) (t c noise h1 h2 : R) :
  -20 <= t <= 85 -> c <= 100 -> h1 <= h2 ->
  solar_efficiency_at hour doy t c h2 noise <= solar_efficiency_at hour doy t c h1 noise
  /\ round2 (solar_efficiency_at hour doy t c h2 noise)
     <= round2 (solar_efficiency_at hour doy t c h1 noise).
Proof.
  intros Ht Hc Hh.
  assert (efficiency_before_noise hour doy t c h2
          <= efficiency_before_noise hour doy t c h1) as Hbefore.
  { destruct (Z_le_dec 6 hour) as [H6|H6]; [destruct (Z_le_dec hour 18) as [H18|H18]|].
    - rewrite !efficiency_before_noise_day by lia.
      pose proof (hour_factor_nonneg hour (conj H6 H18)) as Hs.
      pose proof (temp_factor_nonneg t Ht) as Htf.
      pose proof (seasonal_factor_pos doy) as Hsf.
      pose proof (cloud_factor_nonneg c Hc) as Hcf.
      apply Rmult_le_compat_r; [lra|].
      apply Rmult_le_compat_l; [|lra].
      repeat apply Rmult_le_pos; lra.
    - rewrite !efficiency_before_noise_night by lia. lra.
    - rewrite !efficiency_before_noise_night by lia. lra. }
  assert (solar_efficiency_at hour doy t c h2 noise
          <= solar_efficiency_at hour doy t c h1 noise) as Hfinal.
  { unfold solar_efficiency_at. apply Rle_max_compat_l, Rle_min_compat_l. lra. }
  split; [exact Hfinal | apply round2_mono, Hfinal].
Qed.

Lemma efficiency_antitone_in_humidity_at_noon :
  solar_efficiency_at 12 100 25 20 70 0 <= solar_efficiency_at 12 100 25 20 40 0
  /\ round2 (solar_efficiency_at 12 100 25 20 70 0)
     <= round2 (solar_efficiency_at 12 100 25 20 40 0).
Proof. apply (efficiency_antitone_in_humidity 12 100 25 20 0 40 70); lra. Defined.

Lemma sqrt3_lt_2 : sqrt 3 < 2.
Proof.
  replace 2 with (sqrt 4).
  - apply sqrt_lt_1; lra.
  - replace 4 with (2 * 2) by lra. apply sqrt_square. lra.
Qed.

(** X8.  The daily temperature cycle of line 52 peaks at hour 12: with the day
    and the noise fixed, no hour is warmer than noon, and 14 o'clock is
    strictly cooler than noon (by [8 * (1 - sqrt 3 / 2)] degrees). *)
Theorem temperature_peaks_at_noon (doy hour : Z) (noise : R) :
  temperature_at doy hour noise <= temperature_at doy 12 noise
  /\ temperature_at doy 14 noise < temperature_at doy 12 noise
  /\ temperature_at doy 12 noise - temperature_at doy 14 noise
     = 8 * (1 - sqrt 3 / 2).
Proof.
  unfold temperature_at.
  replace ((12 - 6) * PI / 12) with (PI / 2) by lra. rewrite sin_PI2.
  assert (sin ((14 - 6) * PI / 12) = sqrt 3 / 2) as H14.
  { replace ((14 - 6) * PI / 12) with (PI - PI / 3) by lra.
    rewrite sin_PI_x. apply sin_PI3. }
  rewrite H14. pose proof (SIN_bound ((IZR hour - 6) * PI / 12)).
  pose proof sqrt3_lt_2. repeat split; lra.
Qed.

(** X9.  The temperature factor of lines 83-89 is never above 1 and is 1 only
    at 25 degrees, the optimum named in the code; it is not a single hump:
    just above 35 degrees it is larger than just below. *)
Theorem temp_factor_optimum (t : R) :
  temp_factor t <= 1
  /\ (temp_factor t = 1 <-> t = 25)
  /\ temp_factor 34 < temp_factor 36.
Proof.
  split; [|split].
  - unfold temp_factor. destruct (Rlt_dec t 15); [lra|].
    destruct (Rgt_dec t 35); [lra|].
    unfold Rabs. destruct (Rcase_abs (t - 25)); lra.
  - unfold temp_factor. destruct (Rlt_dec t 15); [split; lra|].
    destruct (Rgt_dec t 35); [split; lra|].
    unfold Rabs. destruct (Rcase_abs (t - 25)); split; lra.
  - unfold temp_factor.
    destruct (Rlt_dec 34 15); [lra|]. destruct (Rgt_dec 34 35); [lra|].
    destruct (Rlt_dec 36 15); [lra|]. destruct (Rgt_dec 36 35); [|lra].
    unfold Rabs. destruct (Rcase_abs (34 - 25)); lra.
Qed.

End GeneratorShape.

(** * The training script *)

Section TrainingScriptFacts.
Import TrainModel DataIngestion TrainingScript.


(** The sizes of the two partitions. *)
Lemma partition_sizes (L : libraries) (df : list record) :
  permutation_law L ->
  length (test_partition L df) = held_out_size df
  /\ length (train_partition L df) = (length df - held_out_size df)%nat.
Proof.
  intros Hlaw.
  destruct (permutation_in_range L 42 (length df) Hlaw) as [Hrange Hperm].
  pose proof (held_out_size_bounds df) as Hsize. split.
  - unfold test_partition. rewrite safe_indexing_length.
    + rewrite length_take, Hperm. lia.
    + apply Forall_take, Hrange.
  - unfold train_partition. rewrite safe_indexing_length.
    + rewrite length_drop, Hperm. reflexivity.
    + apply Forall_drop, Hrange.
Qed.

(** X11.  Generation feeds training: for a window of [days >= 1] (with the
    start date in the calendar) the data frame of [generate_synthetic_dataset]
    has enough rows for the split, so [train_model] on it raises only if the
    fit raises; it holds out [ceil(4.8 * days)] rows and fits on the other
    [24 * days - ceil(4.8 * days)]. *)
Theorem train_model_on_generated_data
    (L : libraries) (now days : Z) (g : rng) (rows : list record) (g' : rng) :
  permutation_law L ->
  (1 <= days)%Z ->
  generate_synthetic_dataset now days g = Ok (rows, g') ->
  length (test_partition L rows) = ((24 * Z.to_nat days + 4) / 5)%nat
  /\ length (train_partition L rows)
     = (24 * Z.to_nat days - (24 * Z.to_nat days + 4) / 5)%nat
  /\ train_model L rows
     = (do model <- fit L train_model_params
                      (map features_of (train_partition L rows))
                      (map solar_output_efficiency (train_partition L rows))
                      [(map features_of (test_partition L rows),
                        map solar_output_efficiency (test_partition L rows))];
        Ok (model, metrics_on L model (test_partition L rows))).
Proof.
  intros Hlaw Hdays Hrun.
  assert (length rows = (24 * Z.to_nat days)%nat) as Hlen.
  { rewrite (generate_rows _ _ _ _ _ Hrun), days_rows_length, length_seqZ. reflexivity. }
  destruct (partition_sizes L rows Hlaw) as [Htest Htrain].
  unfold held_out_size in *. rewrite Hlen in *.
  split; [exact Htest|]. split; [exact Htrain|].
  apply train_model_unfold; [exact Hlaw | lia].
Qed.

Lemma train_model_on_generated_data_one_day :
  length (test_partition toy_libraries
            (days_rows (a_wednesday - 1) (seqZ 0 1) three_quarters_rng))
  = ((24 * Z.to_nat 1 + 4) / 5)%nat
  /\ length (train_partition toy_libraries
               (days_rows (a_wednesday - 1) (seqZ 0 1) three_quarters_rng))
     = (24 * Z.to_nat 1 - (24 * Z.to_nat 1 + 4) / 5)%nat
  /\ train_model toy_libraries
       (days_rows (a_wednesday - 1) (seqZ 0 1) three_quarters_rng)
     = (do model <- fit toy_libraries train_model_params
                      (map features_of (train_partition toy_libraries
                         (days_rows (a_wednesday - 1) (seqZ 0 1) three_quarters_rng)))
                      (map solar_output_efficiency (train_partition toy_libraries
                         (days_rows (a_wednesday - 1) (seqZ 0 1) three_quarters_rng)))
                      [(map features_of (test_partition toy_libraries
                          (days_rows (a_wednesday - 1) (seqZ 0 1) three_quarters_rng)),
                        map solar_output_efficiency (test_partition toy_libraries
                          (days_rows (a_wednesday - 1) (seqZ 0 1) three_quarters_rng)))];
        Ok (model, metrics_on toy_libraries model
                     (test_partition toy_libraries
                        (days_rows (a_wednesday - 1) (seqZ 0 1) three_quarters_rng)))).
Proof.
  apply (train_model_on_generated_data toy_libraries a_wednesday 1 three_quarters_rng
           _ (advance 96 three_quarters_rng)).
  - intros seed n. reflexivity.
  - lia.
  - apply (generate_run a_wednesday 1 three_quarters_rng).
    + unfold valid_date, a_wednesday, MAXORDINAL. lia.
    + unfold valid_date, a_wednesday, MAXORDINAL. lia.
Defined.

(** [save_model] returns [model_dir/solar_prediction_model.pkl] when the
    directory could be made and the dump went through, and otherwise raises
    what [mkdir] or [dump] raised. *)
Lemma save_model_outcome {M : Type} (F : storage M) (model : M)
    (model_dir : string) (w : disk F) :
  let path := (model_dir ++ "/solar_prediction_model.pkl")%string in
  match mkdir F model_dir w with
  | (Raise e, w1) => save_model F model model_dir w = (Raise e, w1)
  | (Ok _, w1) =>
      match dump F model path w1 with
      | (Raise e, w2) => save_model F model model_dir w = (Raise e, w2)
      | (Ok _, w2) => save_model F model model_dir w = (Ok path, w2)
      end
  end.
Proof.
  unfold save_model, io_bind, io_ret. cbv zeta.
  destruct (mkdir F model_dir w) as [[[]|e] w1]; [|reflexivity].
  destruct (dump F model _ w1) as [[[]|e] w2]; reflexivity.
Qed.



End TrainingScriptFacts.

(** * The weather store *)

Section WeatherStoreFacts.
Import DataIngestion WeatherStore.

(** The dict of [generate_weather_data], field by field. *)
Lemma generate_weather_data_fields (city : string) (current_hour : Z)
    (timestamp : string) (g : rng) :
  let temperature :=
    25 + 8 * sin ((IZR current_hour - 6) * PI / 12) + (-2 + (2 - -2) * peek g 0) in
  let cloud_cover :=
    Rmax 0 (Rmin 100 (10 + (70 - 10) * peek g 1 - (temperature - 25) * 0.5)) in
  let humidity :=
    Rmax 30 (Rmin 95 (40 + cloud_cover * 0.4 + (-10 + (10 - -10) * peek g 2))) in
  let weather_data := fst (generate_weather_data city current_hour timestamp g) in
  snd (generate_weather_data city current_hour timestamp g) = advance 3 g
  /\ weather_data !! "timestamp"%string = Some (PyStr timestamp)
  /\ weather_data !! "temperature"%string = Some (PyFloat (round2 temperature))
  /\ weather_data !! "cloud_cover"%string = Some (PyFloat (round2 cloud_cover))
  /\ weather_data !! "humidity"%string = Some (PyFloat (round2 humidity))
  /\ weather_data !! "city"%string = Some (PyStr city).
Proof.
  cbv zeta. unfold generate_weather_data, uniform, random.
  rewrite !advance_advance, !peek_advance. cbn [fst snd Nat.add].
  repeat split; now simplify_map_eq.
Qed.

(** X13.  Every reading of [generate_weather_data], at any hour and for any
    draws, is a dict of exactly the five fields, with text for the city and
    the time stamp and floats for the measures: a temperature in [[15, 35]],
    a cloud cover in [[5, 75]] and a humidity in [[32, 80]] -- inside the
    ranges 10..45, 0..100 and 0..100 that the repository's tests assert. *)
Theorem generate_weather_data_realistic (city : string) (current_hour : Z)
    (timestamp : string) (g : rng) :
  exists (weather_data : gmap string pyval) (temperature cloud_cover humidity : R),
    generate_weather_data city current_hour timestamp g = (weather_data, advance 3 g)
    /\ weather_data !! "timestamp"%string = Some (PyStr timestamp)
    /\ weather_data !! "city"%string = Some (PyStr city)
    /\ weather_data !! "temperature"%string = Some (PyFloat temperature)
    /\ weather_data !! "cloud_cover"%string = Some (PyFloat cloud_cover)
    /\ weather_data !! "humidity"%string = Some (PyFloat humidity)
    /\ (forall key, is_Some (weather_data !! key) ->
          In key ["temperature"; "cloud_cover"; "humidity"; "city"; "timestamp"]%string)
    /\ 15 <= temperature <= 35
    /\ 5 <= cloud_cover <= 75
    /\ 32 <= humidity <= 80.
Proof.
  destruct (generate_weather_data_fields city current_hour timestamp g)
    as (Hg & Hts & Ht & Hc & Hh & Hcity).
  destruct (generate_weather_data city current_hour timestamp g) as [wd g'] eqn:Hrun.
  cbn [fst snd] in *. subst g'.
  eexists wd, _, _, _. split; [reflexivity|].
  split; [exact Hts|]. split; [exact Hcity|].
  split; [exact Ht|]. split; [exact Hc|]. split; [exact Hh|].
  split.
  { intros key Hkey.
    assert (wd = fst (generate_weather_data city current_hour timestamp g)) as Hwd
      by (rewrite Hrun; reflexivity).
    unfold generate_weather_data, uniform, random in Hwd. cbn [fst] in Hwd.
    subst wd.
    destruct (decide (key = "temperature"%string)) as [Heq|?]; [left + (do 1 right; left) + (do 2 right; left) + (do 3 right; left) + (do 4 right; left); symmetry; exact Heq|].
    destruct (decide (key = "cloud_cover"%string)) as [Heq|?]; [left + (do 1 right; left) + (do 2 right; left) + (do 3 right; left) + (do 4 right; left); symmetry; exact Heq|].
    destruct (decide (key = "humidity"%string)) as [Heq|?]; [left + (do 1 right; left) + (do 2 right; left) + (do 3 right; left) + (do 4 right; left); symmetry; exact Heq|].
    destruct (decide (key = "city"%string)) as [Heq|?]; [left + (do 1 right; left) + (do 2 right; left) + (do 3 right; left) + (do 4 right; left); symmetry; exact Heq|].
    destruct (decide (key = "timestamp"%string)) as [Heq|?]; [left + (do 1 right; left) + (do 2 right; left) + (do 3 right; left) + (do 4 right; left); symmetry; exact Heq|].
    exfalso. now simplify_map_eq. }
  pose proof (peek_range g 0). pose proof (peek_range g 1). pose proof (peek_range g 2).
  pose proof (SIN_bound ((IZR current_hour - 6) * PI / 12)).
  set (t := 25 + 8 * sin ((IZR current_hour - 6) * PI / 12) + (-2 + (2 - -2) * peek g 0)).
  assert (15 <= t <= 35) as Htr by (unfold t; lra).
  set (c := Rmax 0 (Rmin 100 (10 + (70 - 10) * peek g 1 - (t - 25) * 0.5))).
  assert (5 <= c <= 75) as Hcr.
  { unfold c. rewrite Rmin_right, Rmax_right by lra. lra. }
  set (h := Rmax 30 (Rmin 95 (40 + c * 0.4 + (-10 + (10 - -10) * peek g 2)))).
  assert (32 <= h <= 80) as Hhr.
  { unfold h. rewrite Rmin_right, Rmax_right by lra. lra. }
  split; [apply (round2_between 15 35); exact Htr|].
  split; [apply (round2_between 5 75); exact Hcr|].
  apply (round2_between 32 80); exact Hhr.
Qed.

End WeatherStoreFacts.

Section EtlFacts.
Import DataIngestion WeatherStore.

(** The three ways [generate_and_store_weather] can end. *)
Lemma generate_and_store_weather_cases (S : sqlite3_reader)
    (city db_path : string) (current_hour : Z) (timestamp : string)
    (g : rng) (w : world S) :
  let weather_data := fst (generate_weather_data city current_hour timestamp g) in
  match WeatherDatabase S db_path w with
  | (Raise e, w1) =>
      generate_and_store_weather S city db_path current_hour timestamp g w
      = (Raise e, w1)
  | (Ok db, w1) =>
      match insert_weather_data S db weather_data w1 with
      | (Ok true, w2) =>
          generate_and_store_weather S city db_path current_hour timestamp g w
          = (Ok (Some weather_data, advance 3 g), w2)
      | (Ok false, w2) =>
          generate_and_store_weather S city db_path current_hour timestamp g w
          = (Ok (None, advance 3 g), w2)
      | (Raise _, _) => False
      end
  end.
Proof.
  cbv zeta.
  destruct (generate_weather_data_fields city current_hour timestamp g)
    as (Hg & Hts & Ht & Hc & Hh & Hcity).
  unfold generate_and_store_weather.
  destruct (generate_weather_data city current_hour timestamp g) as [wd g'].
  cbn [fst snd] in *. subst g'.
  assert (forallb (has_field wd)
            ["temperature"; "cloud_cover"; "humidity"; "city"; "timestamp"]%string
          = true) as ->.
  { cbn [forallb]. unfold has_field. now rewrite Hts, Ht, Hc, Hh, Hcity. }
  cbn [negb]. unfold io_bind, io_ret. cbv beta.
  destruct (WeatherDatabase S db_path w) as [[db|e] w1]; [|reflexivity].
  unfold insert_weather_data, try_except.
  destruct (insert_try_block_outcome S db wd w1)
    as [(w2 & -> & _) | (e & w2 & -> & _)]; reflexivity.
Qed.

(** X14.  The ETL function [generate_and_store_weather], on any database
    engine: its check of the required fields never fails (the generated dict
    always has the five of them); an exception of [WeatherDatabase(db_path)]
    -- creating the directory or the table -- is not caught and propagates;
    after that the call returns the generated dict when the insertion
    returned [True] and [None] when it returned [False], and raises
    nothing. *)
Theorem generate_and_store_weather_outcome (S : sqlite3_reader)
    (city db_path : string) (current_hour : Z) (timestamp : string)
    (g : rng) (w : world S) :
  let weather_data := fst (generate_weather_data city current_hour timestamp g) in
  match WeatherDatabase S db_path w with
  | (Raise e, w1) =>
      generate_and_store_weather S city db_path current_hour timestamp g w
      = (Raise e, w1)
  | (Ok db, w1) =>
      match insert_weather_data S db weather_data w1 with
      | (Ok true, w2) =>
          generate_and_store_weather S city db_path current_hour timestamp g w
          = (Ok (Some weather_data, advance 3 g), w2)
      | (Ok false, w2) =>
          generate_and_store_weather S city db_path current_hour timestamp g w
          = (Ok (None, advance 3 g), w2)
      | (Raise _, _) => False
      end
  end.
Proof. apply generate_and_store_weather_cases. Qed.

(** X15.  A dict that lacks one of the five fields is answered with [False]
    before any statement is executed: once the connection and the cursor are
    there, the world that [insert_weather_data] leaves is the one after the
    cursor was made, with the [KeyError] printed -- no INSERT, no commit, and
    no [close] of the connection either. *)
Theorem insert_missing_field_writes_nothing (S : sqlite3) (db_path : string)
    (weather_data : gmap string pyval) (w w1 w2 : world S)
    (conn : connection S) (cur : cursor S) (key : string) :
  connect S db_path w = (Ok conn, w1) ->
  get_cursor S conn w1 = (Ok cur, w2) ->
  In key ["timestamp"; "temperature"; "cloud_cover"; "humidity"; "city"]%string ->
  weather_data !! key = None ->
  exists missing : string,
    weather_data !! missing = None
    /\ In missing ["timestamp"; "temperature"; "cloud_cover"; "humidity"; "city"]%string
    /\ insert_weather_data S db_path weather_data w
       = (Ok false, print_error S (KeyError missing) w2).
Proof.
  intros Hconn Hcur Hin Hkey.
  unfold insert_weather_data, try_except, insert_try_block, io_bind, io_ret, getitem.
  rewrite Hconn, Hcur.
  destruct (weather_data !! "timestamp"%string) eqn:E1;
    [|exists "timestamp"%string; cbn [In]; auto 10].
  destruct (weather_data !! "temperature"%string) eqn:E2;
    [|exists "temperature"%string; cbn [In]; auto 10].
  destruct (weather_data !! "cloud_cover"%string) eqn:E3;
    [|exists "cloud_cover"%string; cbn [In]; auto 10].
  destruct (weather_data !! "humidity"%string) eqn:E4;
    [|exists "humidity"%string; cbn [In]; auto 10].
  destruct (weather_data !! "city"%string) eqn:E5;
    [|exists "city"%string; cbn [In]; auto 10].
  exfalso. cbn [In] in Hin.
  destruct Hin as [<-|[<-|[<-|[<-|[<-|[]]]]]]; congruence.
Qed.

End EtlFacts.

Section EtlWitness.
Import DataIngestion WeatherStore ReferenceEngine.

Lemma insert_missing_field_writes_nothing_empty_dict :
  exists missing : string,
    (∅ : gmap string pyval) !! missing = None
    /\ In missing ["timestamp"; "temperature"; "cloud_cover"; "humidity"; "city"]%string
    /\ insert_weather_data plain_engine "data/weather.db" ∅ empty_memory
       = (Ok false, print_error plain_engine (KeyError missing) empty_memory).
Proof.
  apply (insert_missing_field_writes_nothing plain_engine
           "data/weather.db" ∅ empty_memory empty_memory empty_memory
           "data/weather.db"%string "data/weather.db"%string "timestamp").
  - reflexivity.
  - reflexivity.
  - simpl. auto.
  - reflexivity.
Defined.

End EtlWitness.

(** * The store on the reference engine *)

Section ReferenceEngineFacts.
Import DataIngestion WeatherStore ReferenceEngine.

Variables real_affinity text_affinity : pyval -> pyval.
Hypothesis Haffinity : affinity_law real_affinity text_affinity.

Let E : sqlite3_reader := memory_sqlite real_affinity text_affinity.

Lemma mem_execute_create (path : string) (w : memory) :
  mem_execute real_affinity text_affinity path CREATE_SQL [] w
  = match tables w !! path with
    | Some _ => (Ok tt, w)
    | None => (Ok tt, {| tables := <[path := []]> (tables w); pending := pending w;
                         fetched := fetched w; printed := printed w |})
    end.
Proof.
  unfold mem_execute. destruct (decide (CREATE_SQL = CREATE_SQL)); [reflexivity|congruence].
Qed.

Lemma mem_execute_insert (path : string) (w : memory) (rows : list (list pyval))
    (timestamp temperature cloud_cover humidity city : pyval) :
  tables w !! path = Some rows ->
  existsb is_null [timestamp; temperature; cloud_cover; humidity; city] = false ->
  mem_execute real_affinity text_affinity path INSERT_SQL
    [timestamp; temperature; cloud_cover; humidity; city] w
  = (Ok tt,
     {| tables := tables w;
        pending := <[path := default [] (pending w !! path)
                              ++ [[text_affinity timestamp; real_affinity temperature;
                                   real_affinity cloud_cover; real_affinity humidity;
                                   text_affinity city]]]> (pending w);
        fetched := fetched w; printed := printed w |}).
Proof.
  intros Htab Hnull. unfold mem_execute.
  destruct (decide (INSERT_SQL = CREATE_SQL)) as [H|_]; [discriminate H|].
  destruct (decide (INSERT_SQL = INSERT_SQL)); [|congruence].
  rewrite Htab, Hnull. reflexivity.
Qed.

Lemma mem_execute_select (path : string) (w : memory) (rows : list (list pyval))
    (n : Z) :
  tables w !! path = Some rows ->
  mem_execute real_affinity text_affinity path SELECT_SQL [PyInt n] w
  = (Ok tt,
     {| tables := tables w; pending := pending w;
        fetched := <[path := latest n (rows ++ default [] (pending w !! path))]>
                     (fetched w);
        printed := printed w |}).
Proof.
  intros Htab. unfold mem_execute.
  destruct (decide (SELECT_SQL = CREATE_SQL)) as [H|_]; [discriminate H|].
  destruct (decide (SELECT_SQL = INSERT_SQL)) as [H|_]; [discriminate H|].
  destruct (decide (SELECT_SQL = SELECT_SQL)); [|congruence].
  rewrite Htab. reflexivity.
Qed.

(** Opening the database keeps the rows of an existing table and makes an
    empty table where there was none. *)
Lemma weather_database_run (path : string) (w : memory) :
  pending w !! path = None -> fetched w !! path = None ->
  exists w' : memory,
    WeatherDatabase E path w = (Ok path, w')
    /\ at_rest w' path (default [] (tables w !! path))
    /\ (forall other, other <> path -> tables w' !! other = tables w !! other)
    /\ printed w' = printed w.
Proof.
  intros Hpend Hfetch.
  unfold WeatherDatabase, initialize_database, io_bind, io_ret, E. cbn.
  rewrite mem_execute_create.
  destruct (tables w !! path) as [rows|] eqn:Htab.
  - unfold mem_commit. rewrite Htab, Hpend. cbn.
    eexists. split; [reflexivity|]. unfold at_rest. cbn. rewrite ?app_nil_r.
    repeat split; intros; now simplify_map_eq.
  - unfold mem_commit. cbn. rewrite lookup_insert_eq, Hpend. cbn.
    eexists. split; [reflexivity|]. unfold at_rest. cbn. rewrite ?app_nil_r.
    repeat split; intros; now simplify_map_eq.
Qed.

Lemma well_typed_values (weather_data : gmap string pyval) :
  well_typed weather_data ->
  exists (timestamp city : string) (temperature cloud_cover humidity : R),
    weather_data !! "timestamp"%string = Some (PyStr timestamp)
    /\ weather_data !! "temperature"%string = Some (PyFloat temperature)
    /\ weather_data !! "cloud_cover"%string = Some (PyFloat cloud_cover)
    /\ weather_data !! "humidity"%string = Some (PyFloat humidity)
    /\ weather_data !! "city"%string = Some (PyStr city)
    /\ values_of weather_data
       = [PyStr timestamp; PyFloat temperature; PyFloat cloud_cover;
          PyFloat humidity; PyStr city].
Proof.
  intros (ts & city & t & c & h & Hts & Ht & Hc & Hh & Hcity).
  exists ts, city, t, c, h. repeat split; try assumption.
  unfold values_of. cbn [map]. now rewrite Hts, Ht, Hc, Hh, Hcity.
Qed.

(** A well-typed dict is appended to the table as it is. *)
Lemma insert_run (path : string) (w : memory) (rows : list (list pyval))
    (weather_data : gmap string pyval) :
  at_rest w path rows -> well_typed weather_data ->
  exists w' : memory,
    insert_weather_data E path weather_data w = (Ok true, w')
    /\ at_rest w' path (rows ++ [values_of weather_data])
    /\ (forall other, other <> path -> tables w' !! other = tables w !! other)
    /\ printed w' = printed w.
Proof.
  intros (Htab & Hpend & Hfetch) Htyped.
  destruct (well_typed_values _ Htyped)
    as (ts & city & t & c & h & Hts & Ht & Hc & Hh & Hcity & ->).
  destruct Haffinity as [Hreal Htext].
  unfold insert_weather_data, try_except, insert_try_block, io_bind, io_ret, getitem, E.
  cbn. rewrite Hts, Ht, Hc, Hh, Hcity.
  rewrite (mem_execute_insert path w rows) by (exact Htab || reflexivity).
  rewrite Hpend, !Hreal, !Htext. cbn.
  unfold mem_commit. cbn. rewrite Htab, lookup_insert_eq. cbn.
  eexists. split; [reflexivity|]. unfold at_rest. cbn. rewrite ?app_nil_r.
  repeat split; intros; now simplify_map_eq.
Qed.

(** Reading leaves the table as it is and returns the dicts of [latest]. *)
Lemma get_latest_records_run (path : string) (w : memory)
    (rows : list (list pyval)) (limit : Z) :
  at_rest w path rows ->
  exists w' : memory,
    get_latest_records E path limit w
    = (Ok (map (dict_zip COLUMNS) (latest limit rows)), w')
    /\ at_rest w' path rows
    /\ tables w' = tables w.
Proof.
  intros (Htab & Hpend & Hfetch).
  unfold get_latest_records, io_bind, io_ret, E. cbn.
  rewrite (mem_execute_select path w rows) by exact Htab.
  rewrite Hpend. cbn. unfold mem_fetchall. cbn. rewrite lookup_insert_eq, app_nil_r. cbn.
  eexists. split; [reflexivity|]. unfold at_rest. cbn. rewrite ?app_nil_r.
  repeat split; intros; now simplify_map_eq.
Qed.

End ReferenceEngineFacts.

Section StoreRoundTrips.
Import DataIngestion WeatherStore ReferenceEngine.

Lemma numbered_length (rows : list (list pyval)) :
  length (numbered rows) = length rows.
Proof. unfold numbered. apply length_imap. Qed.

Lemma latest_length (limit : Z) (rows : list (list pyval)) :
  length (latest limit rows)
  = if (limit <? 0)%Z then length rows else Nat.min (Z.to_nat limit) (length rows).
Proof.
  unfold latest. destruct (limit <? 0)%Z.
  - now rewrite length_reverse, numbered_length.
  - now rewrite length_take, length_reverse, numbered_length.
Qed.

(** The [i]-th newest row, with its id in front. *)
Lemma latest_lookup (limit : Z) (rows : list (list pyval)) (i : nat)
    (row : list pyval) :
  (i < length (latest limit rows))%nat ->
  rows !! (length rows - 1 - i)%nat = Some row ->
  latest limit rows !! i = Some (PyInt (Z.of_nat (length rows - i)) :: row).
Proof.
  intros Hi Hrow. pose proof (latest_length limit rows) as Hlen.
  assert (i < length rows)%nat as Hin by (destruct (limit <? 0)%Z; lia).
  assert (reverse (numbered rows) !! i
          = Some (PyInt (Z.of_nat (length rows - i)) :: row)) as Hrev.
  { rewrite reverse_lookup by (rewrite numbered_length; exact Hin).
    rewrite numbered_length. unfold numbered.
    replace (length rows - S i)%nat with (length rows - 1 - i)%nat by lia.
    rewrite list_lookup_imap, Hrow. cbn. do 3 f_equal. lia. }
  unfold latest in *. destruct (limit <? 0)%Z; [exact Hrev|].
  rewrite lookup_take_lt; [exact Hrev|]. rewrite length_take in Hi. lia.
Qed.

(** The dict of a row of the table. *)
Lemma dict_zip_lookup (id timestamp temperature cloud_cover humidity city : pyval) :
  let d := dict_zip COLUMNS [id; timestamp; temperature; cloud_cover; humidity; city] in
  d !! "id"%string = Some id
  /\ d !! "timestamp"%string = Some timestamp
  /\ d !! "temperature"%string = Some temperature
  /\ d !! "cloud_cover"%string = Some cloud_cover
  /\ d !! "humidity"%string = Some humidity
  /\ d !! "city"%string = Some city.
Proof. cbv zeta. unfold dict_zip, COLUMNS. cbn. repeat split; now simplify_map_eq. Qed.

Variables real_affinity text_affinity : pyval -> pyval.


Hypothesis Haffinity : affinity_law real_affinity text_affinity.

Lemma insert_then_latest_aux (path : string) (w : memory)
    (rows : list (list pyval)) (weather_data : gmap string pyval) :
  at_rest w path rows -> well_typed weather_data ->
  exists (w1 w2 : memory) (d : gmap string pyval),
    insert_weather_data (memory_sqlite real_affinity text_affinity) path weather_data w
    = (Ok true, w1)
    /\ get_latest_records (memory_sqlite real_affinity text_affinity) path 1 w1
       = (Ok [d], w2)
    /\ d !! "id"%string = Some (PyInt (Z.of_nat (length rows) + 1))
    /\ (forall key,
          In key ["timestamp"; "temperature"; "cloud_cover"; "humidity"; "city"]%string ->
          d !! key = weather_data !! key).
Proof.
  intros Hrest Htyped.
  destruct (insert_run real_affinity text_affinity Haffinity path w rows
              weather_data Hrest Htyped) as (w1 & Hins & Hrest1 & _).
  destruct (get_latest_records_run real_affinity text_affinity path w1 _ 1 Hrest1)
    as (w2 & Hget & _).
  destruct (well_typed_values _ Htyped)
    as (ts & city & t & c & h & Hts & Ht & Hc & Hh & Hcity & Hvals).
  assert (latest 1 (rows ++ [values_of weather_data])
          = [PyInt (Z.of_nat (length rows) + 1) :: values_of weather_data]) as Hlatest.
  { unfold latest, numbered. cbn [Z.ltb Z.compare Z.to_nat Pos.to_nat Pos.iter_op Nat.add].
    rewrite imap_app, reverse_app. cbn. rewrite Nat.add_0_r. reflexivity. }
  rewrite Hlatest, Hvals in Hget. cbn [map] in Hget.
  eexists w1, w2, _. split; [exact Hins|]. split; [exact Hget|].
  destruct (dict_zip_lookup (PyInt (Z.of_nat (length rows) + 1)) (PyStr ts) (PyFloat t)
              (PyFloat c) (PyFloat h) (PyStr city))
    as (Hid & H1 & H2 & H3 & H4 & H5).
  split; [exact Hid|].
  intros key Hkey. cbn [In] in Hkey.
  destruct Hkey as [<-|[<-|[<-|[<-|[<-|[]]]]]]; congruence.
Qed.

(** X17.  Insert, then look up: on the reference engine, inserting a
    well-typed dict into a table of [n] rows returns [True], and
    [get_latest_records(1)] then returns exactly one dict, with [id = n + 1]
    and the five fields of the dict that was inserted. *)
Theorem insert_then_latest (path : string) (w : memory)
    (rows : list (list pyval)) (weather_data : gmap string pyval) :
  at_rest w path rows -> well_typed weather_data ->
  exists (w1 w2 : memory) (d : gmap string pyval),
    insert_weather_data (memory_sqlite real_affinity text_affinity) path weather_data w
    = (Ok true, w1)
    /\ get_latest_records (memory_sqlite real_affinity text_affinity) path 1 w1
       = (Ok [d], w2)
    /\ d !! "id"%string = Some (PyInt (Z.of_nat (length rows) + 1))
    /\ (forall key,
          In key ["timestamp"; "temperature"; "cloud_cover"; "humidity"; "city"]%string ->
          d !! key = weather_data !! key).
Proof. apply insert_then_latest_aux. Qed.

(** X18.  The whole ETL on the reference engine: on a database at rest (with
    or without the table), [generate_and_store_weather] returns the dict it
    generated, the table has one row more than before -- opening the database
    again keeps the rows that were there -- and [get_latest_records(1)] gives
    that dict back with the next id. *)
Theorem generate_and_store_then_latest (city path : string) (current_hour : Z)
    (timestamp : string) (g : rng) (w : memory) :
  pending w !! path = None -> fetched w !! path = None ->
  exists (weather_data d : gmap string pyval) (w1 w2 : memory),
    generate_and_store_weather (memory_sqlite real_affinity text_affinity)
      city path current_hour timestamp g w
    = (Ok (Some weather_data, advance 3 g), w1)
    /\ at_rest w1 path (default [] (tables w !! path) ++ [values_of weather_data])
    /\ get_latest_records (memory_sqlite real_affinity text_affinity) path 1 w1
       = (Ok [d], w2)
    /\ d !! "id"%string
       = Some (PyInt (Z.of_nat (length (default [] (tables w !! path))) + 1))
    /\ (forall key,
          In key ["timestamp"; "temperature"; "cloud_cover"; "humidity"; "city"]%string ->
          d !! key = weather_data !! key).
Proof.
  intros Hpend Hfetch.
  set (E := memory_sqlite real_affinity text_affinity).
  set (wd := fst (generate_weather_data city current_hour timestamp g)).
  assert (well_typed wd) as Htyped.
  { destruct (generate_weather_data_fields city current_hour timestamp g)
      as (_ & Hts & Ht & Hc & Hh & Hcity).
    eexists _, _, _, _, _. repeat split; eassumption. }
  destruct (weather_database_run real_affinity text_affinity path w Hpend Hfetch)
    as (w0 & Hinit & Hrest0 & _).
  destruct (insert_run real_affinity text_affinity Haffinity path w0 _ wd Hrest0 Htyped)
    as (w1 & Hins & Hrest1 & _).
  destruct (insert_then_latest_aux path w0 _ wd Hrest0 Htyped)
    as (w1' & w2 & d & Hins' & Hget & Hid & Hfields).
  fold E in Hins, Hins', Hget, Hinit.
  assert (w1' = w1) as -> by congruence.
  pose proof (generate_and_store_weather_cases E city path current_hour timestamp g w)
    as Hetl. cbv zeta in Hetl. fold wd in Hetl.
  rewrite Hinit, Hins in Hetl.
  exists wd, d, w1, w2.
  split; [exact Hetl|]. split; [exact Hrest1|]. split; [exact Hget|].
  split; [exact Hid | exact Hfields].
Qed.

End StoreRoundTrips.

Section StoreWitnesses.
Import DataIngestion WeatherStore ReferenceEngine.

Lemma one_table_at_rest (path : string) (rows : list (list pyval)) :
  at_rest (one_table path rows) path rows.
Proof.
  unfold at_rest, one_table. cbn.
  split; [apply lookup_singleton_eq|]. split; apply lookup_empty.
Qed.

Lemma test_data_well_typed : well_typed test_data.
Proof.
  exists "2024-01-01T12:00:00"%string, "TestCity"%string, 25.5, 60.0, 70.0.
  unfold test_data. repeat split; now simplify_map_eq.
Qed.

Lemma plain_affinity_law : affinity_law (fun v => v) (fun v => v).
Proof. split; reflexivity. Qed.


Lemma insert_then_latest_test_data :
  exists (w1 w2 : memory) (d : gmap string pyval),
    insert_weather_data plain_engine "data/weather.db" test_data
      (one_table "data/weather.db" [])
    = (Ok true, w1)
    /\ get_latest_records plain_engine "data/weather.db" 1 w1 = (Ok [d], w2)
    /\ d !! "id"%string = Some (PyInt (Z.of_nat (length (@nil (list pyval))) + 1))
    /\ (forall key,
          In key ["timestamp"; "temperature"; "cloud_cover"; "humidity"; "city"]%string ->
          d !! key = test_data !! key).
Proof.
  apply (insert_then_latest (fun v => v) (fun v => v) plain_affinity_law
           "data/weather.db" (one_table "data/weather.db" []) [] test_data).
  - apply one_table_at_rest.
  - apply test_data_well_typed.
Defined.

Lemma generate_and_store_then_latest_on_empty_memory :
  exists (weather_data d : gmap string pyval) (w1 w2 : memory),
    generate_and_store_weather plain_engine "TestCity" "data/weather.db" 12
      "2024-01-01T12:00:00" TrainModel.three_quarters_rng empty_memory
    = (Ok (Some weather_data, advance 3 TrainModel.three_quarters_rng), w1)
    /\ at_rest w1 "data/weather.db"
         (default [] (tables empty_memory !! "data/weather.db"%string)
          ++ [values_of weather_data])
    /\ get_latest_records plain_engine "data/weather.db" 1 w1 = (Ok [d], w2)
    /\ d !! "id"%string
       = Some (PyInt (Z.of_nat
                 (length (default [] (tables empty_memory !! "data/weather.db"%string)))
               + 1))
    /\ (forall key,
          In key ["timestamp"; "temperature"; "cloud_cover"; "humidity"; "city"]%string ->
          d !! key = weather_data !! key).
Proof.
  apply (generate_and_store_then_latest (fun v => v) (fun v => v) plain_affinity_law
           "TestCity" "data/weather.db" 12 "2024-01-01T12:00:00"
           TrainModel.three_quarters_rng empty_memory).
  - reflexivity.
  - reflexivity.
Defined.

End StoreWitnesses.

(** * The advice helper *)

Section UtilsFacts.
Import DataIngestion Python Utils.

Lemma fallback_advice_number (v : pyval) (x : R) :
  number_of v = Some x ->
  fallback_advice (Some v)
  = Return (if Rgt_dec x 70 then STELLAR
            else if Rgt_dec x 40 then DECENT else COFFEE_BREAK).
Proof.
  destruct v; cbn; intros Hx; try discriminate; injection Hx as <-;
    destruct (Rgt_dec _ 70); cbn; [reflexivity| |reflexivity|];
    destruct (Rgt_dec _ 40); reflexivity.
Qed.

(** X19.  [generate_weather_advice] can raise, although its body is wrapped in
    [try/except Exception].  When [genai.configure] or the construction of the
    model raises, the handler reads the local [solar_efficiency] before any
    line has bound it, and the call raises [UnboundLocalError] instead of
    returning a fallback advice. *)
Theorem generate_weather_advice_unbound_local (G : genai)
    (prediction_data : gmap string pyval) (api_key : string) (w : net G) :
  (exists e w1, configure G api_key w = (Throw e, w1))
  \/ (exists u w1 e w2, configure G api_key w = (Return u, w1)
                        /\ GenerativeModel G "gemini-1.5-flash" w1 = (Throw e, w2)) ->
  exists w' : net G,
    generate_weather_advice G prediction_data api_key w
    = (Throw (UnboundLocalError "solar_efficiency"), w').
Proof.
  unfold generate_weather_advice.
  intros [(e & w1 & ->) | (u & w1 & e & w2 & -> & ->)]; eexists; reflexivity.
Qed.

Lemma generate_weather_advice_unbound_local_no_client :
  exists w' : net (no_client (fun s => s) (fun _ => "0.0"%string) (fun _ => ""%string)),
    generate_weather_advice
      (no_client (fun s => s) (fun _ => "0.0"%string) (fun _ => ""%string))
      ∅ "key" tt
    = (Throw (UnboundLocalError "solar_efficiency"), w').
Proof.
  apply (generate_weather_advice_unbound_local
           (no_client (fun s => s) (fun _ => "0.0"%string) (fun _ => ""%string))
           ∅ "key" tt).
  left. exists (Exn ValueError), tt. reflexivity.
Defined.

(** X20.  Once the client is there and [solar_efficiency] is a number (or is
    absent, and defaults to 0), [generate_weather_advice] returns a text and
    raises nothing: the answer of the model when the request goes through,
    and otherwise -- whatever fails, the formatting of another field, the
    request, the reading of the answer -- the fallback picked by the
    thresholds: above 70, above 40, or neither. *)
Theorem generate_weather_advice_returns (G : genai)
    (prediction_data : gmap string pyval) (api_key : string)
    (w w1 w2 : net G) (u : unit) (model : client G) (x : R) :
  configure G api_key w = (Return u, w1) ->
  GenerativeModel G "gemini-1.5-flash" w1 = (Return model, w2) ->
  number_of (dict_get prediction_data "solar_efficiency" (PyInt 0)) = Some x ->
  match ask G model prediction_data w2 with
  | (Return advice, w3) =>
      generate_weather_advice G prediction_data api_key w = (Return advice, w3)
  | (Throw _, w3) =>
      generate_weather_advice G prediction_data api_key w
      = (Return (if Rgt_dec x 70 then STELLAR
                 else if Rgt_dec x 40 then DECENT else COFFEE_BREAK), w3)
  end.
Proof.
  intros Hconf Hmodel Hnum. unfold generate_weather_advice.
  rewrite Hconf, Hmodel.
  destruct (ask G model prediction_data w2) as [[advice|e] w3]; [reflexivity|].
  now rewrite (fallback_advice_number _ x Hnum).
Qed.

Lemma generate_weather_advice_returns_offline :
  match ask (offline (fun s => s) (fun _ => "0.0"%string) (fun _ => ""%string)) tt
          (<["solar_efficiency"%string := PyFloat 75]> ∅) tt with
  | (Return advice, w3) =>
      generate_weather_advice
        (offline (fun s => s) (fun _ => "0.0"%string) (fun _ => ""%string))
        (<["solar_efficiency"%string := PyFloat 75]> ∅) "key" tt
      = (Return advice, w3)
  | (Throw _, w3) =>
      generate_weather_advice
        (offline (fun s => s) (fun _ => "0.0"%string) (fun _ => ""%string))
        (<["solar_efficiency"%string := PyFloat 75]> ∅) "key" tt
      = (Return (if Rgt_dec 75 70 then STELLAR
                 else if Rgt_dec 75 40 then DECENT else COFFEE_BREAK), w3)
  end.
Proof.
  apply (generate_weather_advice_returns
           (offline (fun s => s) (fun _ => "0.0"%string) (fun _ => ""%string))
           (<["solar_efficiency"%string := PyFloat 75]> ∅) "key" tt tt tt tt tt 75).
  - reflexivity.
  - reflexivity.
  - reflexivity.
Defined.

(** X21.  A [solar_efficiency] that is not a number (a text, [None]) makes
    [generate_weather_advice] raise [TypeError] without sending any request:
    the formatting of the prompt fails first, and the handler then compares
    the value with 70. *)
Theorem generate_weather_advice_type_error (G : genai)
    (prediction_data : gmap string pyval) (api_key : string)
    (w w1 w2 : net G) (u : unit) (model : client G) :
  configure G api_key w = (Return u, w1) ->
  GenerativeModel G "gemini-1.5-flash" w1 = (Return model, w2) ->
  number_of (dict_get prediction_data "solar_efficiency" (PyInt 0)) = None ->
  generate_weather_advice G prediction_data api_key w = (Throw TypeError, w2).
Proof.
  intros Hconf Hmodel Hnum. unfold generate_weather_advice.
  rewrite Hconf, Hmodel. unfold ask.
  destruct (dict_get prediction_data "solar_efficiency" (PyInt 0)) as [x|n|s|];
    try discriminate Hnum; reflexivity.
Qed.

Lemma generate_weather_advice_type_error_offline :
  generate_weather_advice
    (offline (fun s => s) (fun _ => "0.0"%string) (fun _ => ""%string))
    (<["solar_efficiency"%string := PyStr "high"]> ∅) "key" tt
  = (Throw TypeError, tt).
Proof.
  apply (generate_weather_advice_type_error
           (offline (fun s => s) (fun _ => "0.0"%string) (fun _ => ""%string))
           (<["solar_efficiency"%string := PyStr "high"]> ∅) "key" tt tt tt tt tt).
  - reflexivity.
  - reflexivity.
  - reflexivity.
Defined.

(** X22.  [categorize_efficiency] is monotone: every efficiency gets one of
    the five labels, and a higher efficiency never gets a lower one (in the
    order Very Low, Low, Moderate, Good, Excellent). *)
Theorem categorize_efficiency_monotone (e1 e2 : R) :
  e1 <= e2 ->
  exists r1 r2 : nat,
    category_rank (categorize_efficiency e1) = Some r1
    /\ category_rank (categorize_efficiency e2) = Some r2
    /\ (r1 <= r2)%nat.
Proof.
  intros Hle. unfold categorize_efficiency.
  destruct (Rge_dec e1 80), (Rge_dec e1 60), (Rge_dec e1 40), (Rge_dec e1 20),
           (Rge_dec e2 80), (Rge_dec e2 60), (Rge_dec e2 40), (Rge_dec e2 20);
    try (exfalso; lra);
    eexists _, _; (split; [reflexivity|]); (split; [reflexivity|]); lia.
Qed.

Lemma categorize_efficiency_monotone_45_85 :
  exists r1 r2 : nat,
    category_rank (categorize_efficiency 45) = Some r1
    /\ category_rank (categorize_efficiency 85) = Some r2
    /\ (r1 <= r2)%nat.
Proof. apply (categorize_efficiency_monotone 45 85). lra. Defined.

End UtilsFacts.

(** * The dashboard *)

Section DashboardFacts.
Import TrainModel DataIngestion Python Dashboard.

(** The efficiency that the model predicts for an hour, if it predicts one. *)
Lemma predict_for_hour_cases (L : libraries) (model : regressor L)
    (t c h : R) (hour doy : Z) (capacity : R) :
  match predict L model [mkFeatures t c h hour doy] with
  | [] => predict_for_hour L model t c h hour doy capacity = Throw IndexError
  | e :: _ =>
      predict_for_hour L model t c h hour doy capacity
      = Return (Rmax 0 (e / 100 * capacity))
  end.
Proof. unfold predict_for_hour. destruct (predict L model _); reflexivity. Qed.

(** The loop appends one output per hour, each the clipped prediction. *)
Lemma curve_loop_outputs (L : libraries) (model : regressor L)
    (t c h : R) (doy : Z) (capacity : R) (hours : list Z) :
  forall outputs result,
    curve_loop L model t c h doy capacity hours outputs = Return result ->
    result
    = outputs
      ++ map (fun hour =>
                Rmax 0 (hd 0 (predict L model [mkFeatures t c h hour doy]) / 100
                        * capacity)) hours.
Proof.
  induction hours as [|hour rest IH]; intros outputs result Hrun.
  - cbn in Hrun. injection Hrun as <-. now rewrite app_nil_r.
  - cbn [curve_loop] in Hrun.
    pose proof (predict_for_hour_cases L model t c h hour doy capacity) as Hcase.
    destruct (predict L model [mkFeatures t c h hour doy]) as [|e tail] eqn:Hp.
    + rewrite Hcase in Hrun. discriminate Hrun.
    + rewrite Hcase in Hrun. cbn [obind] in Hrun.
      apply IH in Hrun. rewrite Hrun, <- app_assoc. cbn [map]. rewrite Hp.
      reflexivity.
Qed.

Example hour_label_samples :
  hour_label 0 = "00:00"%string /\ hour_label 7 = "07:00"%string
  /\ hour_label 23 = "23:00"%string.
Proof. repeat split; reflexivity. Qed.

(** X23.  The solar curve: when [generate_solar_curve_data] returns, its three
    columns have 24 entries, for the hours 0 to 23 labelled [00:00] to
    [23:00]; the output of an hour is the model's prediction for that hour
    scaled by the capacity and clipped at 0, so no output is negative, and
    none exceeds the capacity when the prediction is at most 100. *)
Theorem solar_curve_shape (L : libraries) (model : regressor L)
    (t c h : R) (doy : Z) (capacity : R) (data : curve) :
  generate_solar_curve_data L model t c h doy capacity = Return data ->
  Hour data = seqZ 0 24
  /\ Hour_Label data = map hour_label (seqZ 0 24)
  /\ length (Hour_Label data) = 24%nat
  /\ Hour_Label data !! 0%nat = Some "00:00"%string
  /\ Hour_Label data !! 23%nat = Some "23:00"%string
  /\ Energy_Output data
     = map (fun hour =>
              Rmax 0 (hd 0 (predict L model [mkFeatures t c h hour doy]) / 100
                      * capacity)) (seqZ 0 24)
  /\ length (Energy_Output data) = 24%nat
  /\ Forall (fun output => 0 <= output) (Energy_Output data)
  /\ (0 <= capacity ->
      (forall hour, hd 0 (predict L model [mkFeatures t c h hour doy]) <= 100) ->
      Forall (fun output => output <= capacity) (Energy_Output data)).
Proof.
  unfold generate_solar_curve_data. intros Hrun.
  destruct (curve_loop L model t c h doy capacity (seqZ 0 24) []) as [outputs|e] eqn:Hloop;
    [|discriminate Hrun].
  cbn [obind] in Hrun. injection Hrun as <-. cbn [Hour Hour_Label Energy_Output].
  apply curve_loop_outputs in Hloop. cbn [app] in Hloop. subst outputs.
  split; [reflexivity|]. split; [reflexivity|]. split; [reflexivity|].
  split; [reflexivity|]. split; [reflexivity|]. split; [reflexivity|].
  split; [now rewrite length_map, length_seqZ|].
  split.
  - apply Forall_forall. intros output Hin. apply list_elem_of_In, in_map_iff in Hin.
    destruct Hin as (hour & <- & _). apply Rmax_l.
  - intros Hcap Hpred. apply Forall_forall. intros output Hin.
    apply list_elem_of_In, in_map_iff in Hin. destruct Hin as (hour & <- & _).
    specialize (Hpred hour). apply Rmax_lub; [exact Hcap|]. nra.
Qed.

Lemma solar_curve_shape_toy :
  let data := {| Hour := seqZ 0 24;
                 Hour_Label := map hour_label (seqZ 0 24);
                 Energy_Output := map (fun _ => Rmax 0 (50 / 100 * 5)) (seqZ 0 24) |} in
  Hour data = seqZ 0 24
  /\ Hour_Label data = map hour_label (seqZ 0 24)
  /\ length (Hour_Label data) = 24%nat
  /\ Hour_Label data !! 0%nat = Some "00:00"%string
  /\ Hour_Label data !! 23%nat = Some "23:00"%string
  /\ Energy_Output data
     = map (fun hour =>
              Rmax 0 (hd 0 (predict toy_libraries (50 : R)
                              [mkFeatures 28 30 65 hour 100]) / 100 * 5))
         (seqZ 0 24)
  /\ length (Energy_Output data) = 24%nat
  /\ Forall (fun output => 0 <= output) (Energy_Output data)
  /\ (0 <= 5 ->
      (forall hour, hd 0 (predict toy_libraries (50 : R)
                            [mkFeatures 28 30 65 hour 100]) <= 100) ->
      Forall (fun output => output <= 5) (Energy_Output data)).
Proof.
  intros data.
  apply (solar_curve_shape toy_libraries (50 : R) 28 30 65 100 5 data).
  reflexivity.
Defined.

(** Scaling by a positive capacity commutes with the clipping at 0. *)
Lemma clipped_output_scales (e capacity : R) :
  0 < capacity -> Rmax 0 (e / 100 * capacity) = capacity / 100 * Rmax 0 e.
Proof.
  intros Hcap. unfold Rmax.
  destruct (Rle_dec 0 (e / 100 * capacity)) as [Hle|Hgt],
           (Rle_dec 0 e) as [Hle'|Hgt']; try lra; nra.
Qed.

Lemma sum_clipped_outputs (capacity : R) (predictions : list R) :
  0 < capacity ->
  fold_right Rplus 0 (map (fun e => Rmax 0 (e / 100 * capacity)) predictions)
  = capacity / 100 * fold_right Rplus 0 (map (Rmax 0) predictions).
Proof.
  intros Hcap. induction predictions as [|e rest IH]; cbn [map fold_right].
  - lra.
  - rewrite IH, (clipped_output_scales e capacity Hcap). lra.
Qed.

Lemma sum_clipped_bounds (predictions : list R) :
  0 <= fold_right Rplus 0 (map (Rmax 0) predictions)
  /\ (Forall (fun e => e <= 100) predictions ->
      fold_right Rplus 0 (map (Rmax 0) predictions)
      <= 100 * INR (length predictions)).
Proof.
  induction predictions as [|e rest [IH0 IH1]].
  - cbn. split; [lra|]. intros _. lra.
  - cbn [map fold_right length]. rewrite S_INR.
    pose proof (Rmax_l 0 e) as Hl. split; [lra|].
    intros Hall. apply Forall_cons in Hall as [He Hrest].
    specialize (IH1 Hrest).
    assert (Rmax 0 e <= 100) by (apply Rmax_lub; lra). lra.
Qed.

(** X24.  The totals of the day.  For a capacity above 0 the percentage that
    the dashboard shows does not depend on the capacity: it is the sum over
    the 24 hours of the predicted efficiencies, each clipped at 0, divided by
    8.  It is never negative, and predictions of at most 100 bound it by 300,
    not by 100; the total output is then at most 24 times the capacity. *)
Theorem daily_efficiency_is_capacity_free (L : libraries) (model : regressor L)
    (t c h : R) (doy : Z) (capacity rate : R) (data : curve) :
  generate_solar_curve_data L model t c h doy capacity = Return data ->
  0 < capacity ->
  let predictions :=
    map (fun hour => hd 0 (predict L model [mkFeatures t c h hour doy]))
      (seqZ 0 24) in
  let day := daily_totals data capacity rate in
  efficiency_percent day = fold_right Rplus 0 (map (Rmax 0) predictions) / 8
  /\ 0 <= efficiency_percent day
  /\ 0 <= total_daily_output day
  /\ (Forall (fun e => e <= 100) predictions ->
      efficiency_percent day <= 300 /\ total_daily_output day <= 24 * capacity).
Proof.
  intros Hrun Hcap predictions day.
  unfold generate_solar_curve_data in Hrun.
  destruct (curve_loop L model t c h doy capacity (seqZ 0 24) []) as [outputs|e] eqn:Hloop;
    [|discriminate Hrun].
  cbn [obind] in Hrun. injection Hrun as <-.
  apply curve_loop_outputs in Hloop. cbn [app] in Hloop.
  assert (Hsum : fold_right Rplus 0 outputs
                 = capacity / 100 * fold_right Rplus 0 (map (Rmax 0) predictions)).
  { subst outputs predictions.
    rewrite <- (sum_clipped_outputs capacity _ Hcap), map_map. reflexivity. }
  destruct (sum_clipped_bounds predictions) as [Hlow Hhigh].
  assert (Hlen : length predictions = 24%nat) by reflexivity.
  subst day. unfold daily_totals.
  cbn [efficiency_percent total_daily_output Energy_Output].
  destruct (Rgt_dec (capacity * 8) 0) as [_|Hno]; [|lra].
  rewrite Hsum.
  set (total := fold_right Rplus 0 (map (Rmax 0) predictions)) in *.
  assert (Heff : capacity / 100 * total / (capacity * 8) * 100 = total / 8)
    by (field; lra).
  rewrite Heff. split; [reflexivity|]. split; [lra|]. split; [nra|].
  intros Hall. specialize (Hhigh Hall). rewrite Hlen in Hhigh.
  replace (INR 24) with 24 in Hhigh by (cbn; lra).
  split; [lra|nra].
Qed.

Lemma daily_efficiency_is_capacity_free_toy :
  let data := {| Hour := seqZ 0 24;
                 Hour_Label := map hour_label (seqZ 0 24);
                 Energy_Output := map (fun _ => Rmax 0 (100 / 100 * 5)) (seqZ 0 24) |} in
  let predictions :=
    map (fun hour => hd 0 (predict toy_libraries (100 : R)
                             [mkFeatures 28 30 65 hour 100])) (seqZ 0 24) in
  let day := daily_totals data 5 7 in
  efficiency_percent day = fold_right Rplus 0 (map (Rmax 0) predictions) / 8
  /\ 0 <= efficiency_percent day
  /\ 0 <= total_daily_output day
  /\ (Forall (fun e => e <= 100) predictions ->
      efficiency_percent day <= 300 /\ total_daily_output day <= 24 * 5).
Proof.
  intros data.
  apply (daily_efficiency_is_capacity_free toy_libraries (100 : R) 28 30 65 100 5 7 data).
  - reflexivity.
  - lra.
Defined.

(** X25.  The headline status and the appliance planner read the same
    percentage with different thresholds.  Above 70 both are at their best;
    at exactly 70 the status is HIGH while the appliances are told to wait;
    from 40 up to 70 the status is MODERATE and the appliances wait; from 30
    up to 40 the status is LOW and the appliances still wait; below 30 the
    status is LOW and the appliances are to be avoided. *)
Theorem status_and_appliances (e : R) :
  let status := snd (fst (status_of e)) in
  let appliance := fst (fst (get_appliance_status e)) in
  (70 < e -> status = "HIGH"%string /\ appliance = "✅ RUN NOW"%string)
  /\ (e = 70 -> status = "HIGH"%string /\ appliance = "⚠️ WAIT"%string)
  /\ (40 <= e < 70 -> status = "MODERATE"%string /\ appliance = "⚠️ WAIT"%string)
  /\ (30 <= e < 40 -> status = "LOW"%string /\ appliance = "⚠️ WAIT"%string)
  /\ (e < 30 -> status = "LOW"%string /\ appliance = "⛔ AVOID"%string).
Proof.
  cbv zeta. unfold status_of, get_appliance_status.
  repeat split; intros; 
    destruct (Rge_dec e 70), (Rge_dec e 40), (Rgt_dec e 70), (Rge_dec e 30);
    try lra; reflexivity.
Qed.

(** X26.  The advice box of the dashboard.  [main] reads [temperature] and
    [cloud_cover] without ever assigning them, so in a namespace that does
    not bind them the advice is the generic sentence: whatever the secrets
    hold, whatever the efficiency, and whatever [generate_weather_advice]
    would answer, since it is not reached. *)
Theorem advice_is_always_generic (namespace : gmap string pyval)
    (has_key : outcome bool) (api_key : outcome string)
    (advise : gmap string pyval -> string -> outcome string)
    (render_0f : R -> string) (efficiency : R) :
  namespace !! "temperature"%string = None ->
  namespace !! "cloud_cover"%string = None ->
  advice_block namespace has_key api_key advise render_0f efficiency
  = GENERIC_ADVICE.
Proof.
  intros Htemperature Hcloud. unfold advice_block, load_global.
  rewrite Htemperature, Hcloud.
  destruct has_key as [[|]|exception]; reflexivity.
Qed.

Lemma advice_is_always_generic_in_app :
  advice_block app_namespace (Return true) (Return "key"%string)
    (fun _ _ => Return "advice"%string) (fun _ => "50"%string) 50
  = GENERIC_ADVICE.
Proof.
  apply (advice_is_always_generic app_namespace); reflexivity.
Defined.

(** [int] of a float that is not negative, 100 later. *)
Lemma int_of_float_plus_100 (x : R) :
  0 <= x -> int_of_float (x + 100) = (int_of_float x + 100)%Z.
Proof.
  intros Hx. unfold int_of_float.
  destruct (Rle_dec 0 x) as [_|Hno]; [|lra].
  destruct (Rle_dec 0 (x + 100)) as [_|Hno]; [|lra].
  apply Zfloor_eq. rewrite plus_IZR.
  pose proof (Zfloor_bound x). lra.
Qed.

(** X27.  The live ticker repeats itself: its readings are drawn from a
    generator seeded with the whole seconds of the clock modulo 100, so for a
    given city the same readings (and the same state of the [random] module)
    come back 100 seconds later; a city has at most 100 different
    readings. *)
Theorem live_weather_repeats (twister : Z -> nat -> Z) (loc_data : location)
    (timestamp : R) :
  0 <= timestamp ->
  live_weather twister loc_data (timestamp + 100)
  = live_weather twister loc_data timestamp
  /\ exists s : Z,
       (0 <= s < 100)%Z
       /\ live_weather twister loc_data timestamp
          = live_weather twister loc_data (IZR s).
Proof.
  intros Ht. split.
  - unfold live_weather. rewrite (int_of_float_plus_100 timestamp Ht).
    replace ((int_of_float timestamp + 100) mod 100)%Z
      with (int_of_float timestamp mod 100)%Z; [reflexivity|].
    rewrite <- (Z_mod_plus_full (int_of_float timestamp) 1 100). f_equal; lia.
  - exists (int_of_float timestamp mod 100)%Z.
    pose proof (Z.mod_pos_bound (int_of_float timestamp) 100 ltac:(lia)) as Hs.
    split; [exact Hs|].
    unfold live_weather.
    replace (int_of_float (IZR (int_of_float timestamp mod 100)))
      with (int_of_float timestamp mod 100)%Z.
    + now rewrite Z.mod_mod by lia.
    + unfold int_of_float at 2.
      destruct (Rle_dec 0 (IZR (int_of_float timestamp mod 100))) as [_|Hno].
      * now rewrite ZfloorZ.
      * exfalso. apply Hno, IZR_le. lia.
Qed.

Lemma live_weather_repeats_in_mumbai :
  live_weather constant_twister MUMBAI (1793800000 + 100)
  = live_weather constant_twister MUMBAI 1793800000
  /\ exists s : Z,
       (0 <= s < 100)%Z
       /\ live_weather constant_twister MUMBAI 1793800000
          = live_weather constant_twister MUMBAI (IZR s).
Proof. apply (live_weather_repeats constant_twister MUMBAI 1793800000). lra. Defined.

(** X28.  In live mode the prediction never sees an overcast or a clear sky:
    whatever the clock and the draws, the ticker stays within 2 degrees of the
    city's base temperature and within 5 points of its base humidity, its
    solar index is between 65 and 85, and the cloud cover handed to the model
    is [100 - solar index], between 15 and 35.  Five numbers are drawn. *)
Theorem live_mode_ranges (twister : Z -> nat -> Z) (loc_data : location)
    (timestamp sim_temperature sim_cloud_cover sim_humidity : R) :
  let live := fst (live_weather twister loc_data timestamp) in
  let active :=
    active_weather false sim_temperature sim_cloud_cover sim_humidity live in
  snd (live_weather twister loc_data timestamp)
  = advance 5 (seed twister (int_of_float timestamp mod 100))
  /\ base_temp loc_data - 2 <= active_temp active <= base_temp loc_data + 2
  /\ base_humidity loc_data - 5 <= active_humidity active <= base_humidity loc_data + 5
  /\ 65 <= live_solar_index live <= 85
  /\ 15 <= active_cloud active <= 35
  /\ 5 <= live_uv live <= 7
  /\ 9 <= live_wind live <= 15.
Proof.
  cbv zeta. unfold live_weather, uniform, random.
  rewrite !advance_advance, !peek_advance.
  cbn [fst snd active_weather active_temp active_cloud active_humidity
       live_temp live_humidity live_uv live_wind live_solar_index Nat.add].
  set (g := seed twister (int_of_float timestamp mod 100)).
  pose proof (peek_range g 0). pose proof (peek_range g 1).
  pose proof (peek_range g 2). pose proof (peek_range g 3).
  pose proof (peek_range g 4).
  repeat split; try lra.
Qed.

End DashboardFacts.
